(** * BEtest backend: relational store, REST handlers and socket layer

    A shallow embedding of the team-collaboration backend:
    - the relational store (tables of the Prisma/MySQL schema),
    - the chat, task, todo, login, session and workspace member REST
      handlers, the mutations also as programs over the store and the
      emitted socket events,
    - the Socket.IO authentication middleware and event handlers,
    - the foreign keys of the migrations with their ON DELETE actions.

    Identifiers are strings (cuid/uuid columns), timestamps are
    milliseconds since the epoch (DATETIME(3) columns, JS [Date]). *)

From stdpp Require Import gmap strings list fin_maps functions sorting pretty.
From Stdlib Require Import ZArith Lia.

Local Open Scope string_scope.
Local Open Scope Z_scope.

(** ** Rows of the store *)

Record User := {
  u_id : string;
  u_email : string;
  u_password : string;
  u_nickname : string;
  u_avatar : option string;
  u_role : string;
  u_isActive : bool;
  u_lastLogin : option Z }.

Record Workspace := {
  ws_id : string;
  ws_name : string;
  ws_ownerId : string }.

Record WorkspaceMember := {
  wm_id : string;
  wm_workspaceId : string;
  wm_userId : string;
  wm_accepted : bool }.

Record ChatMessage := {
  cm_id : string;
  cm_workspaceId : string;
  cm_userId : string;
  cm_content : string;
  cm_createdAt : Z }.

(** The non-key columns of [chat_notifications]; the table is keyed by the
    compound unique key [userId_workspaceId]. *)
Record ChatNotification := {
  cn_unreadCount : nat;
  cn_lastReadAt : Z }.

Record GroupTask := {
  gt_id : string;
  gt_workspaceId : string;
  gt_title : string;
  gt_description : option string;
  gt_department : string;
  gt_status : string;
  gt_startDate : Z;
  gt_dueDate : Z }.

Record PersonalTodo := {
  pt_id : string;
  pt_userId : string;
  pt_title : string;
  pt_description : option string;
  pt_status : string;
  pt_priority : string;
  pt_startDate : option Z;
  pt_dueDate : option Z }.

Record Friend := {
  fr_id : string;
  fr_userId : string;
  fr_friendId : string;
  fr_status : string }.

Record RefreshToken := {
  rt_id : string;
  rt_token : string;
  rt_userId : string;
  rt_expiresAt : Z }.

Record Store := {
  users : list User;
  friends : list Friend;
  personalTodos : list PersonalTodo;
  workspaces : list Workspace;
  workspaceMembers : list WorkspaceMember;
  groupTasks : list GroupTask;
  chatMessages : list ChatMessage;
  chatNotifications : gmap (string * string) ChatNotification;
  refreshTokens : list RefreshToken }.

Definition emptyStore : Store :=
  {| users := []; friends := []; personalTodos := []; workspaces := [];
     workspaceMembers := []; groupTasks := []; chatMessages := [];
     chatNotifications := ∅; refreshTokens := [] |}.

(** Field updates. *)
Definition with_users (v : list User) (s : Store) : Store :=
  {| users := v; friends := friends s; personalTodos := personalTodos s;
     workspaces := workspaces s; workspaceMembers := workspaceMembers s;
     groupTasks := groupTasks s; chatMessages := chatMessages s;
     chatNotifications := chatNotifications s;
     refreshTokens := refreshTokens s |}.

Definition with_personalTodos (v : list PersonalTodo) (s : Store) : Store :=
  {| users := users s; friends := friends s; personalTodos := v;
     workspaces := workspaces s; workspaceMembers := workspaceMembers s;
     groupTasks := groupTasks s; chatMessages := chatMessages s;
     chatNotifications := chatNotifications s;
     refreshTokens := refreshTokens s |}.

Definition with_workspaces (v : list Workspace) (s : Store) : Store :=
  {| users := users s; friends := friends s; personalTodos := personalTodos s;
     workspaces := v; workspaceMembers := workspaceMembers s;
     groupTasks := groupTasks s; chatMessages := chatMessages s;
     chatNotifications := chatNotifications s;
     refreshTokens := refreshTokens s |}.

Definition with_groupTasks (v : list GroupTask) (s : Store) : Store :=
  {| users := users s; friends := friends s; personalTodos := personalTodos s;
     workspaces := workspaces s; workspaceMembers := workspaceMembers s;
     groupTasks := v; chatMessages := chatMessages s;
     chatNotifications := chatNotifications s;
     refreshTokens := refreshTokens s |}.

Definition with_chatMessages (v : list ChatMessage) (s : Store) : Store :=
  {| users := users s; friends := friends s; personalTodos := personalTodos s;
     workspaces := workspaces s; workspaceMembers := workspaceMembers s;
     groupTasks := groupTasks s; chatMessages := v;
     chatNotifications := chatNotifications s;
     refreshTokens := refreshTokens s |}.

Definition with_chatNotifications
    (v : gmap (string * string) ChatNotification) (s : Store) : Store :=
  {| users := users s; friends := friends s; personalTodos := personalTodos s;
     workspaces := workspaces s; workspaceMembers := workspaceMembers s;
     groupTasks := groupTasks s; chatMessages := chatMessages s;
     chatNotifications := v;
     refreshTokens := refreshTokens s |}.

Definition with_refreshTokens (v : list RefreshToken) (s : Store) : Store :=
  {| users := users s; friends := friends s; personalTodos := personalTodos s;
     workspaces := workspaces s; workspaceMembers := workspaceMembers s;
     groupTasks := groupTasks s; chatMessages := chatMessages s;
     chatNotifications := chatNotifications s;
     refreshTokens := v |}.

(** ** Prisma queries used by the handlers *)

(** [findFirst] / [findUnique]: the first row satisfying the filter. *)
Definition findFirst {A} (P : A → Prop) `{!∀ x, Decision (P x)}
    (l : list A) : option A :=
  head (filter P l).

(** [count]: the number of rows satisfying the filter. *)
Definition count {A} (P : A → Prop) `{!∀ x, Decision (P x)}
    (l : list A) : nat :=
  length (filter P l).

(** [delete] / [deleteMany]: the rows not satisfying the filter remain. *)
Definition deleteWhere {A} (P : A → Prop) `{!∀ x, Decision (P x)}
    (l : list A) : list A :=
  filter (λ x, ¬ P x) l.

(** HTTP responses: a status and a JSON body. *)
Record UserBrief := {
  ub_id : string;
  ub_nickname : string;
  ub_avatar : option string }.

Record Account := {
  ac_id : string;
  ac_email : string;
  ac_nickname : string;
  ac_role : string;
  ac_avatar : option string }.

Record Pagination := {
  currentPage : Z;
  totalPages : option Z;
  totalCount : nat;
  hasNext : bool;
  hasPrev : bool }.

Inductive Body :=
  | BError (error : string)
  | BInfo (message : string)
  | BChatMessage (m : ChatMessage) (user : option UserBrief)
  | BChatPage (messages : list (ChatMessage * option UserBrief))
      (pagination : Pagination)
  | BWorkspace (w : Workspace) (owner : option UserBrief)
  | BTask (t : GroupTask)
  | BTodo (t : PersonalTodo)
  | BUpdated (message : string) (updatedCount : nat)
  | BLogin (user : Account) (accessToken : string)
      (refreshToken : option string)
  | BEmpty.

Record Response := { status : nat; body : Body }.

Definition respond (st : nat) (b : Body) : Response :=
  {| status := st; body := b |}.

(** The clock and the identifier generator a request runs against:
    [new Date()] / [CURRENT_TIMESTAMP(3)] and the id Prisma gives a new row. *)
Record Env := { now : Z; freshId : string }.

(** [upsert]: update the row under the unique key when it exists, create it
    otherwise. *)
Definition upsert `{Countable K} {V} (k : K) (update : V → V) (create : V)
    (m : gmap K V) : gmap K V :=
  match m !! k with
  | Some v => <[k := update v]> m
  | None => <[k := create]> m
  end.

(** ** Workspace membership filters *)

(** [where: { workspaceId, userId, accepted: true }] on [workspaceMember]. *)
Definition acceptedMemberOf (workspaceId userId : string)
    (m : WorkspaceMember) : Prop :=
  wm_workspaceId m = workspaceId ∧ wm_userId m = userId ∧ wm_accepted m = true.

(** [where: { id, ownerId }] on [workspace]. *)
Definition ownedBy (workspaceId userId : string) (w : Workspace) : Prop :=
  ws_id w = workspaceId ∧ ws_ownerId w = userId.

#[global] Instance acceptedMemberOf_dec w u m : Decision (acceptedMemberOf w u m).
Proof. unfold acceptedMemberOf. apply _. Defined.

#[global] Instance ownedBy_dec w u x : Decision (ownedBy w u x).
Proof. unfold ownedBy. apply _. Defined.

(** [orderBy: { createdAt: "desc" }] *)
Definition newestFirst (a b : ChatMessage) : Prop :=
  (cm_createdAt b ≤ cm_createdAt a)%Z.

#[global] Instance newestFirst_dec a b : Decision (newestFirst a b).
Proof. unfold newestFirst. apply _. Defined.

(** ** Chat routes (routes/chat.js) *)

Module Chat.
Section Handlers.

(** [String.prototype.trim]. *)
Variable trim : string → string.

(** The column default of [chat_notifications.lastReadAt], as a function
    of the time of the insert: the table's declaration is not part of the
    sources, and the [create] branch of the send handler's upsert leaves
    the column to its default. *)
Variable lastReadAtDefault : Z → Z.

Definition userBrief (s : Store) (uid : string) : option UserBrief :=
  (λ u, {| ub_id := u_id u; ub_nickname := u_nickname u;
           ub_avatar := u_avatar u |})
    <$> findFirst (λ u, u_id u = uid) (users s).

(** [prisma.chatMessage.create]: the primary key and the two foreign keys
    of [chat_messages] are checked by the database; a violation throws. *)
Definition createChatMessage (env : Env) (workspaceId userId content : string)
    (s : Store) : option (Store * ChatMessage) :=
  if decide (Exists (λ m, cm_id m = freshId env) (chatMessages s)) then None
  else if decide (Exists (λ w, ws_id w = workspaceId) (workspaces s)
                  ∧ Exists (λ u, u_id u = userId) (users s)) then
    let m := {| cm_id := freshId env; cm_workspaceId := workspaceId;
                cm_userId := userId; cm_content := content;
                cm_createdAt := now env |} in
    Some (with_chatMessages (chatMessages s ++ [m]) s, m)
  else None.

(** The upsert of the send handler: [update: { unreadCount: { increment: 1 } }],
    [create: { userId, workspaceId, unreadCount: 1 }]. *)
Definition incrementUnread (env : Env) (workspaceId : string)
    (t : gmap (string * string) ChatNotification) (userId : string)
    : gmap (string * string) ChatNotification :=
  upsert (userId, workspaceId)
    (λ n, {| cn_unreadCount := S (cn_unreadCount n);
             cn_lastReadAt := cn_lastReadAt n |})
    {| cn_unreadCount := 1; cn_lastReadAt := lastReadAtDefault (now env) |}
    t.

(** The users whose counter the send handler raises: the accepted members
    other than the author, then the owner unless the owner is the author. *)
Definition sendRecipients (uid workspaceId : string) (workspace : Workspace)
    (s : Store) : list string :=
  let workspaceMembers :=
    filter (λ m, wm_workspaceId m = workspaceId ∧ wm_accepted m = true
                 ∧ wm_userId m ≠ uid) (workspaceMembers s) in
  (wm_userId <$> workspaceMembers)
    ++ (if decide (ws_ownerId workspace ≠ uid) then [ws_ownerId workspace]
        else []).

(** POST /chat/workspace/:workspaceId *)
Definition sendMessage (env : Env) (uid workspaceId : string)
    (content : option string) (s : Store) : Store * Response :=
  match content with
  | None => (s, respond 400 (BError "메시지 내용을 입력해주세요."))
  | Some c =>
    if decide (c = "" ∨ String.length (trim c) = 0%nat) then
      (s, respond 400 (BError "메시지 내용을 입력해주세요."))
    else
      match findFirst (acceptedMemberOf workspaceId uid) (workspaceMembers s) with
      | None => (s, respond 403 (BError "워크스페이스에 접근할 권한이 없습니다."))
      | Some _ =>
        match createChatMessage env workspaceId uid (trim c) s with
        | None => (s, respond 500 (BError "채팅 메시지를 전송할 수 없습니다."))
        | Some (s1, message) =>
          match findFirst (λ w, ws_id w = workspaceId) (workspaces s1) with
          | None => (s1, respond 500 (BError "채팅 메시지를 전송할 수 없습니다."))
          | Some workspace =>
            let allMembers := sendRecipients uid workspaceId workspace s1 in
            let t := foldl (incrementUnread env workspaceId)
                       (chatNotifications s1) allMembers in
            (with_chatNotifications t s1,
             respond 201 (BChatMessage message (userBrief s1 uid)))
          end
        end
      end
  end.

(** GET /chat/workspace/:workspaceId, with [page] and [limit] the numeric
    values of the query parameters (defaults 1 and 50). Rows with equal
    [createdAt] keep their table order. *)
Definition chatHistory (uid workspaceId : string) (page : option Z)
    (limit : option nat) (s : Store) : Response :=
  let page := default 1 page in
  let limit := default 50%nat limit in
  let offset := (page - 1) * Z.of_nat limit in
  match findFirst (acceptedMemberOf workspaceId uid) (workspaceMembers s) with
  | None => respond 403 (BError "워크스페이스에 접근할 권한이 없습니다.")
  | Some _ =>
    if decide (offset < 0) then
      respond 500 (BError "채팅 메시지를 조회할 수 없습니다.")
    else
      let inWorkspace :=
        filter (λ m, cm_workspaceId m = workspaceId) (chatMessages s) in
      let sorted :=
        merge_sort newestFirst inWorkspace in
      let messages := take limit (drop (Z.to_nat offset) sorted) in
      let totalCount := length inWorkspace in
      respond 200
        (BChatPage
           ((λ m, (m, userBrief s (cm_userId m))) <$> reverse messages)
           {| currentPage := page;
              totalPages :=
                if decide (limit = 0%nat) then None
                else Some ((Z.of_nat totalCount + Z.of_nat limit - 1)
                           / Z.of_nat limit);
              totalCount := totalCount;
              hasNext :=
                bool_decide (offset + Z.of_nat (length messages)
                             < Z.of_nat totalCount);
              hasPrev := bool_decide (1 < page) |})
  end.

(** The number of messages of a workspace created after [lastReadAt]:
    [count({ where: { workspaceId, createdAt: { gt: lastReadAt } } })]. *)
Definition unreadSince (workspaceId : string) (lastReadAt : Z)
    (msgs : list ChatMessage) : nat :=
  count (λ m, cm_workspaceId m = workspaceId ∧ lastReadAt < cm_createdAt m)
    msgs.

(** One round of the recalculation loop of the delete handler. *)
Definition recountUnread (workspaceId : string) (msgs : list ChatMessage)
    (t : gmap (string * string) ChatNotification) (userId : string)
    : gmap (string * string) ChatNotification :=
  match t !! (userId, workspaceId) with
  | Some notification =>
    let lastReadAt := cn_lastReadAt notification in
    let unreadCount := unreadSince workspaceId lastReadAt msgs in
    <[(userId, workspaceId) :=
        {| cn_unreadCount := unreadCount; cn_lastReadAt := lastReadAt |}]> t
  | None => t
  end.

(** The users whose counter the delete handler recalculates. *)
Definition deleteRecipients (workspaceId : string) (workspace : Workspace)
    (s : Store) : list string :=
  let workspaceMembers :=
    filter (λ m, wm_workspaceId m = workspaceId ∧ wm_accepted m = true)
      (workspaceMembers s) in
  (wm_userId <$> workspaceMembers) ++ [ws_ownerId workspace].

(** DELETE /chat/message/:messageId *)
Definition deleteMessage (uid messageId : string) (s : Store)
    : Store * Response :=
  match findFirst (λ m, cm_id m = messageId) (chatMessages s) with
  | None => (s, respond 404 (BError "메시지를 찾을 수 없습니다."))
  | Some message =>
    match findFirst (λ w, ws_id w = cm_workspaceId message) (workspaces s) with
    | None => (s, respond 500 (BError "메시지를 삭제할 수 없습니다."))
    | Some workspace =>
      let members :=
        filter (λ m, wm_workspaceId m = ws_id workspace ∧ wm_userId m = uid
                     ∧ wm_accepted m = true) (workspaceMembers s) in
      let isOwner := bool_decide (ws_ownerId workspace = uid) in
      let isAuthor := bool_decide (cm_userId message = uid) in
      let isMember := bool_decide (0 < length members)%nat in
      if negb isOwner && negb isAuthor && negb isMember then
        (s, respond 403 (BError "메시지를 삭제할 권한이 없습니다."))
      else
        let s1 :=
          with_chatMessages
            (deleteWhere (λ m, cm_id m = messageId) (chatMessages s)) s in
        let allMembers :=
          deleteRecipients (cm_workspaceId message) workspace s1 in
        let t := foldl (recountUnread (cm_workspaceId message) (chatMessages s1))
                   (chatNotifications s1) allMembers in
        (with_chatNotifications t s1,
         respond 200 (BInfo "메시지가 삭제되었습니다."))
    end
  end.

(** POST /chat/workspace/:workspaceId/read *)
Definition markRead (env : Env) (uid workspaceId : string) (s : Store)
    : Store * Response :=
  let member :=
    findFirst (acceptedMemberOf workspaceId uid) (workspaceMembers s) in
  let isOwner := findFirst (ownedBy workspaceId uid) (workspaces s) in
  if bool_decide (member = None) && bool_decide (isOwner = None) then
    (s, respond 403 (BError "워크스페이스에 접근할 권한이 없습니다."))
  else
    let t :=
      upsert (uid, workspaceId)
        (λ _, {| cn_unreadCount := 0; cn_lastReadAt := now env |})
        {| cn_unreadCount := 0; cn_lastReadAt := now env |}
        (chatNotifications s) in
    (with_chatNotifications t s,
     respond 200 (BInfo "채팅 메시지가 읽음 처리되었습니다.")).

End Handlers.
End Chat.

(** ** JavaScript truthiness of optional string fields *)

(** [!!x] for a field that is absent or a string: the empty string is falsy. *)
Definition truthy (x : option string) : bool :=
  match x with
  | Some v => bool_decide (v ≠ "")
  | None => false
  end.

(** [x || d] *)
Definition orElse (x : option string) (d : string) : string :=
  match x with
  | Some v => if decide (v = "") then d else v
  | None => d
  end.

(** [updateMany] / [update]: the rows satisfying the filter are rewritten. *)
Definition updateWhere {A} (P : A → Prop) `{!∀ x, Decision (P x)}
    (f : A → A) (l : list A) : list A :=
  (λ x, if decide (P x) then f x else x) <$> l.

Definition validStatuses : list string := ["pending"; "in_progress"; "completed"].
Definition validPriorities : list string := ["low"; "medium"; "high"].
Definition departments : list string := ["FE"; "BE"; "QA"].

(** ** Group task routes (routes/tasks.js), after the route middlewares *)

Module Tasks.
Section Handlers.

(** [new Date(string)]: the time value, or [None] for an Invalid Date. *)
Variable parseDate : string → option Z.

(** The request body, as far as it names columns of [group_tasks] with
    string values. The POST handler reads the six fields it destructures;
    the PATCH handler hands the whole body to Prisma, [id] and [workspaceId]
    included. *)
Record TaskBody := {
  tb_title : option string;
  tb_description : option string;
  tb_department : option string;
  tb_status : option string;
  tb_startDate : option string;
  tb_dueDate : option string;
  tb_id : option string;
  tb_workspaceId : option string }.

(** [prisma.groupTask.create]: primary key and the foreign key to
    [workspaces] are checked by the database. *)
Definition createGroupTask (t : GroupTask) (s : Store) : option Store :=
  if decide (Exists (λ x, gt_id x = gt_id t) (groupTasks s)) then None
  else if decide (Exists (λ w, ws_id w = gt_workspaceId t) (workspaces s)) then
    Some (with_groupTasks (groupTasks s ++ [t]) s)
  else None.

(** POST /workspaces/:wsId/tasks *)
Definition createTask (env : Env) (wsId : string) (b : TaskBody) (s : Store)
    : Store * Response :=
  if negb (truthy (tb_title b)) || negb (truthy (tb_department b))
     || negb (truthy (tb_startDate b)) || negb (truthy (tb_dueDate b)) then
    (s, respond 400 (BError "제목, 부서, 시작일, 목표종료일은 필수입니다"))
  else if decide (default "" (tb_department b) ∉ departments) then
    (s, respond 400 (BError "부서는 FE, BE, QA 중 하나여야 합니다"))
  else if truthy (tb_status b)
          && bool_decide (default "" (tb_status b) ∉ validStatuses) then
    (s, respond 400 (BError "유효하지 않은 상태입니다"))
  else
    let start := parseDate (default "" (tb_startDate b)) in
    let due := parseDate (default "" (tb_dueDate b)) in
    match start, due with
    | Some st, Some du =>
      if decide (du ≤ st) then
        (s, respond 400 (BError "목표종료일은 시작일보다 늦어야 합니다"))
      else
        let task :=
          {| gt_id := freshId env; gt_workspaceId := wsId;
             gt_title := default "" (tb_title b);
             gt_description := tb_description b;
             gt_department := default "" (tb_department b);
             gt_status := orElse (tb_status b) "pending";
             gt_startDate := st; gt_dueDate := du |} in
        match createGroupTask task s with
        | Some s' => (s', respond 201 (BTask task))
        | None => (s, respond 500 (BError "Task 생성에 실패했습니다"))
        end
    | _, _ =>
      (* an Invalid Date compares false and is refused by the create *)
      (s, respond 500 (BError "Task 생성에 실패했습니다"))
    end.

(** The [data] of the PATCH handler once its dates are converted: [None] when
    the update is refused (an empty string or an Invalid Date in a DateTime
    column). *)
Definition patchDate (x : option string) (old : Z) : option Z :=
  match x with
  | None => Some old
  | Some v => if decide (v = "") then None else parseDate v
  end.

Definition applyTaskBody (b : TaskBody) (t : GroupTask) : option GroupTask :=
  match patchDate (tb_startDate b) (gt_startDate t),
        patchDate (tb_dueDate b) (gt_dueDate t) with
  | Some st, Some du =>
    Some {| gt_id := default (gt_id t) (tb_id b);
            gt_workspaceId := default (gt_workspaceId t) (tb_workspaceId b);
            gt_title := default (gt_title t) (tb_title b);
            gt_description :=
              match tb_description b with
              | Some d => Some d
              | None => gt_description t
              end;
            gt_department := default (gt_department t) (tb_department b);
            gt_status := default (gt_status t) (tb_status b);
            gt_startDate := st; gt_dueDate := du |}
  | _, _ => None
  end.

(** [prisma.groupTask.update({ where: { id: taskId }, data })] with the row
    the data give: a new [id] held by another task violates the primary key,
    a new [workspaceId] without a workspace the foreign key. *)
Definition updateGroupTask (taskId : string) (target updated : GroupTask)
    (s : Store) : option Store :=
  if decide (gt_id updated ≠ gt_id target
             ∧ Exists (λ x, gt_id x = gt_id updated) (groupTasks s)) then None
  else if decide (gt_workspaceId updated ≠ gt_workspaceId target
                  ∧ ¬ Exists (λ w, ws_id w = gt_workspaceId updated)
                        (workspaces s)) then None
  else
    Some (with_groupTasks
            (updateWhere (λ t, gt_id t = taskId) (λ _, updated)
               (groupTasks s)) s).

(** Both dates given and converted, and the due date not after the start. *)
Definition datesOutOfOrder (b : TaskBody) : bool :=
  if truthy (tb_startDate b) && truthy (tb_dueDate b) then
    match parseDate (default "" (tb_startDate b)),
          parseDate (default "" (tb_dueDate b)) with
    | Some st, Some du => bool_decide (du ≤ st)
    | _, _ => false
    end
  else false.

(** PATCH /workspaces/:wsId/tasks/:taskId *)
Definition updateTask (wsId taskId : string) (b : TaskBody) (s : Store)
    : Store * Response :=
  match findFirst (λ t, gt_id t = taskId ∧ gt_workspaceId t = wsId)
          (groupTasks s) with
  | None => (s, respond 404 (BError "Task를 찾을 수 없습니다"))
  | Some existingTask =>
    if truthy (tb_department b)
       && bool_decide (default "" (tb_department b) ∉ departments) then
      (s, respond 400 (BError "부서는 FE, BE, QA 중 하나여야 합니다"))
    else if truthy (tb_status b)
            && bool_decide (default "" (tb_status b) ∉ validStatuses) then
      (s, respond 400 (BError "유효하지 않은 상태입니다"))
    else if datesOutOfOrder b then
      (s, respond 400 (BError "목표종료일은 시작일보다 늦어야 합니다"))
    else
      match findFirst (λ t, gt_id t = taskId) (groupTasks s) with
      | None => (s, respond 500 (BError "Task 수정에 실패했습니다"))
      | Some target =>
        match applyTaskBody b target with
        | None => (s, respond 500 (BError "Task 수정에 실패했습니다"))
        | Some updatedTask =>
          match updateGroupTask taskId target updatedTask s with
          | None => (s, respond 500 (BError "Task 수정에 실패했습니다"))
          | Some s' => (s', respond 200 (BTask updatedTask))
          end
        end
      end
  end.

(** DELETE /workspaces/:wsId/tasks/:taskId *)
Definition deleteTask (wsId taskId : string) (s : Store) : Store * Response :=
  match findFirst (λ t, gt_id t = taskId ∧ gt_workspaceId t = wsId)
          (groupTasks s) with
  | None => (s, respond 404 (BError "Task를 찾을 수 없습니다"))
  | Some _ =>
    (with_groupTasks (deleteWhere (λ t, gt_id t = taskId) (groupTasks s)) s,
     respond 204 BEmpty)
  end.

(** PATCH /workspaces/:wsId/tasks/bulk/status; [taskIds] is [None] when the
    field is absent or not an array. *)
Definition bulkStatus (wsId : string) (taskIds : option (list string))
    (status : option string) (s : Store) : Store * Response :=
  match taskIds with
  | None | Some [] =>
    (s, respond 400 (BError "유효한 Task ID 배열이 필요합니다"))
  | Some ids =>
    if negb (truthy status) || bool_decide (default "" status ∉ validStatuses)
    then (s, respond 400 (BError "유효하지 않은 상태입니다"))
    else
      let hit := λ t, gt_id t ∈ ids ∧ gt_workspaceId t = wsId in
      let n := count hit (groupTasks s) in
      (with_groupTasks
         (updateWhere hit
            (λ t, {| gt_id := gt_id t; gt_workspaceId := gt_workspaceId t;
                     gt_title := gt_title t; gt_description := gt_description t;
                     gt_department := gt_department t;
                     gt_status := default "" status;
                     gt_startDate := gt_startDate t;
                     gt_dueDate := gt_dueDate t |})
            (groupTasks s)) s,
       respond 200
         (BUpdated (pretty n ++ "개의 Task 상태가 업데이트되었습니다") n))
  end.

End Handlers.
End Tasks.

(** ** Personal todo routes (routes/todos.js), after the route middleware *)

Module Todos.
Section Handlers.

Variable parseDate : string → option Z.

(** The request body, as far as it names columns of [personal_todos] with
    string values. The POST handler reads the six fields it destructures;
    the PATCH handler hands the whole body to Prisma, [id] and [userId]
    included. *)
Record TodoBody := {
  db_title : option string;
  db_description : option string;
  db_status : option string;
  db_priority : option string;
  db_startDate : option string;
  db_dueDate : option string;
  db_id : option string;
  db_userId : option string }.

(** [prisma.personalTodo.create]: primary key and the foreign key to [users]. *)
Definition createPersonalTodo (t : PersonalTodo) (s : Store) : option Store :=
  if decide (Exists (λ x, pt_id x = pt_id t) (personalTodos s)) then None
  else if decide (Exists (λ u, u_id u = pt_userId t) (users s)) then
    Some (with_personalTodos (personalTodos s ++ [t]) s)
  else None.

(** [x ? new Date(x) : null]; the outer [None] is an Invalid Date. *)
Definition optionalDate (x : option string) : option (option Z) :=
  if truthy x then Some <$> parseDate (default "" x) else Some None.

(** POST /me/todos *)
Definition createTodo (env : Env) (userId : string) (b : TodoBody) (s : Store)
    : Store * Response :=
  if negb (truthy (db_title b)) then
    (s, respond 400 (BError "제목은 필수입니다"))
  else if truthy (db_status b)
          && bool_decide (default "" (db_status b) ∉ validStatuses) then
    (s, respond 400 (BError "유효하지 않은 상태입니다"))
  else if truthy (db_priority b)
          && bool_decide (default "" (db_priority b) ∉ validPriorities) then
    (s, respond 400 (BError "유효하지 않은 우선순위입니다"))
  else
    match optionalDate (db_startDate b), optionalDate (db_dueDate b) with
    | Some st, Some du =>
      let todo :=
        {| pt_id := freshId env; pt_userId := userId;
           pt_title := default "" (db_title b);
           pt_description := db_description b;
           pt_status := orElse (db_status b) "pending";
           pt_priority := orElse (db_priority b) "medium";
           pt_startDate := st; pt_dueDate := du |} in
      match createPersonalTodo todo s with
      | Some s' => (s', respond 201 (BTodo todo))
      | None => (s, respond 500 (BError "Todo 생성에 실패했습니다"))
      end
    | _, _ => (s, respond 500 (BError "Todo 생성에 실패했습니다"))
    end.

(** The converted date of the PATCH handler: kept when the field is absent,
    refused ([None]) for an empty string or an Invalid Date. *)
Definition patchOptionalDate (x : option string) (old : option Z)
    : option (option Z) :=
  match x with
  | None => Some old
  | Some v => if decide (v = "") then None else Some <$> parseDate v
  end.

Definition applyTodoBody (b : TodoBody) (t : PersonalTodo)
    : option PersonalTodo :=
  match patchOptionalDate (db_startDate b) (pt_startDate t),
        patchOptionalDate (db_dueDate b) (pt_dueDate t) with
  | Some st, Some du =>
    Some {| pt_id := default (pt_id t) (db_id b);
            pt_userId := default (pt_userId t) (db_userId b);
            pt_title := default (pt_title t) (db_title b);
            pt_description :=
              match db_description b with
              | Some d => Some d
              | None => pt_description t
              end;
            pt_status := default (pt_status t) (db_status b);
            pt_priority := default (pt_priority t) (db_priority b);
            pt_startDate := st; pt_dueDate := du |}
  | _, _ => None
  end.

(** [prisma.personalTodo.update({ where: { id }, data })] with the row the
    data give: a new [id] held by another todo violates the primary key, a
    new [userId] without a user the foreign key. *)
Definition updatePersonalTodo (id : string) (target updated : PersonalTodo)
    (s : Store) : option Store :=
  if decide (pt_id updated ≠ pt_id target
             ∧ Exists (λ x, pt_id x = pt_id updated) (personalTodos s))
  then None
  else if decide (pt_userId updated ≠ pt_userId target
                  ∧ ¬ Exists (λ u, u_id u = pt_userId updated) (users s))
  then None
  else
    Some (with_personalTodos
            (updateWhere (λ t, pt_id t = id) (λ _, updated)
               (personalTodos s)) s).

(** PATCH /me/todos/:id *)
Definition updateTodo (userId id : string) (b : TodoBody) (s : Store)
    : Store * Response :=
  match findFirst (λ t, pt_id t = id ∧ pt_userId t = userId)
          (personalTodos s) with
  | None => (s, respond 404 (BError "Todo를 찾을 수 없습니다"))
  | Some existingTodo =>
    if truthy (db_status b)
       && bool_decide (default "" (db_status b) ∉ validStatuses) then
      (s, respond 400 (BError "유효하지 않은 상태입니다"))
    else if truthy (db_priority b)
            && bool_decide (default "" (db_priority b) ∉ validPriorities) then
      (s, respond 400 (BError "유효하지 않은 우선순위입니다"))
    else
      match findFirst (λ t, pt_id t = id) (personalTodos s) with
      | None => (s, respond 500 (BError "Todo 수정에 실패했습니다"))
      | Some target =>
        match applyTodoBody b target with
        | None => (s, respond 500 (BError "Todo 수정에 실패했습니다"))
        | Some updatedTodo =>
          match updatePersonalTodo id target updatedTodo s with
          | None => (s, respond 500 (BError "Todo 수정에 실패했습니다"))
          | Some s' => (s', respond 200 (BTodo updatedTodo))
          end
        end
      end
  end.

(** DELETE /me/todos/:id *)
Definition deleteTodo (userId id : string) (s : Store) : Store * Response :=
  match findFirst (λ t, pt_id t = id ∧ pt_userId t = userId)
          (personalTodos s) with
  | None => (s, respond 404 (BError "Todo를 찾을 수 없습니다"))
  | Some _ =>
    (with_personalTodos (deleteWhere (λ t, pt_id t = id) (personalTodos s)) s,
     respond 204 BEmpty)
  end.

(** PATCH /me/todos/bulk/status *)
Definition bulkStatus (userId : string) (todoIds : option (list string))
    (status : option string) (s : Store) : Store * Response :=
  match todoIds with
  | None | Some [] =>
    (s, respond 400 (BError "유효한 Todo ID 배열이 필요합니다"))
  | Some ids =>
    if negb (truthy status) || bool_decide (default "" status ∉ validStatuses)
    then (s, respond 400 (BError "유효하지 않은 상태입니다"))
    else
      let hit := λ t, pt_id t ∈ ids ∧ pt_userId t = userId in
      let n := count hit (personalTodos s) in
      (with_personalTodos
         (updateWhere hit
            (λ t, {| pt_id := pt_id t; pt_userId := pt_userId t;
                     pt_title := pt_title t;
                     pt_description := pt_description t;
                     pt_status := default "" status;
                     pt_priority := pt_priority t;
                     pt_startDate := pt_startDate t;
                     pt_dueDate := pt_dueDate t |})
            (personalTodos s)) s,
       respond 200
         (BUpdated (pretty n ++ "개의 Todo 상태가 업데이트되었습니다") n))
  end.

End Handlers.
End Todos.

(** ** Login (routes/auth.js) *)

Module Auth.
Section Login.

(** [bcrypt.compare(password, hash)]. *)
Variable bcryptCompare : string → string → bool.

(** [generateTokens(id, email, role)] of the auth middleware module: the
    access and the refresh token, or [None] when it throws. *)
Variable generateTokens : string → string → string → option (string * string).

(** The two secrets of [process.env] the handler looks at. *)
Record ProcessEnv := {
  JWT_SECRET : option string;
  REFRESH_TOKEN_SECRET : option string }.

(** [prisma.refreshToken.create]: the primary key, the unique index on
    [token] and the foreign key to [users] are checked by the database. *)
Definition createRefreshToken (t : RefreshToken) (s : Store) : option Store :=
  if decide (Exists (λ x, rt_id x = rt_id t) (refreshTokens s)) then None
  else if decide (Exists (λ x, rt_token x = rt_token t) (refreshTokens s)) then
    None
  else if decide (Exists (λ u, u_id u = rt_userId t) (users s)) then
    Some (with_refreshTokens (refreshTokens s ++ [t]) s)
  else None.

Definition sevenDays : Z := 7 * 24 * 60 * 60 * 1000.

(** The refresh-token replacement of the login handler; a failure of the
    [create] is caught and logged, and the login goes on. *)
Definition replaceRefreshToken (env : Env) (userId refreshToken : string)
    (s : Store) : Store :=
  let s1 :=
    with_refreshTokens
      (deleteWhere (λ t, rt_userId t = userId) (refreshTokens s)) s in
  match createRefreshToken
          {| rt_id := freshId env; rt_token := refreshToken;
             rt_userId := userId; rt_expiresAt := now env + sevenDays |} s1 with
  | Some s2 => s2
  | None => s1
  end.

Definition touchLastLogin (env : Env) (u : User) : User :=
  {| u_id := u_id u; u_email := u_email u; u_password := u_password u;
     u_nickname := u_nickname u; u_avatar := u_avatar u; u_role := u_role u;
     u_isActive := u_isActive u; u_lastLogin := Some (now env) |}.

(** POST /auth/login *)
Definition login (penv : ProcessEnv) (env : Env) (email password : option string)
    (s : Store) : Store * Response :=
  if negb (truthy email) || negb (truthy password) then
    (s, respond 400 (BError "이메일과 비밀번호는 필수입니다"))
  else
    match findFirst (λ u, u_email u = default "" email) (users s) with
    | None => (s, respond 401 (BError "이메일 또는 비밀번호가 잘못되었습니다"))
    | Some user =>
      if negb (u_isActive user) then
        (s, respond 401 (BError "이메일 또는 비밀번호가 잘못되었습니다"))
      else if negb (bcryptCompare (default "" password) (u_password user)) then
        (s, respond 401 (BError "이메일 또는 비밀번호가 잘못되었습니다"))
      else
        let s1 :=
          with_users
            (updateWhere (λ u, u_id u = u_id user) (touchLastLogin env)
               (users s)) s in
        if negb (truthy (JWT_SECRET penv))
           || negb (truthy (REFRESH_TOKEN_SECRET penv)) then
          (s1, respond 500 (BError "토큰 생성 중 오류가 발생했습니다"))
        else
          match generateTokens (u_id user) (u_email user) (u_role user) with
          | None => (s1, respond 500 (BError "토큰 생성 중 오류가 발생했습니다"))
          | Some (accessToken, refreshToken) =>
            (replaceRefreshToken env (u_id user) refreshToken s1,
             respond 200
               (BLogin
                  {| ac_id := u_id user; ac_email := u_email user;
                     ac_nickname := u_nickname user; ac_role := u_role user;
                     ac_avatar := u_avatar user |}
                  accessToken
                  (if truthy (Some refreshToken) then Some refreshToken
                   else None)))
          end
    end.

End Login.
End Auth.

(** ** Workspace creation (routes/workspaces.js) *)

Module Workspaces.

(** [prisma.workspace.create]: primary key and the foreign key to [users]. *)
Definition createWorkspace (w : Workspace) (s : Store) : option Store :=
  if decide (Exists (λ x, ws_id x = ws_id w) (workspaces s)) then None
  else if decide (Exists (λ u, u_id u = ws_ownerId w) (users s)) then
    Some (with_workspaces (workspaces s ++ [w]) s)
  else None.

(** POST /workspaces: the workspace row and the owner's chat notification
    row; no workspace member row is written for the owner. *)
Definition create (env : Env) (userId : string) (name : option string)
    (s : Store) : Store * Response :=
  if negb (truthy name) then
    (s, respond 400 (BError "워크스페이스 이름은 필수입니다"))
  else
    let workspace :=
      {| ws_id := freshId env; ws_name := default "" name;
         ws_ownerId := userId |} in
    match createWorkspace workspace s with
    | None => (s, respond 500 (BError "워크스페이스 생성에 실패했습니다"))
    | Some s1 =>
      match chatNotifications s1 !! (userId, ws_id workspace) with
      | Some _ => (s1, respond 500 (BError "워크스페이스 생성에 실패했습니다"))
      | None =>
        (with_chatNotifications
           (<[(userId, ws_id workspace) :=
                {| cn_unreadCount := 0; cn_lastReadAt := now env |}]>
              (chatNotifications s1)) s1,
         respond 201
           (BWorkspace workspace
              ((λ u, {| ub_id := u_id u; ub_nickname := u_nickname u;
                        ub_avatar := u_avatar u |})
                 <$> findFirst (λ u, u_id u = userId) (users s1))))
      end
    end.

End Workspaces.

(** ** The Socket.IO layer (socket.js) *)

Module Socket.

(** The decoded token, as far as the handlers read it. *)
Record Payload := { pl_userId : string; pl_email : string }.

(** [socket.handshake.auth] *)
Record Handshake := { hs_token : option string }.

(** An accepted connection: [socket.id], [socket.user], [socket.rooms]. *)
Record Conn := {
  conn_id : string;
  conn_user : Payload;
  conn_rooms : list string }.

(** Whom an [emit] reaches: [socket.emit], [socket.to(room).emit],
    [io.to(room).emit]. *)
Inductive Target :=
  | ToSender
  | ToOthersIn (room : string)
  | ToRoom (room : string).

Inductive TaskData :=
  | ClientTaskData (json : string)
  | CanonicalTask (task : GroupTask).

Inductive Data :=
  | DError (message : string)
  | DWorkspace (wsId : string)
  | DUser (userId email : string)
  | DTaskUpdated (taskId action userId : string) (taskData : TaskData)
      (timestamp : Z)
  | DFriendTodoUpdated (todoId action userId : string)
      (todoData : option string) (timestamp : Z)
  | DFriendRequest (fromUserId fromUserEmail action : string) (timestamp : Z)
  | DPersonal (userId : string)
  | DTyping (userId email : string) (isTyping : bool).

Record Emission := {
  em_target : Target;
  em_event : string;
  em_data : Data }.

Definition emit (t : Target) (ev : string) (d : Data) : Emission :=
  {| em_target := t; em_event := ev; em_data := d |}.

Definition errorTo (message : string) : Emission :=
  emit ToSender "error" (DError message).

Definition workspaceRoom (wsId : string) : string := "workspace_" ++ wsId.
Definition userRoom (userId : string) : string := "user_" ++ userId.

(** Payloads of the client events. *)
Record TaskUpdate := {
  tu_wsId : option string;
  tu_taskId : option string;
  tu_action : option string;
  tu_taskData : option string }.

Record TodoUpdate := {
  du_todoId : option string;
  du_action : option string;
  du_todoData : option string }.

Record FriendRequest := {
  fq_targetUserId : option string;
  fq_action : option string }.

Record Typing := { ty_wsId : option string }.

Inductive Event :=
  | JoinWorkspace (wsId : option string)
  | LeaveWorkspace (wsId : option string)
  | TaskUpdateEv (data : option TaskUpdate)
  | TodoUpdateEv (data : option TodoUpdate)
  | FriendRequestEv (data : option FriendRequest)
  | JoinPersonalChannel
  | TypingStart (data : option Typing)
  | TypingStop (data : option Typing)
  | Disconnect.

(** [checkWorkspaceMembership(userId, wsId)] *)
Definition checkWorkspaceMembership (userId wsId : string) (s : Store) : bool :=
  match findFirst (ownedBy wsId userId) (workspaces s) with
  | Some _ => true
  | None =>
    match findFirst (acceptedMemberOf wsId userId) (workspaceMembers s) with
    | Some _ => true
    | None => false
    end
  end.

Definition joinRoom (room : string) (c : Conn) : Conn :=
  {| conn_id := conn_id c; conn_user := conn_user c;
     conn_rooms := if decide (room ∈ conn_rooms c) then conn_rooms c
                   else conn_rooms c ++ [room] |}.

Definition leaveRoom (room : string) (c : Conn) : Conn :=
  {| conn_id := conn_id c; conn_user := conn_user c;
     conn_rooms := filter (λ r, r ≠ room) (conn_rooms c) |}.

Section Server.

(** [jwt.verify(token, secret)]: the decoded payload, or [None] on error. *)
Variable jwtVerify : string → string → option Payload.

(** [process.env.JWT_SECRET] *)
Variable JWT_SECRET : option string.

(** The [io.use] middleware: the error given to [next], or the payload stored
    in [socket.user]. *)
Definition authenticate (h : Handshake) : string + Payload :=
  if negb (truthy (hs_token h)) then
    inl "인증 오류: 토큰이 제공되지 않았습니다."
  else
    match jwtVerify (default "" (hs_token h)) (orElse JWT_SECRET "secret_key") with
    | None => inl "인증 오류: 유효하지 않은 토큰입니다."
    | Some decoded => inr decoded
    end.

(** A connection attempt: the connection handler is run for a socket only
    when the middleware called [next] without an error. *)
Definition connect (id : string) (h : Handshake) : string + Conn :=
  match authenticate h with
  | inl err => inl err
  | inr decoded =>
    inr {| conn_id := id; conn_user := decoded; conn_rooms := [id] |}
  end.

(** join_workspace *)
Definition joinWorkspace (c : Conn) (wsId : option string) (s : Store)
    : Conn * list Emission :=
  if negb (truthy wsId) then (c, [])
  else
    let w := default "" wsId in
    if negb (checkWorkspaceMembership (pl_userId (conn_user c)) w s) then
      (c, [errorTo "워크스페이스에 접근 권한이 없습니다."])
    else
      (joinRoom (workspaceRoom w) c,
       [emit ToSender "joined_workspace" (DWorkspace w);
        emit (ToOthersIn (workspaceRoom w)) "user_joined"
          (DUser (pl_userId (conn_user c)) (pl_email (conn_user c)))]).

(** leave_workspace *)
Definition leaveWorkspace (c : Conn) (wsId : option string)
    : Conn * list Emission :=
  if negb (truthy wsId) then (c, [])
  else
    let w := default "" wsId in
    (leaveRoom (workspaceRoom w) c,
     [emit ToSender "left_workspace" (DWorkspace w);
      emit (ToOthersIn (workspaceRoom w)) "user_left"
        (DUser (pl_userId (conn_user c)) (pl_email (conn_user c)))]).

(** task_update; a missing payload makes the destructuring throw inside the
    [try] block. *)
Definition taskUpdate (env : Env) (c : Conn) (data : option TaskUpdate)
    (s : Store) : list Emission :=
  match data with
  | None => [errorTo "Task 업데이트 알림 전송에 실패했습니다."]
  | Some d =>
    let userId := pl_userId (conn_user c) in
    if negb (truthy (tu_wsId d)) || negb (truthy (tu_taskId d)) then
      [errorTo "워크스페이스 ID와 Task ID는 필수입니다."]
    else
      let wsId := default "" (tu_wsId d) in
      let taskId := default "" (tu_taskId d) in
      if negb (checkWorkspaceMembership userId wsId s) then
        [errorTo "워크스페이스에 접근 권한이 없습니다."]
      else
        match findFirst (λ t, gt_id t = taskId ∧ gt_workspaceId t = wsId)
                (groupTasks s) with
        | None => [errorTo "Task를 찾을 수 없습니다."]
        | Some task =>
          [emit (ToRoom (workspaceRoom wsId)) "task_updated"
             (DTaskUpdated taskId (orElse (tu_action d) "updated") userId
                (if truthy (tu_taskData d)
                 then ClientTaskData (default "" (tu_taskData d))
                 else CanonicalTask task)
                (now env))]
        end
  end.

(** todo_update *)
Definition todoUpdate (env : Env) (c : Conn) (data : option TodoUpdate)
    (s : Store) : list Emission :=
  match data with
  | None => [errorTo "Todo 업데이트 알림 전송에 실패했습니다."]
  | Some d =>
    let userId := pl_userId (conn_user c) in
    if negb (truthy (du_todoId d)) then [errorTo "Todo ID는 필수입니다."]
    else
      let friendships :=
        filter (λ f, (fr_userId f = userId ∧ fr_status f = "accepted")
                     ∨ (fr_friendId f = userId ∧ fr_status f = "accepted"))
          (friends s) in
      (λ friendship,
         let friendId :=
           if decide (fr_userId friendship = userId)
           then fr_friendId friendship else fr_userId friendship in
         emit (ToRoom (userRoom friendId)) "friend_todo_updated"
           (DFriendTodoUpdated (default "" (du_todoId d))
              (orElse (du_action d) "updated") userId
              (du_todoData d) (now env)))
        <$> friendships
  end.

(** friend_request *)
Definition friendRequest (env : Env) (c : Conn) (data : option FriendRequest)
    (s : Store) : list Emission :=
  match data with
  | None => [errorTo "친구 요청 알림 전송에 실패했습니다."]
  | Some d =>
    let userId := pl_userId (conn_user c) in
    if negb (truthy (fq_targetUserId d)) then
      [errorTo "대상 사용자 ID는 필수입니다."]
    else
      [emit (ToRoom (userRoom (default "" (fq_targetUserId d))))
         "friend_request_received"
         (DFriendRequest userId (pl_email (conn_user c))
            (orElse (fq_action d) "sent") (now env))]
  end.

(** join_personal_channel *)
Definition joinPersonalChannel (c : Conn) : Conn * list Emission :=
  let userId := pl_userId (conn_user c) in
  (joinRoom (userRoom userId) c,
   [emit ToSender "joined_personal_channel" (DPersonal userId)]).

(** typing_start / typing_stop; outside any [try] block, so a missing payload
    is an uncaught exception ([None]). *)
Definition typing (isTyping : bool) (c : Conn) (data : option Typing)
    : option (list Emission) :=
  match data with
  | None => None
  | Some d =>
    if truthy (ty_wsId d) then
      Some [emit (ToOthersIn (workspaceRoom (default "" (ty_wsId d))))
              "user_typing"
              (DTyping (pl_userId (conn_user c)) (pl_email (conn_user c))
                 isTyping)]
    else Some []
  end.

(** disconnect. Socket.IO fires the event after it has taken the socket out
    of all its rooms (the rooms are still there in the disconnecting event),
    so that [Array.from(socket.rooms)] is empty when the handler runs. *)
Definition disconnect (c : Conn) : list Emission :=
  let rooms : list string := [] in
  (λ room,
     emit (ToOthersIn room) "user_offline"
       (DUser (pl_userId (conn_user c)) (pl_email (conn_user c))))
    <$> filter (λ room, String.prefix "workspace_" room = true) rooms.

(** The handler registered for each client event. *)
Definition handle (env : Env) (c : Conn) (ev : Event) (s : Store)
    : option (Conn * list Emission) :=
  match ev with
  | JoinWorkspace wsId => Some (joinWorkspace c wsId s)
  | LeaveWorkspace wsId => Some (leaveWorkspace c wsId)
  | TaskUpdateEv data => Some (c, taskUpdate env c data s)
  | TodoUpdateEv data => Some (c, todoUpdate env c data s)
  | FriendRequestEv data => Some (c, friendRequest env c data s)
  | JoinPersonalChannel => Some (joinPersonalChannel c)
  | TypingStart data => (λ out, (c, out)) <$> typing true c data
  | TypingStop data => (λ out, (c, out)) <$> typing false c data
  | Disconnect => Some (c, disconnect c)
  end.

End Server.
End Socket.

(** ** The server process (index.js): HTTP application and socket server *)

Module Server.

(** The REST mutations on chat messages, group tasks and personal todos,
    with the authenticated user and the route parameters they read. *)
Inductive RestRequest :=
  | ChatSend (uid workspaceId : string) (content : option string)
  | ChatDelete (uid messageId : string)
  | ChatMarkRead (uid workspaceId : string)
  | TaskCreate (wsId : string) (b : Tasks.TaskBody)
  | TaskPatch (wsId taskId : string) (b : Tasks.TaskBody)
  | TaskDelete (wsId taskId : string)
  | TaskBulkStatus (wsId : string) (taskIds : option (list string))
      (status : option string)
  | TodoCreate (userId : string) (b : Todos.TodoBody)
  | TodoPatch (userId id : string) (b : Todos.TodoBody)
  | TodoDelete (userId id : string)
  | TodoBulkStatus (userId : string) (todoIds : option (list string))
      (status : option string).

(** What reaches the process: an HTTP request, a socket connection attempt,
    an event sent by a client over its socket. *)
Inductive Input :=
  | Rest (env : Env) (r : RestRequest)
  | Connect (id : string) (h : Socket.Handshake)
  | Client (env : Env) (id : string) (ev : Socket.Event).

(** The store, the accepted sockets, the events emitted so far (with the
    socket whose handler emitted them) and the HTTP responses sent so far. *)
Record World := {
  db : Store;
  conns : gmap string Socket.Conn;
  outbox : list (string * Socket.Emission);
  replies : list Response }.

Definition initial (s : Store) : World :=
  {| db := s; conns := ∅; outbox := []; replies := [] |}.

Section Process.

Variable trim : string → string.
Variable lastReadAtDefault : Z → Z.
Variable parseDate : string → option Z.
Variable jwtVerify : string → string → option Socket.Payload.
Variable JWT_SECRET : option string.

(** The route table of the mutations. *)
Definition handleRest (env : Env) (r : RestRequest) (s : Store)
    : Store * Response :=
  match r with
  | ChatSend uid workspaceId content =>
    Chat.sendMessage trim lastReadAtDefault env uid workspaceId content s
  | ChatDelete uid messageId => Chat.deleteMessage uid messageId s
  | ChatMarkRead uid workspaceId => Chat.markRead env uid workspaceId s
  | TaskCreate wsId b => Tasks.createTask parseDate env wsId b s
  | TaskPatch wsId taskId b => Tasks.updateTask parseDate wsId taskId b s
  | TaskDelete wsId taskId => Tasks.deleteTask wsId taskId s
  | TaskBulkStatus wsId taskIds status => Tasks.bulkStatus wsId taskIds status s
  | TodoCreate userId b => Todos.createTodo parseDate env userId b s
  | TodoPatch userId id b => Todos.updateTodo parseDate userId id b s
  | TodoDelete userId id => Todos.deleteTodo userId id s
  | TodoBulkStatus userId todoIds status =>
    Todos.bulkStatus userId todoIds status s
  end.

(** One input served. The routers hold the Prisma client only; the [io]
    object lives in index.js and socket.js. An uncaught exception of a socket
    handler shuts the process down. *)
Definition serve (i : Input) (w : World) : World :=
  match i with
  | Rest env r =>
    let '(s', reply) := handleRest env r (db w) in
    {| db := s'; conns := conns w; outbox := outbox w;
       replies := replies w ++ [reply] |}
  | Connect id h =>
    match Socket.connect jwtVerify JWT_SECRET id h with
    | inl _ => w
    | inr c =>
      {| db := db w; conns := <[id := c]> (conns w); outbox := outbox w;
         replies := replies w |}
    end
  | Client env id ev =>
    match conns w !! id with
    | None => w
    | Some c =>
      match Socket.handle env c ev (db w) with
      | None =>
        {| db := db w; conns := ∅; outbox := outbox w; replies := replies w |}
      | Some (c', out) =>
        {| db := db w;
           conns := match ev with
                    | Socket.Disconnect => delete id (conns w)
                    | _ => <[id := c']> (conns w)
                    end;
           outbox := outbox w ++ ((λ e, (id, e)) <$> out);
           replies := replies w |}
      end
    end
  end.

(** The worlds the process reaches from a store. *)
Inductive reachable (s0 : Store) : World → Prop :=
  | reachable_initial : reachable s0 (initial s0)
  | reachable_serve i w : reachable s0 w → reachable s0 (serve i w).

End Process.
End Server.

(** ** The foreign keys of the schema (prisma/migrations) *)

Module Schema.

Inductive table :=
  | T_users
  | T_friends
  | T_personal_todos
  | T_workspaces
  | T_workspace_members
  | T_group_tasks
  | T_refresh_tokens
  | T_chat_messages.

#[global] Instance table_eq_dec : EqDecision table.
Proof. solve_decision. Defined.

(** The ON DELETE actions the migrations use. *)
Inductive onDelete := Cascade | SetNull.

#[global] Instance onDelete_eq_dec : EqDecision onDelete.
Proof. solve_decision. Defined.

(** [ALTER TABLE fk_table ADD CONSTRAINT fk_name FOREIGN KEY (fk_column)
    REFERENCES fk_references(id) ON DELETE fk_onDelete] *)
Record foreignKey := {
  fk_name : string;
  fk_table : table;
  fk_column : string;
  fk_references : table;
  fk_onDelete : onDelete }.

(** The constraints of the tables in use: the migration that creates
    friends, personal_todos, workspaces, workspace_members, group_tasks and
    refresh_tokens, and the one that adds chat_messages. *)
Definition foreignKeys : list foreignKey := [
  {| fk_name := "friends_userId_fkey"; fk_table := T_friends;
     fk_column := "userId"; fk_references := T_users; fk_onDelete := Cascade |};
  {| fk_name := "friends_friendId_fkey"; fk_table := T_friends;
     fk_column := "friendId"; fk_references := T_users;
     fk_onDelete := Cascade |};
  {| fk_name := "personal_todos_userId_fkey"; fk_table := T_personal_todos;
     fk_column := "userId"; fk_references := T_users; fk_onDelete := Cascade |};
  {| fk_name := "workspaces_ownerId_fkey"; fk_table := T_workspaces;
     fk_column := "ownerId"; fk_references := T_users; fk_onDelete := Cascade |};
  {| fk_name := "workspace_members_workspaceId_fkey";
     fk_table := T_workspace_members; fk_column := "workspaceId";
     fk_references := T_workspaces; fk_onDelete := Cascade |};
  {| fk_name := "workspace_members_userId_fkey";
     fk_table := T_workspace_members; fk_column := "userId";
     fk_references := T_users; fk_onDelete := Cascade |};
  {| fk_name := "group_tasks_workspaceId_fkey"; fk_table := T_group_tasks;
     fk_column := "workspaceId"; fk_references := T_workspaces;
     fk_onDelete := Cascade |};
  {| fk_name := "refresh_tokens_userId_fkey"; fk_table := T_refresh_tokens;
     fk_column := "userId"; fk_references := T_users; fk_onDelete := Cascade |};
  {| fk_name := "chat_messages_workspaceId_fkey"; fk_table := T_chat_messages;
     fk_column := "workspaceId"; fk_references := T_workspaces;
     fk_onDelete := Cascade |};
  {| fk_name := "chat_messages_userId_fkey"; fk_table := T_chat_messages;
     fk_column := "userId"; fk_references := T_users; fk_onDelete := Cascade |}
].

(** A row: its primary key and its other columns by name (an absent column
    is NULL). *)
Record Row := { row_id : string; row_fields : gmap string string }.

Abbreviation Database := (table → list Row).

(** The row holds one of [ids] in [column]. *)
Definition refersTo (column : string) (ids : list string) (r : Row) : Prop :=
  match row_fields r !! column with
  | Some i => i ∈ ids
  | None => False
  end.

#[global] Instance refersTo_dec column ids r : Decision (refersTo column ids r).
Proof. unfold refersTo. destruct (row_fields r !! column); apply _. Defined.

Definition removeRows (t : table) (ids : list string) (db : Database)
    : Database :=
  <[t := filter (λ r, row_id r ∉ ids) (db t)]> db.

Definition nullify (column : string) (r : Row) : Row :=
  {| row_id := row_id r; row_fields := delete column (row_fields r) |}.

(** What one constraint does when the rows [ids] of [t] are deleted: nothing
    when it references another table; otherwise the referencing rows are
    deleted in turn ([rec]) or have the column set to NULL. *)
Definition cascadeStep (rec : table → list string → Database → Database)
    (t : table) (ids : list string) (acc : Database) (fk : foreignKey)
    : Database :=
  if decide (fk_references fk = t) then
    match fk_onDelete fk with
    | Cascade =>
      rec (fk_table fk)
        (row_id <$> filter (refersTo (fk_column fk) ids) (acc (fk_table fk)))
        acc
    | SetNull =>
      <[fk_table fk :=
          (λ r, if decide (refersTo (fk_column fk) ids r)
                then nullify (fk_column fk) r else r) <$> acc (fk_table fk)]>
        acc
    end
  else acc.

(** Deleting the rows [ids] of [t] under the constraints [fks], following
    cascades [depth] levels deep. *)
Fixpoint deleteRows (depth : nat) (fks : list foreignKey) (t : table)
    (ids : list string) (db : Database) : Database :=
  match depth with
  | O => db
  | S depth' =>
    foldl (cascadeStep (deleteRows depth' fks) t ids) (removeRows t ids db) fks
  end.

(** MySQL follows cascades up to 15 levels deep. *)
Definition cascadeDepth : nat := 15.

(** [DELETE FROM t WHERE id = i] *)
Definition deleteRow (t : table) (i : string) (db : Database) : Database :=
  deleteRows (S cascadeDepth) foreignKeys t [i] db.

(** No row of [t] holds [i] in [column]. *)
Definition unreferenced (db : Database) (t : table) (column i : string)
    : Prop :=
  ∀ r, r ∈ db t → row_fields r !! column ≠ Some i.

(** Every row of [db'] is a row of [db]. *)
Definition shrinks (db' db : Database) : Prop :=
  ∀ t r, r ∈ db' t → r ∈ db t.

Definition allCascade (fks : list foreignKey) : Prop :=
  Forall (λ fk, fk_onDelete fk = Cascade) fks.

End Schema.

(** * Predicates of the properties *)

(** The user owns the workspace or holds an accepted membership of it. *)
Definition hasAccess (s : Store) (userId workspaceId : string) : Prop :=
  Exists (ownedBy workspaceId userId) (workspaces s)
  ∨ Exists (acceptedMemberOf workspaceId userId) (workspaceMembers s).

#[global] Instance hasAccess_dec s u w : Decision (hasAccess s u w).
Proof. unfold hasAccess. apply _. Defined.

(** The secret the socket middleware verifies tokens against. *)
Definition secret (JWT_SECRET : option string) : string :=
  orElse JWT_SECRET "secret_key".

(** The user of a connection is the payload of a verified token. *)
Definition authenticated (jwtVerify : string → string → option Socket.Payload)
    (JWT_SECRET : option string) (c : Socket.Conn) : Prop :=
  ∃ token, token ≠ ""
           ∧ jwtVerify token (secret JWT_SECRET) = Some (Socket.conn_user c).

(** The handler emits a single error to the sender. *)
Definition refused (out : list Socket.Emission) : Prop :=
  ∃ message, out = [Socket.errorTo message].


(** The stored counter of the row equals the number of messages of its
    workspace created after its [lastReadAt]. *)
Definition unreadExact (s : Store) (k : string * string) (n : ChatNotification)
    : Prop :=
  cn_unreadCount n = Chat.unreadSince k.2 (cn_lastReadAt n) (chatMessages s).

#[global] Instance unreadExact_dec s k n : Decision (unreadExact s k n).
Proof. unfold unreadExact. apply _. Defined.

(** The equality for every user and every workspace. *)
Definition unreadConsistent (s : Store) : Prop :=
  map_Forall (unreadExact s) (chatNotifications s).

(** The equality for the owner and the accepted members of every workspace. *)
Definition memberUnreadConsistent (s : Store) : Prop :=
  map_Forall (λ k n, hasAccess s k.1 k.2 → unreadExact s k n)
    (chatNotifications s).

#[global] Instance unreadConsistent_dec s : Decision (unreadConsistent s).
Proof. unfold unreadConsistent. apply _. Defined.

#[global] Instance memberUnreadConsistent_dec s :
  Decision (memberUnreadConsistent s).
Proof. unfold memberUnreadConsistent. apply _. Defined.

(** The primary keys of chat_messages and workspaces and the unique key
    (workspaceId, userId) of workspace_members. *)
Definition keysUnique (s : Store) : Prop :=
  NoDup (cm_id <$> chatMessages s)
  ∧ NoDup (ws_id <$> workspaces s)
  ∧ NoDup ((λ m, (wm_workspaceId m, wm_userId m)) <$> workspaceMembers s).

#[global] Instance keysUnique_dec s : Decision (keysUnique s).
Proof. unfold keysUnique. apply _. Defined.

(** The owner of the workspace holds no accepted member row of it. *)
Definition ownerNotMember (s : Store) (workspaceId : string) : Prop :=
  ∀ owner, Exists (ownedBy workspaceId owner) (workspaces s) →
           ¬ Exists (acceptedMemberOf workspaceId owner) (workspaceMembers s).

(** The refresh tokens the store holds for a user. *)
Definition tokensOf (userId : string) (s : Store) : list RefreshToken :=
  filter (λ t, rt_userId t = userId) (refreshTokens s).

(** A refresh token names the user it was generated for
    ([jwt.verify(token, REFRESH_TOKEN_SECRET).userId], as the refresh handler
    reads it). *)
Definition tokensPerUser (tokenUser : string → option string)
    (generateTokens : string → string → string → option (string * string))
    : Prop :=
  ∀ id email role accessToken refreshToken,
    generateTokens id email role = Some (accessToken, refreshToken) →
    tokenUser refreshToken = Some id.

(** Every stored refresh token names the user of its row. *)
Definition tokensOwned (tokenUser : string → option string) (s : Store)
    : Prop :=
  ∀ t, t ∈ refreshTokens s → tokenUser (rt_token t) = Some (rt_userId t).

(** * Sample data *)

Definition sampleUser (id : string) : User :=
  {| u_id := id; u_email := id ++ "@example.com"; u_password := "hash:" ++ id;
     u_nickname := id; u_avatar := None; u_role := "member";
     u_isActive := true; u_lastLogin := None |}.

(** Three registered users and nothing else. *)
Definition usersOnly : Store :=
  with_users [sampleUser "alice"; sampleUser "bob"; sampleUser "carol"]
    emptyStore.

(** The store after alice has created a workspace through POST /workspaces. *)
Definition ownerOnly : Store :=
  (Workspaces.create {| now := 1000; freshId := "w1" |} "alice" (Some "Team")
     usersOnly).1.

(** An accepted socket of a user. *)
Definition socketOf (userId : string) : Socket.Conn :=
  {| Socket.conn_id := "socket-" ++ userId;
     Socket.conn_user :=
       {| Socket.pl_userId := userId;
          Socket.pl_email := userId ++ "@example.com" |};
     Socket.conn_rooms := ["socket-" ++ userId] |}.

(** A password check and a token generator to run the login handler with;
    the generated tokens do not depend on the user. *)
Definition sampleCompare (password hash : string) : bool :=
  bool_decide (hash = "hash:" ++ password).

Definition sampleTokens (id email role : string) : option (string * string) :=
  Some ("access-token", "refresh-token").

Definition sampleSecrets : Auth.ProcessEnv :=
  {| Auth.JWT_SECRET := Some "jwt"; Auth.REFRESH_TOKEN_SECRET := Some "refresh" |}.

(** The store after bob has logged in. *)
Definition bobLoggedIn : Store :=
  (Auth.login sampleCompare sampleTokens sampleSecrets
     {| now := 5000; freshId := "t1" |}
     (Some "bob@example.com") (Some "bob") usersOnly).1.

(** Alice's workspace with bob and carol as accepted members, nobody having
    unread messages. *)
Definition teamStore : Store :=
  {| users := [sampleUser "alice"; sampleUser "bob"; sampleUser "carol"];
     friends := []; personalTodos := [];
     workspaces := [{| ws_id := "w1"; ws_name := "Team"; ws_ownerId := "alice" |}];
     workspaceMembers :=
       [{| wm_id := "m1"; wm_workspaceId := "w1"; wm_userId := "bob";
           wm_accepted := true |};
        {| wm_id := "m2"; wm_workspaceId := "w1"; wm_userId := "carol";
           wm_accepted := true |}];
     groupTasks := []; chatMessages := [];
     chatNotifications :=
       {[ ("alice", "w1") := {| cn_unreadCount := 0; cn_lastReadAt := 1000 |};
          ("bob", "w1") := {| cn_unreadCount := 0; cn_lastReadAt := 1500 |};
          ("carol", "w1") := {| cn_unreadCount := 0; cn_lastReadAt := 1600 |} ]};
     refreshTokens := [] |}.

Definition sampleTrim (x : string) : string := x.
Definition sampleDefault (t : Z) : Z := t.

(** Bob sends a message at time 2000 ... *)
Definition afterSend : Store :=
  (Chat.sendMessage sampleTrim sampleDefault {| now := 2000; freshId := "c1" |}
     "bob" "w1" (Some "hello") teamStore).1.


(** A token verifier accepting one token, alice's, under the default secret. *)
Definition sampleVerify (token secret : string) : option Socket.Payload :=
  if decide (token = "token-alice" ∧ secret = "secret_key") then
    Some {| Socket.pl_userId := "alice";
            Socket.pl_email := "alice@example.com" |}
  else None.

(** The team's store with one group task. *)
Definition taskStore : Store :=
  with_groupTasks
    [{| gt_id := "t1"; gt_workspaceId := "w1"; gt_title := "Login page";
        gt_description := None; gt_department := "FE"; gt_status := "pending";
        gt_startDate := 100; gt_dueDate := 200 |}]
    teamStore.

(** * Further predicates *)

(** Every reference held under the constraints points to an existing row. *)
Definition referentialIntegrity (fks : list Schema.foreignKey)
    (db : Schema.Database) : Prop :=
  ∀ fk r v,
    fk ∈ fks → r ∈ db (Schema.fk_table fk) →
    Schema.row_fields r !! Schema.fk_column fk = Some v →
    ∃ p, p ∈ db (Schema.fk_references fk) ∧ Schema.row_id p = v.

(** A reference that had a target in [db] still has one in [db']. *)
Definition keepsTargets (fks : list Schema.foreignKey)
    (db db' : Schema.Database) : Prop :=
  ∀ fk r v p,
    fk ∈ fks → r ∈ db' (Schema.fk_table fk) →
    Schema.row_fields r !! Schema.fk_column fk = Some v →
    p ∈ db (Schema.fk_references fk) → Schema.row_id p = v →
    ∃ p', p' ∈ db' (Schema.fk_references fk) ∧ Schema.row_id p' = v.

(** How far a table is from the leaves of the constraint graph: users are
    referenced by workspaces, workspaces by members, tasks and messages. *)
Definition cascadeRank (t : Schema.table) : nat :=
  match t with
  | Schema.T_users => 2
  | Schema.T_workspaces => 1
  | _ => 0
  end.

(** The tables a delete in [t] can reach through cascades. *)
Fixpoint cascadeReach (depth : nat) (fks : list Schema.foreignKey)
    (t : Schema.table) : list Schema.table :=
  match depth with
  | O => []
  | S depth' =>
    t :: mjoin ((λ fk, if decide (Schema.fk_references fk = t)
                        then cascadeReach depth' fks (Schema.fk_table fk)
                        else []) <$> fks)
  end.

(** A small database: two users, a workspace of the first with the second
    as member, one group task and one chat message. *)
Definition sampleRow (id : string) (fields : list (string * string))
    : Schema.Row :=
  {| Schema.row_id := id; Schema.row_fields := list_to_map fields |}.

Definition sampleDb (t : Schema.table) : list Schema.Row :=
  match t with
  | Schema.T_users => [sampleRow "u1" []; sampleRow "u2" []]
  | Schema.T_workspaces => [sampleRow "w1" [("ownerId", "u1")]]
  | Schema.T_workspace_members =>
    [sampleRow "m1" [("workspaceId", "w1"); ("userId", "u2")]]
  | Schema.T_group_tasks => [sampleRow "g1" [("workspaceId", "w1")]]
  | Schema.T_chat_messages =>
    [sampleRow "c1" [("workspaceId", "w1"); ("userId", "u2")]]
  | Schema.T_refresh_tokens => [sampleRow "r2" [("userId", "u2")]]
  | _ => []
  end.

(** ** The unread-count route (routes/chat.js) *)

Module ChatReads.

(** The answer of the route: a status with either [{ error }] or
    [{ unreadCount }]. *)
Record CountResponse := { cr_status : nat; cr_body : string + nat }.

(** GET /chat/workspace/:workspaceId/unread-count *)
Definition unreadCount (uid workspaceId : string) (s : Store) : CountResponse :=
  let member :=
    findFirst (acceptedMemberOf workspaceId uid) (workspaceMembers s) in
  let isOwner := findFirst (ownedBy workspaceId uid) (workspaces s) in
  if bool_decide (member = None) && bool_decide (isOwner = None) then
    {| cr_status := 403;
       cr_body := inl "워크스페이스에 접근할 권한이 없습니다." |}
  else
    let notification := chatNotifications s !! (uid, workspaceId) in
    {| cr_status := 200;
       cr_body := inr (match notification with
                       | Some n => cn_unreadCount n
                       | None => 0%nat
                       end) |}.

End ChatReads.

(** The workspace as prisma/seed.js builds it: the owner is also added as an
    accepted member. *)
Definition seedStore : Store :=
  {| users := [sampleUser "alice"; sampleUser "bob"; sampleUser "carol"];
     friends := []; personalTodos := [];
     workspaces :=
       [{| ws_id := "team-collab-workspace"; ws_name := "Team";
           ws_ownerId := "alice" |}];
     workspaceMembers :=
       [{| wm_id := "m0"; wm_workspaceId := "team-collab-workspace";
           wm_userId := "alice"; wm_accepted := true |};
        {| wm_id := "m1"; wm_workspaceId := "team-collab-workspace";
           wm_userId := "bob"; wm_accepted := true |};
        {| wm_id := "m2"; wm_workspaceId := "team-collab-workspace";
           wm_userId := "carol"; wm_accepted := true |}];
     groupTasks := []; chatMessages := [];
     chatNotifications :=
       {[ ("alice", "team-collab-workspace") :=
            {| cn_unreadCount := 0; cn_lastReadAt := 1000 |} ]};
     refreshTokens := [] |}.

(** The content of a send request is missing or blank. *)
Definition blankContent (trim : string → string) (content : option string)
    : Prop :=
  content = None
  ∨ ∃ c, content = Some c ∧ (c = "" ∨ String.length (trim c) = 0%nat).

(** Oldest first: the order of the messages of a chat-history page. *)
Definition oldestFirst (a b : ChatMessage) : Prop :=
  (cm_createdAt a ≤ cm_createdAt b)%Z.

(** The team's store after three messages: bob, carol, bob. *)
Definition threeMessages : Store :=
  (Chat.sendMessage sampleTrim sampleDefault {| now := 2200; freshId := "c3" |}
     "bob" "w1" (Some "third")
     (Chat.sendMessage sampleTrim sampleDefault
        {| now := 2100; freshId := "c2" |} "carol" "w1" (Some "second")
        afterSend).1).1.

Definition secondMessage : ChatMessage :=
  {| cm_id := "c2"; cm_workspaceId := "w1"; cm_userId := "carol";
     cm_content := "second"; cm_createdAt := 2100 |}.

Definition thirdMessage : ChatMessage :=
  {| cm_id := "c3"; cm_workspaceId := "w1"; cm_userId := "bob";
     cm_content := "third"; cm_createdAt := 2200 |}.

(** The user an emitted event names as its origin, when it names one. *)
Definition emissionUser (d : Socket.Data) : option string :=
  match d with
  | Socket.DUser userId _ => Some userId
  | Socket.DTaskUpdated _ _ userId _ _ => Some userId
  | Socket.DFriendTodoUpdated _ _ userId _ _ => Some userId
  | Socket.DFriendRequest fromUserId _ _ _ => Some fromUserId
  | Socket.DPersonal userId => Some userId
  | Socket.DTyping userId _ _ => Some userId
  | Socket.DError _ | Socket.DWorkspace _ => None
  end.

(** The accepted friendships of a user, in either direction. *)
Definition acceptedFriendship (userId : string) (f : Friend) : Prop :=
  (fr_userId f = userId ∧ fr_status f = "accepted")
  ∨ (fr_friendId f = userId ∧ fr_status f = "accepted").

(** The other party of a friendship, as the todo_update handler picks it. *)
Definition otherParty (userId : string) (f : Friend) : string :=
  if decide (fr_userId f = userId) then fr_friendId f else fr_userId f.

(** Alice and bob are friends; carol's request to alice is pending. *)
Definition friendsStore : Store :=
  {| users := [sampleUser "alice"; sampleUser "bob"; sampleUser "carol"];
     friends :=
       [{| fr_id := "f1"; fr_userId := "bob"; fr_friendId := "alice";
           fr_status := "accepted" |};
        {| fr_id := "f2"; fr_userId := "carol"; fr_friendId := "alice";
           fr_status := "pending" |}];
     personalTodos := []; workspaces := []; workspaceMembers := [];
     groupTasks := []; chatMessages := []; chatNotifications := ∅;
     refreshTokens := [] |}.

(** A date parser that knows no date. *)
Definition noDate (x : string) : option Z := None.

(** Alice connects with her token and joins her personal channel. *)
Definition aliceOnline : Server.World :=
  Server.serve sampleTrim sampleDefault noDate sampleVerify None
    (Server.Client {| now := 7000; freshId := "x" |} "s1"
       Socket.JoinPersonalChannel)
    (Server.serve sampleTrim sampleDefault noDate sampleVerify None
       (Server.Connect "s1" {| Socket.hs_token := Some "token-alice" |})
       (Server.initial usersOnly)).

(** A date parser that knows one date, fifty milliseconds into 1970. *)
Definition sampleDate (x : string) : option Z :=
  if decide (x = "1970-01-01T00:00:00.050Z") then Some 50 else None.

(** A todo body with a title only. *)
Definition titleOnly (title : string) : Todos.TodoBody :=
  {| Todos.db_title := Some title; Todos.db_description := None;
     Todos.db_status := None; Todos.db_priority := None;
     Todos.db_startDate := None; Todos.db_dueDate := None;
     Todos.db_id := None; Todos.db_userId := None |}.

(** The three users, alice having one todo. *)
Definition todoStore : Store :=
  (Todos.createTodo noDate {| now := 3000; freshId := "p1" |} "alice"
     (titleOnly "Write report") usersOnly).1.

(** * Token refresh and logout (routes/auth.js) *)

Module Session.

(** The bodies of POST /auth/refresh: [{ error }], the body of the handler's
    outer [catch] (the same message, with the [detail] field that the
    development mode fills in), and [{ accessToken, user }]. *)
Inductive RefreshBody :=
  | RError (error : string)
  | RCaught
  | RRefreshed (accessToken : string) (user : Account).

Record RefreshResponse := { rr_status : nat; rr_body : RefreshBody }.

Section Handlers.

(** [jwt.verify(token, secret)]; [None] when it throws. *)
Variable jwtVerify : string → string → option Socket.Payload.

(** [generateTokens(id, email, role)] of the auth middleware module. *)
Variable generateTokens : string → string → string → option (string * string).

(** [prisma.refreshToken.delete({ where: { token } })] *)
Definition deleteToken (token : string) (s : Store) : Store :=
  with_refreshTokens (deleteWhere (λ t, rt_token t = token) (refreshTokens s)) s.

(** POST /auth/refresh, with the body fields [refreshToken] and [refresh].
    [jwt.verify] refuses a missing or empty secret. *)
Definition refresh (penv : Auth.ProcessEnv) (env : Env)
    (refreshToken refresh : option string) (s : Store)
    : Store * RefreshResponse :=
  let refreshTokenToUse :=
    if truthy refreshToken then refreshToken else refresh in
  if negb (truthy refreshTokenToUse) then
    (s, {| rr_status := 401; rr_body := RError "리프레시 토큰이 필요합니다" |})
  else
    let token := default "" refreshTokenToUse in
    match findFirst (λ t, rt_token t = token) (refreshTokens s) with
    | None =>
      (s, {| rr_status := 401;
             rr_body := RError "유효하지 않은 리프레시 토큰입니다" |})
    | Some storedToken =>
      match findFirst (λ u, u_id u = rt_userId storedToken) (users s) with
      | None => (s, {| rr_status := 401; rr_body := RCaught |})
      | Some user =>
        if decide (rt_expiresAt storedToken < now env) then
          (deleteToken token s,
           {| rr_status := 401;
              rr_body := RError "리프레시 토큰이 만료되었습니다" |})
        else if negb (u_isActive user) then
          (s, {| rr_status := 401;
                 rr_body := RError "비활성화된 사용자입니다" |})
        else
          match
            (if truthy (Auth.REFRESH_TOKEN_SECRET penv) then
               jwtVerify token (default "" (Auth.REFRESH_TOKEN_SECRET penv))
             else None)
          with
          | None =>
            (deleteToken token s,
             {| rr_status := 401;
                rr_body := RError "유효하지 않은 리프레시 토큰입니다" |})
          | Some decoded =>
            match generateTokens (u_id user) (u_email user) (u_role user) with
            | None => (s, {| rr_status := 401; rr_body := RCaught |})
            | Some (accessToken, _) =>
              (s, {| rr_status := 200;
                     rr_body :=
                       RRefreshed accessToken
                         {| ac_id := u_id user; ac_email := u_email user;
                            ac_nickname := u_nickname user;
                            ac_role := u_role user;
                            ac_avatar := u_avatar user |} |})
            end
          end
      end
    end.

(** POST /auth/logout, for the [req.user.userId] of the route middleware. *)
Definition logout (userId : string) (s : Store) : Store * Response :=
  (with_refreshTokens
     (deleteWhere (λ t, rt_userId t = userId) (refreshTokens s)) s,
   respond 204 BEmpty).

End Handlers.
End Session.

(** A verifier of refresh tokens that accepts the sample generator's token
    under the sample secret. *)
Definition sampleRefreshVerify (token secret : string)
    : option Socket.Payload :=
  if decide (token = "refresh-token" ∧ secret = "refresh") then
    Some {| Socket.pl_userId := "bob"; Socket.pl_email := "bob@example.com" |}
  else None.

(** * Workspace members (routes/workspaces.js), after the route middleware *)

Definition with_workspaceMembers (v : list WorkspaceMember) (s : Store)
    : Store :=
  {| users := users s; friends := friends s; personalTodos := personalTodos s;
     workspaces := workspaces s; workspaceMembers := v;
     groupTasks := groupTasks s; chatMessages := chatMessages s;
     chatNotifications := chatNotifications s;
     refreshTokens := refreshTokens s |}.

Module Members.

(** The bodies of the member routes: [{ error }], a member row with its
    included user and workspace ([{ id, name }]), the same under
    [{ message, member }], and the empty body. *)
Inductive MemberBody :=
  | MError (error : string)
  | MMember (member : WorkspaceMember) (user : option UserBrief)
      (workspace : option (string * string))
  | MInvited (message : string) (member : WorkspaceMember)
      (user : option UserBrief) (workspace : option (string * string))
  | MEmpty.

Record MemberResponse := { mr_status : nat; mr_body : MemberBody }.

Definition answer (st : nat) (b : MemberBody) : MemberResponse :=
  {| mr_status := st; mr_body := b |}.

(** [where: { workspaceId, userId }] on [workspaceMember]. *)
Definition memberRow (workspaceId userId : string) (m : WorkspaceMember)
    : Prop :=
  wm_workspaceId m = workspaceId ∧ wm_userId m = userId.

#[global] Instance memberRow_dec w u m : Decision (memberRow w u m).
Proof. unfold memberRow. apply _. Defined.

(** [prisma.workspaceMember.create]: the primary key, the unique index on
    (workspaceId, userId) and the two foreign keys. *)
Definition createWorkspaceMember (m : WorkspaceMember) (s : Store)
    : option Store :=
  if decide (Exists (λ x, wm_id x = wm_id m) (workspaceMembers s)) then None
  else if decide (Exists (memberRow (wm_workspaceId m) (wm_userId m))
                    (workspaceMembers s)) then None
  else if decide (Exists (λ w, ws_id w = wm_workspaceId m) (workspaces s)) then
    if decide (Exists (λ u, u_id u = wm_userId m) (users s)) then
      Some (with_workspaceMembers (workspaceMembers s ++ [m]) s)
    else None
  else None.

Definition briefOf (u : User) : UserBrief :=
  {| ub_id := u_id u; ub_nickname := u_nickname u; ub_avatar := u_avatar u |}.

(** POST /workspaces/:wsId/members, for the [req.user.userId] of the owner
    the middleware let through and the [user_id] of the body. *)
Definition invite (env : Env) (userId wsId : string) (user_id : option string)
    (s : Store) : Store * MemberResponse :=
  if negb (truthy user_id) then
    (s, answer 400 (MError "사용자 ID가 필요합니다"))
  else
    let uid := default "" user_id in
    match findFirst (λ w, ws_id w = wsId) (workspaces s) with
    | None => (s, answer 404 (MError "워크스페이스를 찾을 수 없습니다"))
    | Some workspace =>
      match findFirst (λ u, u_id u = uid) (users s) with
      | None => (s, answer 404 (MError "사용자를 찾을 수 없습니다"))
      | Some targetUser =>
        if decide (uid = userId) then
          (s, answer 400 (MError "자기 자신을 초대할 수 없습니다"))
        else
          match findFirst (memberRow wsId uid) (workspaceMembers s) with
          | Some existingMember =>
            (s, answer 400 (MError "이미 워크스페이스 멤버입니다"))
          | None =>
            let member :=
              {| wm_id := freshId env; wm_workspaceId := wsId;
                 wm_userId := uid; wm_accepted := false |} in
            match createWorkspaceMember member s with
            | None => (s, answer 500 (MError "멤버 초대에 실패했습니다"))
            | Some s1 =>
              match chatNotifications s1 !! (uid, wsId) with
              | Some _ =>
                (s1, answer 500 (MError "멤버 초대에 실패했습니다"))
              | None =>
                (with_chatNotifications
                   (<[(uid, wsId) :=
                        {| cn_unreadCount := 0; cn_lastReadAt := now env |}]>
                      (chatNotifications s1)) s1,
                 answer 201
                   (MMember member (Some (briefOf targetUser))
                      (Some (ws_id workspace, ws_name workspace))))
              end
            end
          end
      end
    end.

Definition accept (m : WorkspaceMember) : WorkspaceMember :=
  {| wm_id := wm_id m; wm_workspaceId := wm_workspaceId m;
     wm_userId := wm_userId m; wm_accepted := true |}.

(** PATCH /workspaces/:wsId/members/:user_id; [accepted] is [None] when the
    field of the body is not a boolean. *)
Definition respondToInvitation (currentUserId wsId user_id : string)
    (accepted : option bool) (s : Store) : Store * MemberResponse :=
  match accepted with
  | None => (s, answer 400 (MError "accepted 값은 boolean이어야 합니다"))
  | Some accepted =>
    if decide (user_id ≠ currentUserId) then
      (s, answer 403 (MError "자신의 초대만 수락/거절할 수 있습니다"))
    else
      match findFirst (memberRow wsId user_id) (workspaceMembers s) with
      | None => (s, answer 404 (MError "초대를 찾을 수 없습니다"))
      | Some member =>
        if negb accepted then
          (with_workspaceMembers
             (deleteWhere (λ m, wm_id m = wm_id member) (workspaceMembers s))
             s,
           answer 204 MEmpty)
        else
          (with_workspaceMembers
             (updateWhere (λ m, wm_id m = wm_id member) accept
                (workspaceMembers s)) s,
           answer 200
             (MMember (accept member)
                (briefOf <$> findFirst (λ u, u_id u = wm_userId member)
                               (users s))
                ((λ w, (ws_id w, ws_name w))
                   <$> findFirst (λ w, ws_id w = wm_workspaceId member)
                         (workspaces s))))
      end
  end.

(** DELETE /workspaces/:wsId/members/:user_id *)
Definition removeMember (currentUserId wsId user_id : string) (s : Store)
    : Store * MemberResponse :=
  let isOwner :=
    bool_decide (is_Some (findFirst (ownedBy wsId currentUserId)
                            (workspaces s))) in
  let isSelf := bool_decide (user_id = currentUserId) in
  if negb isOwner && negb isSelf then
    (s, answer 403 (MError "멤버 제거 권한이 없습니다"))
  else
    match findFirst (memberRow wsId user_id) (workspaceMembers s) with
    | None => (s, answer 404 (MError "멤버를 찾을 수 없습니다"))
    | Some member =>
      let s1 :=
        with_workspaceMembers
          (deleteWhere (λ m, wm_id m = wm_id member) (workspaceMembers s)) s in
      (with_chatNotifications
         (delete (user_id, wsId) (chatNotifications s1)) s1,
       answer 204 MEmpty)
    end.

End Members.

(** The member rows are unique by id and by (workspace, user), as the primary
    key and the unique index of the table make them. *)
Definition membersUnique (s : Store) : Prop :=
  NoDup (wm_id <$> workspaceMembers s)
  ∧ NoDup ((λ m, (wm_workspaceId m, wm_userId m)) <$> workspaceMembers s).

(** The single task of [taskStore]. *)
Definition loginPage : GroupTask :=
  {| gt_id := "t1"; gt_workspaceId := "w1"; gt_title := "Login page";
     gt_description := None; gt_department := "FE"; gt_status := "pending";
     gt_startDate := 100; gt_dueDate := 200 |}.

(** A task body with a due date only. *)
Definition dueOnly (dueDate : string) : Tasks.TaskBody :=
  {| Tasks.tb_title := None; Tasks.tb_description := None;
     Tasks.tb_department := None; Tasks.tb_status := None;
     Tasks.tb_startDate := None; Tasks.tb_dueDate := Some dueDate;
     Tasks.tb_id := None; Tasks.tb_workspaceId := None |}.

(** Alice's todo of [todoStore]. *)
Definition writeReport : PersonalTodo :=
  {| pt_id := "p1"; pt_userId := "alice"; pt_title := "Write report";
     pt_description := None; pt_status := "pending"; pt_priority := "medium";
     pt_startDate := None; pt_dueDate := None |}.

(** The refresh token row of [bobLoggedIn]. *)
Definition bobToken : RefreshToken :=
  {| rt_id := "t1"; rt_token := "refresh-token"; rt_userId := "bob";
     rt_expiresAt := 5000 + Auth.sevenDays |}.

(** Bob's member row of [teamStore]. *)
Definition bobMember : WorkspaceMember :=
  {| wm_id := "m1"; wm_workspaceId := "w1"; wm_userId := "bob";
     wm_accepted := true |}.







(** A token generator whose tokens name their user, and its decoder. *)
Definition userTokens (id email role : string) : option (string * string) :=
  Some ("access:" ++ id, "refresh:" ++ id).

Fixpoint stripPrefix (p s : string) : option string :=
  match p, s with
  | EmptyString, _ => Some s
  | String a p', String b s' =>
    if decide (a = b) then stripPrefix p' s' else None
  | String _ _, EmptyString => None
  end.

Definition sampleTokenUser (token : string) : option string :=
  stripPrefix "refresh:" token.

(** The store after bob has logged in with such a token. *)
Definition bobSession : Store :=
  (Auth.login sampleCompare userTokens sampleSecrets
     {| now := 5000; freshId := "t1" |}
     (Some "bob@example.com") (Some "bob") usersOnly).1.

(** * The mutation handlers as programs (routes/chat.js, tasks.js, todos.js)

    A route handler is a sequence of calls: to the Prisma client, which reads
    and writes the store, and to [res]; this part writes the handlers of the
    mutations call by call, over effects that also hold the events handed to
    the socket server, so that a handler calling [io.to(room).emit] would
    show. *)

Module Routes.

Record Effects := { store : Store; emitted : list Socket.Emission }.

Definition Route (A : Type) : Type := Effects → A * Effects.

#[global] Instance route_ret : MRet Route := λ A a e, (a, e).

#[global] Instance route_bind : MBind Route :=
  λ A B k m e, let '(a, e') := m e in k a e'.

(** A read through the Prisma client. *)
Definition query {A} (f : Store → A) : Route A := λ e, (f (store e), e).

(** A write through the Prisma client. *)
Definition write (f : Store → Store) : Route unit :=
  λ e, (tt, {| store := f (store e); emitted := emitted e |}).

(** A write the database may refuse: [None] when Prisma throws. *)
Definition attempt {A} (f : Store → option (Store * A)) : Route (option A) :=
  λ e, match f (store e) with
       | Some (s', a) => (Some a, {| store := s'; emitted := emitted e |})
       | None => (None, e)
       end.

(** [io.to(room).emit(event, data)] and the like. *)
Definition emit (ev : Socket.Emission) : Route unit :=
  λ e, (tt, {| store := store e; emitted := emitted e ++ [ev] |}).

(** [for (const x of l) { await body(x) }] *)
Fixpoint forEach {A} (l : list A) (body : A → Route unit) : Route unit :=
  match l with
  | [] => mret tt
  | x :: l' => body x;; forEach l' body
  end.

Section Handlers.

Variable trim : string → string.
Variable lastReadAtDefault : Z → Z.
Variable parseDate : string → option Z.

(** POST /chat/workspace/:workspaceId *)
Definition sendMessage (env : Env) (uid workspaceId : string)
    (content : option string) : Route Response :=
  match content with
  | None => mret (respond 400 (BError "메시지 내용을 입력해주세요."))
  | Some c =>
    if decide (c = "" ∨ String.length (trim c) = 0%nat) then
      mret (respond 400 (BError "메시지 내용을 입력해주세요."))
    else
      member ← query (λ s, findFirst (acceptedMemberOf workspaceId uid)
                             (workspaceMembers s));
      match member with
      | None =>
        mret (respond 403 (BError "워크스페이스에 접근할 권한이 없습니다."))
      | Some _ =>
        message ← attempt (Chat.createChatMessage env workspaceId uid (trim c));
        match message with
        | None =>
          mret (respond 500 (BError "채팅 메시지를 전송할 수 없습니다."))
        | Some message =>
          user ← query (λ s, Chat.userBrief s uid);
          workspace ← query (λ s, findFirst (λ w, ws_id w = workspaceId)
                                    (workspaces s));
          match workspace with
          | None =>
            mret (respond 500 (BError "채팅 메시지를 전송할 수 없습니다."))
          | Some workspace =>
            allMembers ← query (Chat.sendRecipients uid workspaceId workspace);
            forEach allMembers
              (λ userId,
                 write (λ s,
                   with_chatNotifications
                     (Chat.incrementUnread lastReadAtDefault env workspaceId
                        (chatNotifications s) userId) s));;
            mret (respond 201 (BChatMessage message user))
          end
        end
      end
  end.

(** DELETE /chat/message/:messageId *)
Definition deleteMessage (uid messageId : string) : Route Response :=
  message ← query (λ s, findFirst (λ m, cm_id m = messageId) (chatMessages s));
  match message with
  | None => mret (respond 404 (BError "메시지를 찾을 수 없습니다."))
  | Some message =>
    workspace ← query (λ s, findFirst (λ w, ws_id w = cm_workspaceId message)
                              (workspaces s));
    match workspace with
    | None => mret (respond 500 (BError "메시지를 삭제할 수 없습니다."))
    | Some workspace =>
      members ← query (λ s,
        filter (λ m, wm_workspaceId m = ws_id workspace ∧ wm_userId m = uid
                     ∧ wm_accepted m = true) (workspaceMembers s));
      let isOwner := bool_decide (ws_ownerId workspace = uid) in
      let isAuthor := bool_decide (cm_userId message = uid) in
      let isMember := bool_decide (0 < length members)%nat in
      if negb isOwner && negb isAuthor && negb isMember then
        mret (respond 403 (BError "메시지를 삭제할 권한이 없습니다."))
      else
        write (λ s,
          with_chatMessages
            (deleteWhere (λ m, cm_id m = messageId) (chatMessages s)) s);;
        allMembers ← query (Chat.deleteRecipients (cm_workspaceId message)
                              workspace);
        forEach allMembers
          (λ userId,
             notification ← query (λ s,
               chatNotifications s !! (userId, cm_workspaceId message));
             match notification with
             | Some notification =>
               let lastReadAt := cn_lastReadAt notification in
               unreadCount ← query (λ s,
                 Chat.unreadSince (cm_workspaceId message) lastReadAt
                   (chatMessages s));
               write (λ s,
                 with_chatNotifications
                   (<[(userId, cm_workspaceId message) :=
                        {| cn_unreadCount := unreadCount;
                           cn_lastReadAt := lastReadAt |}]>
                      (chatNotifications s)) s)
             | None => mret tt
             end);;
        mret (respond 200 (BInfo "메시지가 삭제되었습니다."))
    end
  end.

(** POST /chat/workspace/:workspaceId/read *)
Definition markRead (env : Env) (uid workspaceId : string) : Route Response :=
  member ← query (λ s, findFirst (acceptedMemberOf workspaceId uid)
                         (workspaceMembers s));
  isOwner ← query (λ s, findFirst (ownedBy workspaceId uid) (workspaces s));
  if bool_decide (member = None) && bool_decide (isOwner = None) then
    mret (respond 403 (BError "워크스페이스에 접근할 권한이 없습니다."))
  else
    write (λ s,
      with_chatNotifications
        (upsert (uid, workspaceId)
           (λ _, {| cn_unreadCount := 0; cn_lastReadAt := now env |})
           {| cn_unreadCount := 0; cn_lastReadAt := now env |}
           (chatNotifications s)) s);;
    mret (respond 200 (BInfo "채팅 메시지가 읽음 처리되었습니다.")).

(** POST /workspaces/:wsId/tasks *)
Definition createTask (env : Env) (wsId : string) (b : Tasks.TaskBody)
    : Route Response :=
  if negb (truthy (Tasks.tb_title b)) || negb (truthy (Tasks.tb_department b))
     || negb (truthy (Tasks.tb_startDate b))
     || negb (truthy (Tasks.tb_dueDate b)) then
    mret (respond 400 (BError "제목, 부서, 시작일, 목표종료일은 필수입니다"))
  else if decide (default "" (Tasks.tb_department b) ∉ departments) then
    mret (respond 400 (BError "부서는 FE, BE, QA 중 하나여야 합니다"))
  else if truthy (Tasks.tb_status b)
          && bool_decide (default "" (Tasks.tb_status b) ∉ validStatuses) then
    mret (respond 400 (BError "유효하지 않은 상태입니다"))
  else
    let start := parseDate (default "" (Tasks.tb_startDate b)) in
    let due := parseDate (default "" (Tasks.tb_dueDate b)) in
    match start, due with
    | Some st, Some du =>
      if decide (du ≤ st) then
        mret (respond 400 (BError "목표종료일은 시작일보다 늦어야 합니다"))
      else
        let task :=
          {| gt_id := freshId env; gt_workspaceId := wsId;
             gt_title := default "" (Tasks.tb_title b);
             gt_description := Tasks.tb_description b;
             gt_department := default "" (Tasks.tb_department b);
             gt_status := orElse (Tasks.tb_status b) "pending";
             gt_startDate := st; gt_dueDate := du |} in
        created ← attempt (λ s, (λ s', (s', task))
                                  <$> Tasks.createGroupTask task s);
        match created with
        | Some task => mret (respond 201 (BTask task))
        | None => mret (respond 500 (BError "Task 생성에 실패했습니다"))
        end
    | _, _ => mret (respond 500 (BError "Task 생성에 실패했습니다"))
    end.

(** PATCH /workspaces/:wsId/tasks/:taskId *)
Definition updateTask (wsId taskId : string) (b : Tasks.TaskBody)
    : Route Response :=
  existingTask ← query (λ s,
    findFirst (λ t, gt_id t = taskId ∧ gt_workspaceId t = wsId)
      (groupTasks s));
  match existingTask with
  | None => mret (respond 404 (BError "Task를 찾을 수 없습니다"))
  | Some existingTask =>
    if truthy (Tasks.tb_department b)
       && bool_decide (default "" (Tasks.tb_department b) ∉ departments) then
      mret (respond 400 (BError "부서는 FE, BE, QA 중 하나여야 합니다"))
    else if truthy (Tasks.tb_status b)
            && bool_decide (default "" (Tasks.tb_status b) ∉ validStatuses)
    then
      mret (respond 400 (BError "유효하지 않은 상태입니다"))
    else if Tasks.datesOutOfOrder parseDate b then
      mret (respond 400 (BError "목표종료일은 시작일보다 늦어야 합니다"))
    else
      updatedTask ← attempt (λ s,
        target ← findFirst (λ t, gt_id t = taskId) (groupTasks s);
        updated ← Tasks.applyTaskBody parseDate b target;
        s' ← Tasks.updateGroupTask taskId target updated s;
        Some (s', updated));
      match updatedTask with
      | Some updatedTask => mret (respond 200 (BTask updatedTask))
      | None => mret (respond 500 (BError "Task 수정에 실패했습니다"))
      end
  end.

(** DELETE /workspaces/:wsId/tasks/:taskId *)
Definition deleteTask (wsId taskId : string) : Route Response :=
  existingTask ← query (λ s,
    findFirst (λ t, gt_id t = taskId ∧ gt_workspaceId t = wsId)
      (groupTasks s));
  match existingTask with
  | None => mret (respond 404 (BError "Task를 찾을 수 없습니다"))
  | Some _ =>
    write (λ s,
      with_groupTasks (deleteWhere (λ t, gt_id t = taskId) (groupTasks s)) s);;
    mret (respond 204 BEmpty)
  end.

(** PATCH /workspaces/:wsId/tasks/bulk/status *)
Definition tasksBulkStatus (wsId : string) (taskIds : option (list string))
    (status : option string) : Route Response :=
  match taskIds with
  | None | Some [] =>
    mret (respond 400 (BError "유효한 Task ID 배열이 필요합니다"))
  | Some ids =>
    if negb (truthy status) || bool_decide (default "" status ∉ validStatuses)
    then mret (respond 400 (BError "유효하지 않은 상태입니다"))
    else
      let hit := λ t, gt_id t ∈ ids ∧ gt_workspaceId t = wsId in
      n ← query (λ s, count hit (groupTasks s));
      write (λ s,
        with_groupTasks
          (updateWhere hit
             (λ t, {| gt_id := gt_id t; gt_workspaceId := gt_workspaceId t;
                      gt_title := gt_title t;
                      gt_description := gt_description t;
                      gt_department := gt_department t;
                      gt_status := default "" status;
                      gt_startDate := gt_startDate t;
                      gt_dueDate := gt_dueDate t |})
             (groupTasks s)) s);;
      mret (respond 200
              (BUpdated (pretty n ++ "개의 Task 상태가 업데이트되었습니다") n))
  end.

(** POST /me/todos *)
Definition createTodo (env : Env) (userId : string) (b : Todos.TodoBody)
    : Route Response :=
  if negb (truthy (Todos.db_title b)) then
    mret (respond 400 (BError "제목은 필수입니다"))
  else if truthy (Todos.db_status b)
          && bool_decide (default "" (Todos.db_status b) ∉ validStatuses) then
    mret (respond 400 (BError "유효하지 않은 상태입니다"))
  else if truthy (Todos.db_priority b)
          && bool_decide (default "" (Todos.db_priority b) ∉ validPriorities)
  then
    mret (respond 400 (BError "유효하지 않은 우선순위입니다"))
  else
    match Todos.optionalDate parseDate (Todos.db_startDate b),
          Todos.optionalDate parseDate (Todos.db_dueDate b) with
    | Some st, Some du =>
      let todo :=
        {| pt_id := freshId env; pt_userId := userId;
           pt_title := default "" (Todos.db_title b);
           pt_description := Todos.db_description b;
           pt_status := orElse (Todos.db_status b) "pending";
           pt_priority := orElse (Todos.db_priority b) "medium";
           pt_startDate := st; pt_dueDate := du |} in
      created ← attempt (λ s, (λ s', (s', todo))
                                <$> Todos.createPersonalTodo todo s);
      match created with
      | Some todo => mret (respond 201 (BTodo todo))
      | None => mret (respond 500 (BError "Todo 생성에 실패했습니다"))
      end
    | _, _ => mret (respond 500 (BError "Todo 생성에 실패했습니다"))
    end.

(** PATCH /me/todos/:id *)
Definition updateTodo (userId id : string) (b : Todos.TodoBody)
    : Route Response :=
  existingTodo ← query (λ s,
    findFirst (λ t, pt_id t = id ∧ pt_userId t = userId) (personalTodos s));
  match existingTodo with
  | None => mret (respond 404 (BError "Todo를 찾을 수 없습니다"))
  | Some existingTodo =>
    if truthy (Todos.db_status b)
       && bool_decide (default "" (Todos.db_status b) ∉ validStatuses) then
      mret (respond 400 (BError "유효하지 않은 상태입니다"))
    else if truthy (Todos.db_priority b)
            && bool_decide (default "" (Todos.db_priority b)
                            ∉ validPriorities) then
      mret (respond 400 (BError "유효하지 않은 우선순위입니다"))
    else
      updatedTodo ← attempt (λ s,
        target ← findFirst (λ t, pt_id t = id) (personalTodos s);
        updated ← Todos.applyTodoBody parseDate b target;
        s' ← Todos.updatePersonalTodo id target updated s;
        Some (s', updated));
      match updatedTodo with
      | Some updatedTodo => mret (respond 200 (BTodo updatedTodo))
      | None => mret (respond 500 (BError "Todo 수정에 실패했습니다"))
      end
  end.

(** DELETE /me/todos/:id *)
Definition deleteTodo (userId id : string) : Route Response :=
  existingTodo ← query (λ s,
    findFirst (λ t, pt_id t = id ∧ pt_userId t = userId) (personalTodos s));
  match existingTodo with
  | None => mret (respond 404 (BError "Todo를 찾을 수 없습니다"))
  | Some _ =>
    write (λ s,
      with_personalTodos
        (deleteWhere (λ t, pt_id t = id) (personalTodos s)) s);;
    mret (respond 204 BEmpty)
  end.

(** PATCH /me/todos/bulk/status *)
Definition todosBulkStatus (userId : string) (todoIds : option (list string))
    (status : option string) : Route Response :=
  match todoIds with
  | None | Some [] =>
    mret (respond 400 (BError "유효한 Todo ID 배열이 필요합니다"))
  | Some ids =>
    if negb (truthy status) || bool_decide (default "" status ∉ validStatuses)
    then mret (respond 400 (BError "유효하지 않은 상태입니다"))
    else
      let hit := λ t, pt_id t ∈ ids ∧ pt_userId t = userId in
      n ← query (λ s, count hit (personalTodos s));
      write (λ s,
        with_personalTodos
          (updateWhere hit
             (λ t, {| pt_id := pt_id t; pt_userId := pt_userId t;
                      pt_title := pt_title t;
                      pt_description := pt_description t;
                      pt_status := default "" status;
                      pt_priority := pt_priority t;
                      pt_startDate := pt_startDate t;
                      pt_dueDate := pt_dueDate t |})
             (personalTodos s)) s);;
      mret (respond 200
              (BUpdated (pretty n ++ "개의 Todo 상태가 업데이트되었습니다") n))
  end.

(** The route table of the mutations. *)
Definition route (env : Env) (r : Server.RestRequest) : Route Response :=
  match r with
  | Server.ChatSend uid workspaceId content =>
    sendMessage env uid workspaceId content
  | Server.ChatDelete uid messageId => deleteMessage uid messageId
  | Server.ChatMarkRead uid workspaceId => markRead env uid workspaceId
  | Server.TaskCreate wsId b => createTask env wsId b
  | Server.TaskPatch wsId taskId b => updateTask wsId taskId b
  | Server.TaskDelete wsId taskId => deleteTask wsId taskId
  | Server.TaskBulkStatus wsId taskIds status =>
    tasksBulkStatus wsId taskIds status
  | Server.TodoCreate userId b => createTodo env userId b
  | Server.TodoPatch userId id b => updateTodo userId id b
  | Server.TodoDelete userId id => deleteTodo userId id
  | Server.TodoBulkStatus userId todoIds status =>
    todosBulkStatus userId todoIds status
  end.

End Handlers.
End Routes.
(** * Properties *)

(** ** Queries *)

Section Queries.
Context {A : Type} (P : A → Prop) {Pdec : ∀ x, Decision (P x)}.

Lemma findFirst_Some (l : list A) (x : A) :
  findFirst P l = Some x → P x ∧ x ∈ l.
Proof.
  unfold findFirst. intros H.
  assert (Hin : x ∈ filter P l).
  { destruct (filter P l) as [|y l'] eqn:E; simplify_eq/=. left. }
  by apply list_elem_of_filter in Hin.
Qed.

Lemma findFirst_None (l : list A) :
  findFirst P l = None ↔ ¬ Exists P l.
Proof.
  unfold findFirst. rewrite Exists_exists. split.
  - intros H [x [Hin HP]].
    assert (Hx : x ∈ filter P l) by (apply list_elem_of_filter; done).
    destruct (filter P l); [by apply elem_of_nil in Hx | done].
  - intros H. destruct (filter P l) as [|y l'] eqn:E; [done|].
    exfalso. apply H. exists y.
    assert (Hy : y ∈ filter P l) by (rewrite E; left).
    apply list_elem_of_filter in Hy as [? ?]. eauto.
Qed.

Lemma findFirst_is_Some (l : list A) :
  is_Some (findFirst P l) ↔ Exists P l.
Proof.
  destruct (findFirst P l) eqn:E.
  - split; [intros _|eauto]. apply findFirst_Some in E as [? ?].
    apply Exists_exists. eauto.
  - split; [by intros [? ?]|]. intros H. by apply findFirst_None in E.
Qed.

Lemma deleteWhere_elem (l : list A) (x : A) :
  x ∈ deleteWhere P l ↔ ¬ P x ∧ x ∈ l.
Proof. unfold deleteWhere. by rewrite list_elem_of_filter. Qed.

End Queries.

Lemma truthy_Some (x : option string) :
  truthy x = true ↔ ∃ v, x = Some v ∧ v ≠ "".
Proof.
  destruct x as [v|]; simpl.
  - rewrite bool_decide_eq_true. naive_solver.
  - naive_solver.
Qed.

Lemma orElse_truthy (v d : string) : v ≠ "" → orElse (Some v) d = v.
Proof. intros H. simpl. by destruct (decide (v = "")). Qed.

(** ** Workspace access *)

Lemma checkWorkspaceMembership_spec (userId wsId : string) (s : Store) :
  Socket.checkWorkspaceMembership userId wsId s = true ↔ hasAccess s userId wsId.
Proof.
  unfold Socket.checkWorkspaceMembership, hasAccess.
  destruct (findFirst (ownedBy wsId userId) (workspaces s)) eqn:Ho.
  - split; [intros _|done]. left. apply (findFirst_is_Some (ownedBy wsId userId)). eauto.
  - apply findFirst_None in Ho.
    destruct (findFirst (acceptedMemberOf wsId userId) (workspaceMembers s))
      eqn:Hm.
    + split; [intros _|done]. right.
      apply (findFirst_is_Some (acceptedMemberOf wsId userId)). eauto.
    + apply findFirst_None in Hm. naive_solver.
Qed.

(** ** Socket authentication *)

Section SocketAuthentication.
Variable jwtVerify : string → string → option Socket.Payload.
Variable JWT_SECRET : option string.

Lemma authenticate_accepts (h : Socket.Handshake) (p : Socket.Payload) :
  Socket.authenticate jwtVerify JWT_SECRET h = inr p ↔
  ∃ token, Socket.hs_token h = Some token ∧ token ≠ ""
           ∧ jwtVerify token (secret JWT_SECRET) = Some p.
Proof.
  unfold Socket.authenticate, secret.
  destruct (truthy (Socket.hs_token h)) eqn:Ht; simpl.
  - apply truthy_Some in Ht as (token & -> & Hne). simpl.
    destruct (jwtVerify token _) eqn:Hv; naive_solver.
  - split; [done|]. intros (token & Htok & Hne & _).
    assert (truthy (Socket.hs_token h) = true) by (apply truthy_Some; eauto).
    congruence.
Qed.

Lemma handle_keeps_user (env : Env) (c c' : Socket.Conn) (ev : Socket.Event)
    (s : Store) (out : list Socket.Emission) :
  Socket.handle env c ev s = Some (c', out) →
  Socket.conn_user c' = Socket.conn_user c.
Proof.
  destruct ev; simpl; intros H;
    unfold Socket.joinWorkspace, Socket.leaveWorkspace,
      Socket.joinPersonalChannel, Socket.typing in H;
    repeat case_match; by simplify_eq/=.
Qed.

Lemma reachable_authenticated trim lastReadAtDefault parseDate (s0 : Store)
    (w : Server.World) :
  Server.reachable trim lastReadAtDefault parseDate jwtVerify JWT_SECRET s0 w →
  map_Forall (λ _ c, authenticated jwtVerify JWT_SECRET c) (Server.conns w).
Proof.
  induction 1 as [|i w Hr IH].
  - apply map_Forall_empty.
  - destruct i as [env r|id h|env id ev]; simpl.
    + by destruct (Server.handleRest _ _ _ _ _ _).
    + unfold Socket.connect.
      destruct (Socket.authenticate jwtVerify JWT_SECRET h) as [err|p] eqn:Ha;
        [done|]. simpl.
      apply map_Forall_insert_2; [|done].
      apply authenticate_accepts in Ha as (token & _ & ? & ?).
      by exists token.
    + destruct (Server.conns w !! id) as [c|] eqn:Hc; [|done].
      destruct (Socket.handle env c ev (Server.db w)) as [[c' out]|] eqn:Hh;
        simpl; [|apply map_Forall_empty].
      assert (Hc' : authenticated jwtVerify JWT_SECRET c').
      { unfold authenticated. rewrite (handle_keeps_user _ _ _ _ _ _ Hh).
        by apply (IH id). }
      destruct ev; try (by apply map_Forall_insert_2);
        by apply map_Forall_delete.
Qed.

(** C4. Every connection attempt goes through the token check before any
    handler runs: an attempt without a token, or whose token [jwt.verify]
    refuses, is rejected with the authentication error of its case; an
    accepted connection carries the decoded payload of its token as
    [socket.user]; every socket the process holds was accepted that way, and
    an event for a socket that was not accepted runs no handler. *)
Theorem socket_connections_authenticated :
  (∀ id h, truthy (Socket.hs_token h) = false →
     Socket.connect jwtVerify JWT_SECRET id h
     = inl "인증 오류: 토큰이 제공되지 않았습니다.")
  ∧ (∀ id h token, Socket.hs_token h = Some token → token ≠ "" →
       jwtVerify token (secret JWT_SECRET) = None →
       Socket.connect jwtVerify JWT_SECRET id h
       = inl "인증 오류: 유효하지 않은 토큰입니다.")
  ∧ (∀ id h c, Socket.connect jwtVerify JWT_SECRET id h = inr c →
       ∃ token, Socket.hs_token h = Some token ∧ token ≠ ""
                ∧ jwtVerify token (secret JWT_SECRET) = Some (Socket.conn_user c))
  ∧ (∀ trim lastReadAtDefault parseDate s0 w id c,
       Server.reachable trim lastReadAtDefault parseDate jwtVerify JWT_SECRET
         s0 w →
       Server.conns w !! id = Some c → authenticated jwtVerify JWT_SECRET c)
  ∧ (∀ trim lastReadAtDefault parseDate env id ev w,
       Server.conns w !! id = None →
       Server.serve trim lastReadAtDefault parseDate jwtVerify JWT_SECRET
         (Server.Client env id ev) w = w).
Proof.
  repeat split.
  - intros id h Ht. unfold Socket.connect, Socket.authenticate. by rewrite Ht.
  - intros id h token Htok Hne Hv.
    unfold Socket.connect, Socket.authenticate. rewrite Htok. simpl.
    rewrite bool_decide_eq_true_2 by done. simpl.
    fold (secret JWT_SECRET). by rewrite Hv.
  - intros id h c Hc. unfold Socket.connect in Hc.
    destruct (Socket.authenticate jwtVerify JWT_SECRET h) as [|p] eqn:Ha;
      [done|]. simplify_eq/=. by apply authenticate_accepts.
  - intros trim lastReadAtDefault parseDate s0 w id c Hr Hc.
    by apply (reachable_authenticated _ _ _ _ _ Hr id c).
  - intros trim lastReadAtDefault parseDate env id ev w Hc. simpl.
    by rewrite Hc.
Qed.

End SocketAuthentication.

(** ** Socket event handlers *)

(** C8. For an accepted socket and a non-empty [targetUserId], the
    friend_request handler emits friend_request_received to the room of the
    target user, whatever the store holds: the target need not be a user,
    and no friends row between the two need exist. *)
Theorem friend_request_unvalidated (env : Env) (c : Socket.Conn)
    (targetUserId : string) (action : option string) (s : Store) :
  targetUserId ≠ "" →
  Socket.friendRequest env c
    (Some {| Socket.fq_targetUserId := Some targetUserId;
             Socket.fq_action := action |}) s
  = [Socket.emit (Socket.ToRoom (Socket.userRoom targetUserId))
       "friend_request_received"
       (Socket.DFriendRequest (Socket.pl_userId (Socket.conn_user c))
          (Socket.pl_email (Socket.conn_user c)) (orElse action "sent")
          (now env))]
  ∧ Socket.friendRequest env c
      (Some {| Socket.fq_targetUserId := Some targetUserId;
               Socket.fq_action := action |}) s
    = Socket.friendRequest env c
        (Some {| Socket.fq_targetUserId := Some targetUserId;
                 Socket.fq_action := action |}) emptyStore.
Proof.
  intros Hne. unfold Socket.friendRequest. simpl.
  by rewrite bool_decide_eq_true_2.
Qed.

(** C3. The task_update handler broadcasts task_updated only after it has
    found the sender to be the owner or an accepted member of the workspace
    and has found a group task with the given id in that workspace; when the
    sender has no access, or no such task exists, the handler emits one
    error event to the sender and nothing else.  For non-empty ids the
    outcome is exactly this: without access the access error; with access
    but no such task the not-found error; otherwise one task_updated event to
    the workspace room, carrying the sender's id, the action, and the
    client's task data or else the stored task that was looked up. *)
Theorem task_update_revalidates (env : Env) (c : Socket.Conn)
    (data : option Socket.TaskUpdate) (s : Store) :
  (∀ e, e ∈ Socket.taskUpdate env c data s →
     Socket.em_event e = "task_updated" →
     ∃ d wsId taskId task,
       data = Some d ∧ Socket.tu_wsId d = Some wsId
       ∧ Socket.tu_taskId d = Some taskId
       ∧ hasAccess s (Socket.pl_userId (Socket.conn_user c)) wsId
       ∧ task ∈ groupTasks s ∧ gt_id task = taskId
       ∧ gt_workspaceId task = wsId
       ∧ Socket.em_target e = Socket.ToRoom (Socket.workspaceRoom wsId))
  ∧ (∀ d, data = Some d →
       ¬ hasAccess s (Socket.pl_userId (Socket.conn_user c))
           (default "" (Socket.tu_wsId d))
       ∨ ¬ Exists (λ t, gt_id t = default "" (Socket.tu_taskId d)
                        ∧ gt_workspaceId t = default "" (Socket.tu_wsId d))
             (groupTasks s) →
       refused (Socket.taskUpdate env c data s)
       ∧ ∀ e, e ∈ Socket.taskUpdate env c data s →
              Socket.em_event e ≠ "task_updated")
  ∧ (∀ d wsId taskId,
       data = Some d →
       Socket.tu_wsId d = Some wsId → wsId ≠ "" →
       Socket.tu_taskId d = Some taskId → taskId ≠ "" →
       Socket.taskUpdate env c data s
       = if decide (hasAccess s (Socket.pl_userId (Socket.conn_user c)) wsId)
         then
           match findFirst (λ t, gt_id t = taskId ∧ gt_workspaceId t = wsId)
                   (groupTasks s) with
           | Some task =>
             [Socket.emit (Socket.ToRoom (Socket.workspaceRoom wsId))
                "task_updated"
                (Socket.DTaskUpdated taskId
                   (orElse (Socket.tu_action d) "updated")
                   (Socket.pl_userId (Socket.conn_user c))
                   (if truthy (Socket.tu_taskData d)
                    then Socket.ClientTaskData
                           (default "" (Socket.tu_taskData d))
                    else Socket.CanonicalTask task)
                   (now env))]
           | None => [Socket.errorTo "Task를 찾을 수 없습니다."]
           end
         else [Socket.errorTo "워크스페이스에 접근 권한이 없습니다."]).
Proof.
  assert (Herr : ∀ message out, out = [Socket.errorTo message] →
            ∀ e, e ∈ out → Socket.em_event e ≠ "task_updated").
  { intros message out -> e He. apply list_elem_of_singleton in He as ->.
    done. }
  unfold Socket.taskUpdate. split; [|split].
  3: { intros d wsId taskId -> Hw Hwne Ht Htne. rewrite Hw, Ht. simpl.
       rewrite !bool_decide_eq_true_2 by done. simpl.
       destruct (Socket.checkWorkspaceMembership _ wsId s) eqn:Hm; simpl.
       - apply checkWorkspaceMembership_spec in Hm.
         by rewrite decide_True by done.
       - rewrite decide_False; [done|]. intros Ha.
         apply checkWorkspaceMembership_spec in Ha. congruence. }
  - intros e He Hev. destruct data as [d|].
    2: { by eapply Herr in He. }
    destruct (truthy (Socket.tu_wsId d)) eqn:Hw; simpl in He.
    2: { by eapply Herr in He. }
    destruct (truthy (Socket.tu_taskId d)) eqn:Ht; simpl in He.
    2: { by eapply Herr in He. }
    apply truthy_Some in Hw as (wsId & Hw & _).
    apply truthy_Some in Ht as (taskId & Ht & _).
    rewrite Hw, Ht in He. simpl in He.
    destruct (Socket.checkWorkspaceMembership _ wsId s) eqn:Hm; simpl in He.
    2: { by eapply Herr in He. }
    apply checkWorkspaceMembership_spec in Hm.
    destruct (findFirst _ (groupTasks s)) as [task|] eqn:Hf.
    2: { by eapply Herr in He. }
    apply findFirst_Some in Hf as [[? ?] ?].
    apply list_elem_of_singleton in He as ->.
    exists d, wsId, taskId, task. done.
  - intros d -> Hno.
    assert (Hout : refused
      (if negb (truthy (Socket.tu_wsId d)) || negb (truthy (Socket.tu_taskId d))
       then [Socket.errorTo "워크스페이스 ID와 Task ID는 필수입니다."]
       else
         if negb (Socket.checkWorkspaceMembership
                    (Socket.pl_userId (Socket.conn_user c))
                    (default "" (Socket.tu_wsId d)) s)
         then [Socket.errorTo "워크스페이스에 접근 권한이 없습니다."]
         else
           match findFirst
                   (λ t, gt_id t = default "" (Socket.tu_taskId d)
                         ∧ gt_workspaceId t = default "" (Socket.tu_wsId d))
                   (groupTasks s) with
           | Some task =>
             [Socket.emit
                (Socket.ToRoom
                   (Socket.workspaceRoom (default "" (Socket.tu_wsId d))))
                "task_updated"
                (Socket.DTaskUpdated (default "" (Socket.tu_taskId d))
                   (orElse (Socket.tu_action d) "updated")
                   (Socket.pl_userId (Socket.conn_user c))
                   (if truthy (Socket.tu_taskData d)
                    then Socket.ClientTaskData
                           (default "" (Socket.tu_taskData d))
                    else Socket.CanonicalTask task) (now env))]
           | None => [Socket.errorTo "Task를 찾을 수 없습니다."]
           end)).
    { destruct (negb _ || negb _); [by eexists|].
      destruct (Socket.checkWorkspaceMembership _ _ s) eqn:Hm; simpl;
        [|by eexists].
      apply checkWorkspaceMembership_spec in Hm.
      destruct (findFirst _ (groupTasks s)) as [task|] eqn:Hf; [|by eexists].
      destruct Hno as [Hno|Hno]; [done|].
      exfalso. apply Hno.
      apply (findFirst_is_Some
               (λ t, gt_id t = default "" (Socket.tu_taskId d)
                     ∧ gt_workspaceId t = default "" (Socket.tu_wsId d))).
      eauto. }
    split; [exact Hout|]. destruct Hout as [message Hout].
    intros e He. by eapply Herr.
Qed.

(** ** Deleting a chat message *)

Lemma deleteMessage_cases (uid messageId : string) (s : Store) :
  (findFirst (λ m, cm_id m = messageId) (chatMessages s) = None
   ∧ Chat.deleteMessage uid messageId s
     = (s, respond 404 (BError "메시지를 찾을 수 없습니다.")))
  ∨ (∃ message,
       findFirst (λ m, cm_id m = messageId) (chatMessages s) = Some message
       ∧ findFirst (λ w, ws_id w = cm_workspaceId message) (workspaces s) = None
       ∧ Chat.deleteMessage uid messageId s
         = (s, respond 500 (BError "메시지를 삭제할 수 없습니다.")))
  ∨ (∃ message workspace,
       findFirst (λ m, cm_id m = messageId) (chatMessages s) = Some message
       ∧ findFirst (λ w, ws_id w = cm_workspaceId message) (workspaces s)
         = Some workspace
       ∧ ((ws_ownerId workspace ≠ uid ∧ cm_userId message ≠ uid
           ∧ ¬ Exists (acceptedMemberOf (cm_workspaceId message) uid)
                 (workspaceMembers s)
           ∧ Chat.deleteMessage uid messageId s
             = (s, respond 403 (BError "메시지를 삭제할 권한이 없습니다.")))
          ∨ ((ws_ownerId workspace = uid ∨ cm_userId message = uid
              ∨ Exists (acceptedMemberOf (cm_workspaceId message) uid)
                  (workspaceMembers s))
             ∧ let s1 :=
                 with_chatMessages
                   (deleteWhere (λ m, cm_id m = messageId) (chatMessages s)) s in
               Chat.deleteMessage uid messageId s
               = (with_chatNotifications
                    (foldl (Chat.recountUnread (cm_workspaceId message)
                              (chatMessages s1))
                       (chatNotifications s1)
                       (Chat.deleteRecipients (cm_workspaceId message)
                          workspace s1)) s1,
                  respond 200 (BInfo "메시지가 삭제되었습니다."))))).
Proof.
  unfold Chat.deleteMessage.
  destruct (findFirst _ (chatMessages s)) as [message|] eqn:Hm; [|by left].
  right.
  destruct (findFirst _ (workspaces s)) as [workspace|] eqn:Hw;
    [right|left; by exists message].
  exists message, workspace. split; [done|]. split; [done|].
  pose proof (findFirst_Some _ _ _ Hw) as [Hid _]. simpl in Hid.
  set (members := filter _ (workspaceMembers s)).
  assert (Hmem : (0 < length members)%nat ↔
            Exists (acceptedMemberOf (cm_workspaceId message) uid)
              (workspaceMembers s)).
  { rewrite Exists_exists. subst members. rewrite Hid. split.
    - intros Hlen.
      destruct (filter _ (workspaceMembers s)) as [|m l] eqn:E;
        [simpl in Hlen; lia|].
      assert (Hin : m ∈ filter
                (λ m, wm_workspaceId m = cm_workspaceId message
                      ∧ wm_userId m = uid ∧ wm_accepted m = true)
                (workspaceMembers s)) by (rewrite E; left).
      apply list_elem_of_filter in Hin as [? ?]. by exists m.
    - intros (m & Hin & HP).
      assert (Hm' : m ∈ filter
                (λ m, wm_workspaceId m = cm_workspaceId message
                      ∧ wm_userId m = uid ∧ wm_accepted m = true)
                (workspaceMembers s)) by (by apply list_elem_of_filter).
      destruct (filter _ (workspaceMembers s));
        [by apply elem_of_nil in Hm'|simpl; lia]. }
  destruct (decide (ws_ownerId workspace = uid)) as [Ho|Ho];
    [rewrite (bool_decide_eq_true_2 _ Ho)
    |rewrite (bool_decide_eq_false_2 _ Ho)]; simpl; [right; by eauto|].
  destruct (decide (cm_userId message = uid)) as [Ha|Ha];
    [rewrite (bool_decide_eq_true_2 _ Ha)
    |rewrite (bool_decide_eq_false_2 _ Ha)]; simpl; [right; by eauto|].
  destruct (decide (0 < length members)%nat) as [Hl|Hl];
    [rewrite (bool_decide_eq_true_2 _ Hl)
    |rewrite (bool_decide_eq_false_2 _ Hl)]; simpl.
  - right. split; [|done]. right. right. by apply Hmem.
  - left. repeat split; try done. by rewrite <- Hmem.
Qed.

(** C9. The delete handler answers 403 exactly when the message and its
    workspace exist and the requester is at once not the owner, not the
    author and not an accepted member of that workspace; for any accepted
    member of the message's workspace, author or not, the deletion succeeds:
    the answer is 200 and no message with that id is left. *)
Theorem delete_message_permission (uid messageId : string) (s : Store) :
  (status (Chat.deleteMessage uid messageId s).2 = 403%nat ↔
   ∃ message workspace,
     findFirst (λ m, cm_id m = messageId) (chatMessages s) = Some message
     ∧ findFirst (λ w, ws_id w = cm_workspaceId message) (workspaces s)
       = Some workspace
     ∧ ws_ownerId workspace ≠ uid ∧ cm_userId message ≠ uid
     ∧ ¬ Exists (acceptedMemberOf (cm_workspaceId message) uid)
           (workspaceMembers s))
  ∧ (∀ message workspace,
       findFirst (λ m, cm_id m = messageId) (chatMessages s) = Some message →
       findFirst (λ w, ws_id w = cm_workspaceId message) (workspaces s)
       = Some workspace →
       Exists (acceptedMemberOf (cm_workspaceId message) uid)
         (workspaceMembers s) →
       status (Chat.deleteMessage uid messageId s).2 = 200%nat
       ∧ ∀ m, m ∈ chatMessages (Chat.deleteMessage uid messageId s).1 →
              cm_id m ≠ messageId).
Proof.
  destruct (deleteMessage_cases uid messageId s)
    as [[Hm ->]|[(message & Hm & Hw & ->)
       |(message & workspace & Hm & Hw
         & [(Ho & Ha & Hx & ->)|(Hyes & Hd)])]]; simpl in *.
  - split; [split; [done|]|].
    + intros (? & ? & ? & _). congruence.
    + intros ? ? ?. congruence.
  - split; [split; [done|]|].
    + intros (? & ? & H1 & H2 & _). rewrite Hm in H1. by simplify_eq.
    + intros ? ? H1 H2 _. rewrite Hm in H1. by simplify_eq.
  - split; [split; [intros _; by exists message, workspace|done]|].
    intros ? ? ? ? ?. by simplify_eq.
  - rewrite Hd. simpl. split; [split; [done|]|].
    + intros (m' & w' & ? & ? & ? & ? & ?). simplify_eq. naive_solver.
    + intros ? ? ? ? ?. split; [done|]. intros m Hin.
      apply deleteWhere_elem in Hin as [? ?]. done.
Qed.

(** ** Access to a workspace *)

Lemma chatHistory_refusal (uid workspaceId : string) (page : option Z)
    (limit : option nat) (s : Store) :
  status (Chat.chatHistory uid workspaceId page limit s) = 403%nat ↔
  ¬ Exists (acceptedMemberOf workspaceId uid) (workspaceMembers s).
Proof.
  unfold Chat.chatHistory.
  destruct (findFirst _ (workspaceMembers s)) as [m|] eqn:Hm.
  - assert (Exists (acceptedMemberOf workspaceId uid) (workspaceMembers s)).
    { apply (findFirst_is_Some (acceptedMemberOf workspaceId uid)). eauto. }
    case_decide; simpl; split; done.
  - apply findFirst_None in Hm. simpl. done.
Qed.

Lemma joinWorkspace_access (c : Socket.Conn) (wsId : string) (s : Store) :
  wsId ≠ "" →
  (hasAccess s (Socket.pl_userId (Socket.conn_user c)) wsId →
   Socket.joinWorkspace c (Some wsId) s
   = (Socket.joinRoom (Socket.workspaceRoom wsId) c,
      [Socket.emit Socket.ToSender "joined_workspace" (Socket.DWorkspace wsId);
       Socket.emit (Socket.ToOthersIn (Socket.workspaceRoom wsId)) "user_joined"
         (Socket.DUser (Socket.pl_userId (Socket.conn_user c))
            (Socket.pl_email (Socket.conn_user c)))]))
  ∧ (¬ hasAccess s (Socket.pl_userId (Socket.conn_user c)) wsId →
     Socket.joinWorkspace c (Some wsId) s
     = (c, [Socket.errorTo "워크스페이스에 접근 권한이 없습니다."])).
Proof.
  intros Hne. unfold Socket.joinWorkspace. simpl.
  rewrite bool_decide_eq_true_2 by done. simpl.
  destruct (Socket.checkWorkspaceMembership _ wsId s) eqn:Hm; simpl.
  - apply checkWorkspaceMembership_spec in Hm. split; done.
  - split; [|done]. intros Ha. apply checkWorkspaceMembership_spec in Ha.
    congruence.
Qed.

(** C6. The owner of a workspace created through POST /workspaces holds no
    member row: the socket join_workspace handler and the mark-read route
    let the owner in, while the chat-history route answers 403. *)
Theorem chat_history_refuses_owner :
  workspaces ownerOnly
  = [{| ws_id := "w1"; ws_name := "Team"; ws_ownerId := "alice" |}]
  ∧ workspaceMembers ownerOnly = []
  ∧ hasAccess ownerOnly "alice" "w1"
  ∧ (Socket.joinWorkspace (socketOf "alice") (Some "w1") ownerOnly).2
    = [Socket.emit Socket.ToSender "joined_workspace" (Socket.DWorkspace "w1");
       Socket.emit (Socket.ToOthersIn "workspace_w1") "user_joined"
         (Socket.DUser "alice" "alice@example.com")]
  ∧ status (Chat.markRead {| now := 2000; freshId := "x" |} "alice" "w1"
              ownerOnly).2 = 200%nat
  ∧ Chat.chatHistory "alice" "w1" None None ownerOnly
    = respond 403 (BError "워크스페이스에 접근할 권한이 없습니다.").
Proof.
  split; [reflexivity|]. split; [reflexivity|].
  split; [left; by vm_compute; constructor|].
  split; [reflexivity|]. split; reflexivity.
Qed.

(** ** REST mutations and socket emissions *)

Section RestAndSockets.
Variable trim : string → string.
Variable lastReadAtDefault : Z → Z.
Variable parseDate : string → option Z.
Variable jwtVerify : string → string → option Socket.Payload.
Variable JWT_SECRET : option string.

Let serve := Server.serve trim lastReadAtDefault parseDate jwtVerify JWT_SECRET.
Let handleRest := Server.handleRest trim lastReadAtDefault parseDate.

Lemma forEach_writes {A} (f : A → Store → Store)
    (body : A → Routes.Route unit) (l : list A) (e : Routes.Effects) :
  (∀ x e, body x e
          = (tt, {| Routes.store := f x (Routes.store e);
                    Routes.emitted := Routes.emitted e |})) →
  Routes.forEach l body e
  = (tt, {| Routes.store := foldl (λ s x, f x s) (Routes.store e) l;
            Routes.emitted := Routes.emitted e |}).
Proof.
  intros Hbody. revert e. induction l as [|x l IH]; intros e.
  - by destruct e.
  - simpl. unfold mbind, Routes.route_bind. rewrite Hbody. by rewrite IH.
Qed.

Lemma foldl_notifications {A}
    (g : Store → gmap (string * string) ChatNotification → A →
         gmap (string * string) ChatNotification)
    (l : list A) (s : Store) :
  (∀ t s, g (with_chatNotifications t s) = g s) →
  foldl (λ s x, with_chatNotifications (g s (chatNotifications s) x) s) s l
  = with_chatNotifications (foldl (g s) (chatNotifications s) l) s.
Proof.
  intros Hg. revert s. induction l as [|x l IH]; intros s.
  - by destruct s.
  - simpl. rewrite IH, Hg. done.
Qed.

Ltac route_steps :=
  unfold mbind, Routes.route_bind, mret, Routes.route_ret, Routes.query,
    Routes.write, Routes.attempt;
  cbn [Routes.store Routes.emitted fst snd].

Lemma route_sendMessage (env : Env) (uid workspaceId : string)
    (content : option string) (s : Store) (events : list Socket.Emission) :
  Routes.sendMessage trim lastReadAtDefault env uid workspaceId content
    {| Routes.store := s; Routes.emitted := events |}
  = ((Chat.sendMessage trim lastReadAtDefault env uid workspaceId content s).2,
     {| Routes.store :=
          (Chat.sendMessage trim lastReadAtDefault env uid workspaceId
             content s).1;
        Routes.emitted := events |}).
Proof.
  unfold Routes.sendMessage, Chat.sendMessage.
  destruct content as [c|]; [|done].
  destruct (decide _); [done|]. route_steps.
  destruct (findFirst _ (workspaceMembers s)); [|done].
  destruct (Chat.createChatMessage _ _ _ _ _) as [[s1 message]|]; [|done].
  route_steps.
  destruct (findFirst _ (workspaces s1)) as [workspace|]; [|done].
  rewrite (forEach_writes
             (λ userId s,
                with_chatNotifications
                  (Chat.incrementUnread lastReadAtDefault env workspaceId
                     (chatNotifications s) userId) s)) by done.
  cbn [Routes.store Routes.emitted fst snd].
  by rewrite (foldl_notifications
                (λ _, Chat.incrementUnread lastReadAtDefault env workspaceId)).
Qed.

Lemma route_deleteMessage (uid messageId : string) (s : Store)
    (events : list Socket.Emission) :
  Routes.deleteMessage uid messageId
    {| Routes.store := s; Routes.emitted := events |}
  = ((Chat.deleteMessage uid messageId s).2,
     {| Routes.store := (Chat.deleteMessage uid messageId s).1;
        Routes.emitted := events |}).
Proof.
  unfold Routes.deleteMessage, Chat.deleteMessage. route_steps.
  destruct (findFirst _ (chatMessages s)) as [message|]; [|done].
  route_steps.
  destruct (findFirst _ (workspaces s)) as [workspace|]; [|done].
  route_steps.
  destruct (negb _ && negb _ && negb _); [done|].
  route_steps.
  rewrite (forEach_writes
             (λ userId s,
                with_chatNotifications
                  (Chat.recountUnread (cm_workspaceId message) (chatMessages s)
                     (chatNotifications s) userId) s)).
  2: { intros userId [s' events']. route_steps. unfold Chat.recountUnread.
       destruct (chatNotifications s' !! _); [done|]. by destruct s'. }
  cbn [Routes.store Routes.emitted fst snd].
  by rewrite (foldl_notifications
                (λ s, Chat.recountUnread (cm_workspaceId message)
                        (chatMessages s))).
Qed.

Lemma route_markRead (env : Env) (uid workspaceId : string) (s : Store)
    (events : list Socket.Emission) :
  Routes.markRead env uid workspaceId
    {| Routes.store := s; Routes.emitted := events |}
  = ((Chat.markRead env uid workspaceId s).2,
     {| Routes.store := (Chat.markRead env uid workspaceId s).1;
        Routes.emitted := events |}).
Proof.
  unfold Routes.markRead, Chat.markRead. route_steps.
  by destruct (_ && _).
Qed.

Lemma route_createTask (env : Env) (wsId : string) (b : Tasks.TaskBody)
    (s : Store) (events : list Socket.Emission) :
  Routes.createTask parseDate env wsId b
    {| Routes.store := s; Routes.emitted := events |}
  = ((Tasks.createTask parseDate env wsId b s).2,
     {| Routes.store := (Tasks.createTask parseDate env wsId b s).1;
        Routes.emitted := events |}).
Proof.
  unfold Routes.createTask, Tasks.createTask.
  destruct (_ || _); [done|]. destruct (decide _); [done|].
  destruct (_ && _); [done|].
  destruct (parseDate _) as [st|]; [|done].
  destruct (parseDate _) as [du|]; [|done].
  destruct (decide _); [done|]. route_steps.
  by destruct (Tasks.createGroupTask _ _).
Qed.

Lemma route_updateTask (wsId taskId : string) (b : Tasks.TaskBody)
    (s : Store) (events : list Socket.Emission) :
  Routes.updateTask parseDate wsId taskId b
    {| Routes.store := s; Routes.emitted := events |}
  = ((Tasks.updateTask parseDate wsId taskId b s).2,
     {| Routes.store := (Tasks.updateTask parseDate wsId taskId b s).1;
        Routes.emitted := events |}).
Proof.
  unfold Routes.updateTask, Tasks.updateTask. route_steps.
  destruct (findFirst _ (groupTasks s)) as [existingTask|]; [|done].
  destruct (_ && _); [done|]. destruct (_ && _); [done|].
  destruct (Tasks.datesOutOfOrder _ _); [done|]. route_steps.
  destruct (findFirst _ (groupTasks s)) as [target|]; [|done]. simpl.
  destruct (Tasks.applyTaskBody _ _ _) as [updated|]; [|done]. simpl.
  by destruct (Tasks.updateGroupTask _ _ _ _).
Qed.

Lemma route_deleteTask (wsId taskId : string) (s : Store)
    (events : list Socket.Emission) :
  Routes.deleteTask wsId taskId
    {| Routes.store := s; Routes.emitted := events |}
  = ((Tasks.deleteTask wsId taskId s).2,
     {| Routes.store := (Tasks.deleteTask wsId taskId s).1;
        Routes.emitted := events |}).
Proof.
  unfold Routes.deleteTask, Tasks.deleteTask. route_steps.
  by destruct (findFirst _ (groupTasks s)).
Qed.

Lemma route_tasksBulkStatus (wsId : string) (taskIds : option (list string))
    (newStatus : option string) (s : Store) (events : list Socket.Emission) :
  Routes.tasksBulkStatus wsId taskIds newStatus
    {| Routes.store := s; Routes.emitted := events |}
  = ((Tasks.bulkStatus wsId taskIds newStatus s).2,
     {| Routes.store := (Tasks.bulkStatus wsId taskIds newStatus s).1;
        Routes.emitted := events |}).
Proof.
  unfold Routes.tasksBulkStatus, Tasks.bulkStatus.
  destruct taskIds as [[|i ids]|]; [done| |done].
  by destruct (_ || _).
Qed.

Lemma route_createTodo (env : Env) (userId : string) (b : Todos.TodoBody)
    (s : Store) (events : list Socket.Emission) :
  Routes.createTodo parseDate env userId b
    {| Routes.store := s; Routes.emitted := events |}
  = ((Todos.createTodo parseDate env userId b s).2,
     {| Routes.store := (Todos.createTodo parseDate env userId b s).1;
        Routes.emitted := events |}).
Proof.
  unfold Routes.createTodo, Todos.createTodo.
  destruct (negb _); [done|].
  destruct (_ && _); [done|]. destruct (_ && _); [done|].
  destruct (Todos.optionalDate _ _) as [st|]; [|done].
  destruct (Todos.optionalDate _ _) as [du|]; [|done]. route_steps.
  by destruct (Todos.createPersonalTodo _ _).
Qed.

Lemma route_updateTodo (userId id : string) (b : Todos.TodoBody)
    (s : Store) (events : list Socket.Emission) :
  Routes.updateTodo parseDate userId id b
    {| Routes.store := s; Routes.emitted := events |}
  = ((Todos.updateTodo parseDate userId id b s).2,
     {| Routes.store := (Todos.updateTodo parseDate userId id b s).1;
        Routes.emitted := events |}).
Proof.
  unfold Routes.updateTodo, Todos.updateTodo. route_steps.
  destruct (findFirst _ (personalTodos s)) as [existingTodo|]; [|done].
  destruct (_ && _); [done|]. destruct (_ && _); [done|]. route_steps.
  destruct (findFirst _ (personalTodos s)) as [target|]; [|done]. simpl.
  destruct (Todos.applyTodoBody _ _ _) as [updated|]; [|done]. simpl.
  by destruct (Todos.updatePersonalTodo _ _ _ _).
Qed.

Lemma route_deleteTodo (userId id : string) (s : Store)
    (events : list Socket.Emission) :
  Routes.deleteTodo userId id
    {| Routes.store := s; Routes.emitted := events |}
  = ((Todos.deleteTodo userId id s).2,
     {| Routes.store := (Todos.deleteTodo userId id s).1;
        Routes.emitted := events |}).
Proof.
  unfold Routes.deleteTodo, Todos.deleteTodo. route_steps.
  by destruct (findFirst _ (personalTodos s)).
Qed.

Lemma route_todosBulkStatus (userId : string)
    (todoIds : option (list string)) (newStatus : option string) (s : Store)
    (events : list Socket.Emission) :
  Routes.todosBulkStatus userId todoIds newStatus
    {| Routes.store := s; Routes.emitted := events |}
  = ((Todos.bulkStatus userId todoIds newStatus s).2,
     {| Routes.store := (Todos.bulkStatus userId todoIds newStatus s).1;
        Routes.emitted := events |}).
Proof.
  unfold Routes.todosBulkStatus, Todos.bulkStatus.
  destruct todoIds as [[|i ids]|]; [done| |done].
  by destruct (_ || _).
Qed.

(** C5. No handler of a REST mutation on chat messages, group tasks or
    personal todos hands an event to the socket server.  Written call by
    call over the store and the emitted events, each of the eleven handlers
    leaves the emitted events as they were, and its effects are the store
    and the HTTP response of the handler the process serves.  So serving a
    REST mutation changes the store and adds the response, with the emitted
    events and the sockets as before, and an input that does add emitted
    events is an event sent by a client over an accepted socket. *)
Theorem rest_mutations_emit_nothing :
  (∀ env r s events,
     Routes.route trim lastReadAtDefault parseDate env r
       {| Routes.store := s; Routes.emitted := events |}
     = ((handleRest env r s).2,
        {| Routes.store := (handleRest env r s).1;
           Routes.emitted := events |}))
  ∧ (∀ env r w,
       Server.outbox (serve (Server.Rest env r) w) = Server.outbox w
       ∧ Server.conns (serve (Server.Rest env r) w) = Server.conns w
       ∧ Server.db (serve (Server.Rest env r) w)
         = (handleRest env r (Server.db w)).1
       ∧ Server.replies (serve (Server.Rest env r) w)
         = (Server.replies w ++ [(handleRest env r (Server.db w)).2])%list)
  ∧ (∀ i w,
       Server.outbox (serve i w) ≠ Server.outbox w →
       ∃ env id ev c, i = Server.Client env id ev
                      ∧ Server.conns w !! id = Some c).
Proof.
  split; [|split].
  - intros env r s events. subst handleRest.
    destruct r; cbn [Routes.route Server.handleRest].
    + apply route_sendMessage.
    + apply route_deleteMessage.
    + apply route_markRead.
    + apply route_createTask.
    + apply route_updateTask.
    + apply route_deleteTask.
    + apply route_tasksBulkStatus.
    + apply route_createTodo.
    + apply route_updateTodo.
    + apply route_deleteTodo.
    + apply route_todosBulkStatus.
  - intros env r w. subst serve handleRest. simpl.
    by destruct (Server.handleRest _ _ _ _ _ _).
  - intros i w Hne. subst serve.
    destruct i as [env r|id h|env id ev]; simpl in Hne.
    + by destruct (Server.handleRest _ _ _ _ _ _).
    + by destruct (Socket.connect _ _ _ _).
    + destruct (Server.conns w !! id) as [c|] eqn:Hc; [|done].
      by exists env, id, ev, c.
Qed.

End RestAndSockets.

(** ** Cascading deletes *)

Module SchemaFacts.
Import Schema.

Lemma shrinks_refl (db : Database) : shrinks db db.
Proof. by intros t r. Qed.

Lemma shrinks_trans (db1 db2 db3 : Database) :
  shrinks db1 db2 → shrinks db2 db3 → shrinks db1 db3.
Proof. intros H12 H23 t r Hr. by apply H23, H12. Qed.

Lemma removeRows_elem (t t' : table) (ids : list string) (db : Database)
    (r : Row) :
  r ∈ removeRows t ids db t' ↔ r ∈ db t' ∧ (t' = t → row_id r ∉ ids).
Proof.
  unfold removeRows. destruct (decide (t = t')) as [<-|Hne].
  - rewrite fn_lookup_insert, list_elem_of_filter. naive_solver.
  - rewrite fn_lookup_insert_ne by done. naive_solver.
Qed.

Lemma removeRows_shrinks (t : table) (ids : list string) (db : Database) :
  shrinks (removeRows t ids db) db.
Proof. intros t' r Hr. by apply removeRows_elem in Hr as [? _]. Qed.

Section Cascade.
Variable fks : list foreignKey.
Hypothesis fks_cascade : allCascade fks.

Lemma cascade_fold_shrinks (rec : table → list string → Database → Database)
    (t : table) (ids : list string) (l : list foreignKey) (acc : Database) :
  (∀ t' ids' db', shrinks (rec t' ids' db') db') →
  Forall (λ fk, fk_onDelete fk = Cascade) l →
  shrinks (foldl (cascadeStep rec t ids) acc l) acc.
Proof.
  intros Hrec Hl. revert acc.
  induction Hl as [|fk l Hfk Hl IH]; intros acc; simpl.
  - apply shrinks_refl.
  - eapply shrinks_trans; [apply IH|].
    unfold cascadeStep. case_decide; [|apply shrinks_refl].
    rewrite Hfk. apply Hrec.
Qed.

Lemma deleteRows_shrinks (depth : nat) (t : table) (ids : list string)
    (db : Database) :
  shrinks (deleteRows depth fks t ids db) db.
Proof.
  revert t ids db. induction depth as [|depth IH]; intros t ids db; simpl.
  - apply shrinks_refl.
  - eapply shrinks_trans; [|apply removeRows_shrinks].
    by apply cascade_fold_shrinks.
Qed.

(** The deleted rows are gone. *)
Lemma deleteRows_removed (depth : nat) (t : table) (ids : list string)
    (db : Database) (r : Row) :
  r ∈ deleteRows (S depth) fks t ids db t → row_id r ∉ ids.
Proof.
  simpl. intros Hr.
  apply (cascade_fold_shrinks (deleteRows depth fks) t ids fks) in Hr;
    [|intros; apply deleteRows_shrinks|done].
  apply removeRows_elem in Hr as [_ Hr]. by apply Hr.
Qed.

(** The rows referencing a deleted row through a cascading constraint are
    gone as well. *)
Lemma deleteRows_cascades (depth : nat) (fk : foreignKey) (ids : list string)
    (db : Database) (r : Row) :
  fk ∈ fks →
  r ∈ deleteRows (S (S depth)) fks (fk_references fk) ids db (fk_table fk) →
  ¬ refersTo (fk_column fk) ids r.
Proof.
  intros Hfk Hr Href.
  apply list_elem_of_split in Hfk as (pre & post & Hsplit).
  assert (Hall : allCascade (pre ++ fk :: post)) by (by rewrite <- Hsplit).
  apply Forall_app in Hall as [_ Hall].
  apply Forall_cons in Hall as [Hc Hpost].
  change (deleteRows (S (S depth)) fks (fk_references fk) ids db)
    with (foldl (cascadeStep (deleteRows (S depth) fks) (fk_references fk) ids)
            (removeRows (fk_references fk) ids db) fks) in Hr.
  rewrite Hsplit in Hr at 2. rewrite foldl_app in Hr. cbn [foldl] in Hr.
  set (acc := foldl _ _ pre) in Hr.
  apply (cascade_fold_shrinks (deleteRows (S depth) fks)) in Hr;
    [|intros; apply deleteRows_shrinks|done].
  unfold cascadeStep in Hr. rewrite decide_True in Hr by done.
  rewrite Hc in Hr.
  pose proof (deleteRows_removed _ _ _ _ _ Hr) as Hid.
  apply deleteRows_shrinks in Hr.
  apply Hid, list_elem_of_fmap. exists r. split; [done|].
  by apply list_elem_of_filter.
Qed.

End Cascade.

Lemma foreignKeys_cascade : allCascade foreignKeys.
Proof. unfold allCascade, foreignKeys. repeat constructor. Qed.

Lemma deleteRow_unfold (t : table) (i : string) (db : Database) :
  deleteRow t i db = deleteRows (S cascadeDepth) foreignKeys t [i] db.
Proof. reflexivity. Qed.

Lemma deleteRows_cascades_deep (depth : nat) (fk : foreignKey)
    (ids : list string) (db : Database) (r : Row) :
  (2 ≤ depth)%nat →
  fk ∈ foreignKeys →
  r ∈ deleteRows depth foreignKeys (fk_references fk) ids db (fk_table fk) →
  ¬ refersTo (fk_column fk) ids r.
Proof.
  intros Hd. destruct depth as [|[|depth]]; [lia..|].
  apply deleteRows_cascades. apply foreignKeys_cascade.
Qed.

Lemma deleteRow_unreferenced (fk : foreignKey) (i : string) (db : Database) :
  fk ∈ foreignKeys →
  unreferenced (deleteRow (fk_references fk) i db) (fk_table fk)
    (fk_column fk) i.
Proof.
  intros Hfk r Hr Hcol. rewrite deleteRow_unfold in Hr.
  apply (deleteRows_cascades_deep _ fk [i] db r) in Hr;
    [|unfold cascadeDepth; lia|done].
  apply Hr. unfold refersTo. rewrite Hcol. left.
Qed.

End SchemaFacts.

(** C7. Every foreign key of the schema is declared ON DELETE CASCADE, and
    the deletes cascade: after a workspace is deleted no workspace member,
    group task or chat message row references it; after a user is deleted no
    friend row (as user or as friend), personal todo, refresh token or chat
    message row references that user. *)
Theorem foreign_keys_cascade :
  Schema.allCascade Schema.foreignKeys
  ∧ (∀ w db,
       let db' := Schema.deleteRow Schema.T_workspaces w db in
       Schema.unreferenced db' Schema.T_workspace_members "workspaceId" w
       ∧ Schema.unreferenced db' Schema.T_group_tasks "workspaceId" w
       ∧ Schema.unreferenced db' Schema.T_chat_messages "workspaceId" w)
  ∧ (∀ u db,
       let db' := Schema.deleteRow Schema.T_users u db in
       Schema.unreferenced db' Schema.T_friends "userId" u
       ∧ Schema.unreferenced db' Schema.T_friends "friendId" u
       ∧ Schema.unreferenced db' Schema.T_personal_todos "userId" u
       ∧ Schema.unreferenced db' Schema.T_refresh_tokens "userId" u
       ∧ Schema.unreferenced db' Schema.T_chat_messages "userId" u).
Proof.
  split; [apply SchemaFacts.foreignKeys_cascade|].
  split.
  - intros w db db'. subst db'. repeat split.
    + apply (SchemaFacts.deleteRow_unreferenced
               {| Schema.fk_name := "workspace_members_workspaceId_fkey";
                  Schema.fk_table := Schema.T_workspace_members;
                  Schema.fk_column := "workspaceId";
                  Schema.fk_references := Schema.T_workspaces;
                  Schema.fk_onDelete := Schema.Cascade |}).
      unfold Schema.foreignKeys. set_solver.
    + apply (SchemaFacts.deleteRow_unreferenced
               {| Schema.fk_name := "group_tasks_workspaceId_fkey";
                  Schema.fk_table := Schema.T_group_tasks;
                  Schema.fk_column := "workspaceId";
                  Schema.fk_references := Schema.T_workspaces;
                  Schema.fk_onDelete := Schema.Cascade |}).
      unfold Schema.foreignKeys. set_solver.
    + apply (SchemaFacts.deleteRow_unreferenced
               {| Schema.fk_name := "chat_messages_workspaceId_fkey";
                  Schema.fk_table := Schema.T_chat_messages;
                  Schema.fk_column := "workspaceId";
                  Schema.fk_references := Schema.T_workspaces;
                  Schema.fk_onDelete := Schema.Cascade |}).
      unfold Schema.foreignKeys. set_solver.
  - intros u db db'. subst db'. repeat split.
    + apply (SchemaFacts.deleteRow_unreferenced
               {| Schema.fk_name := "friends_userId_fkey";
                  Schema.fk_table := Schema.T_friends;
                  Schema.fk_column := "userId";
                  Schema.fk_references := Schema.T_users;
                  Schema.fk_onDelete := Schema.Cascade |}).
      unfold Schema.foreignKeys. set_solver.
    + apply (SchemaFacts.deleteRow_unreferenced
               {| Schema.fk_name := "friends_friendId_fkey";
                  Schema.fk_table := Schema.T_friends;
                  Schema.fk_column := "friendId";
                  Schema.fk_references := Schema.T_users;
                  Schema.fk_onDelete := Schema.Cascade |}).
      unfold Schema.foreignKeys. set_solver.
    + apply (SchemaFacts.deleteRow_unreferenced
               {| Schema.fk_name := "personal_todos_userId_fkey";
                  Schema.fk_table := Schema.T_personal_todos;
                  Schema.fk_column := "userId";
                  Schema.fk_references := Schema.T_users;
                  Schema.fk_onDelete := Schema.Cascade |}).
      unfold Schema.foreignKeys. set_solver.
    + apply (SchemaFacts.deleteRow_unreferenced
               {| Schema.fk_name := "refresh_tokens_userId_fkey";
                  Schema.fk_table := Schema.T_refresh_tokens;
                  Schema.fk_column := "userId";
                  Schema.fk_references := Schema.T_users;
                  Schema.fk_onDelete := Schema.Cascade |}).
      unfold Schema.foreignKeys. set_solver.
    + apply (SchemaFacts.deleteRow_unreferenced
               {| Schema.fk_name := "chat_messages_userId_fkey";
                  Schema.fk_table := Schema.T_chat_messages;
                  Schema.fk_column := "userId";
                  Schema.fk_references := Schema.T_users;
                  Schema.fk_onDelete := Schema.Cascade |}).
      unfold Schema.foreignKeys. set_solver.
Qed.

(** ** Login and refresh tokens *)

Section LoginFacts.
Variable bcryptCompare : string → string → bool.
Variable generateTokens : string → string → string → option (string * string).

Lemma filter_deleteWhere_nil {A} (P : A → Prop) {Pdec : ∀ x, Decision (P x)}
    (l : list A) :
  filter P (deleteWhere P l) = [].
Proof.
  unfold deleteWhere. induction l as [|x l IH]; [done|].
  rewrite filter_cons. case_decide; [|done].
  rewrite filter_cons. by rewrite decide_False.
Qed.

Lemma filter_deleteWhere_other {A} (P Q : A → Prop)
    {Pdec : ∀ x, Decision (P x)} {Qdec : ∀ x, Decision (Q x)} (l : list A) :
  (∀ x, Q x → ¬ P x) → filter Q (deleteWhere P l) = filter Q l.
Proof.
  intros HQ. unfold deleteWhere. induction l as [|x l IH]; [done|].
  rewrite !filter_cons. destruct (decide (Q x)) as [Hx|Hx].
  - rewrite decide_True by by apply HQ.
    rewrite filter_cons, decide_True by done. by rewrite IH.
  - destruct (decide (¬ P x)); [|done].
    by rewrite filter_cons, decide_False.
Qed.

Lemma replaceRefreshToken_rows (env : Env) (userId refreshToken : string)
    (s : Store) :
  Exists (λ u, u_id u = userId) (users s) →
  ¬ Exists (λ t, rt_userId t ≠ userId ∧ rt_id t = freshId env)
      (refreshTokens s) →
  ¬ Exists (λ t, rt_userId t ≠ userId ∧ rt_token t = refreshToken)
      (refreshTokens s) →
  refreshTokens (Auth.replaceRefreshToken env userId refreshToken s)
  = (deleteWhere (λ t, rt_userId t = userId) (refreshTokens s)
     ++ [{| rt_id := freshId env; rt_token := refreshToken;
            rt_userId := userId;
            rt_expiresAt := now env + 7 * 24 * 60 * 60 * 1000 |}])%list.
Proof.
  intros Hu Hid Htok.
  unfold Auth.replaceRefreshToken, Auth.createRefreshToken.
  cbn [rt_id rt_token rt_userId refreshTokens with_refreshTokens users].
  rewrite decide_False.
  2: { rewrite Exists_exists. intros (t & Hin & Ht).
       apply deleteWhere_elem in Hin as [Hne Hin].
       apply Hid, Exists_exists. eauto. }
  rewrite decide_False.
  2: { rewrite Exists_exists. intros (t & Hin & Ht).
       apply deleteWhere_elem in Hin as [Hne Hin].
       apply Htok, Exists_exists. eauto. }
  by rewrite decide_True by done.
Qed.

(** C10. After a successful login the user has exactly one refresh token in
    the store: the tokens the user had are deleted and a single new row is
    created, holding the token of this login and expiring 7 days after it;
    the tokens of other users stay as they are.  This holds when the
    database gives the new row an unused id and refresh tokens name their
    user, as the tokens the refresh handler decodes do: then no row of
    another user can hold the new token, the unique index accepts the write,
    and the stored tokens go on naming the user of their row. *)
Theorem login_replaces_refresh_tokens (tokenUser : string → option string)
    (penv : Auth.ProcessEnv) (env : Env) (email password : option string)
    (s : Store) :
  tokensPerUser tokenUser generateTokens →
  tokensOwned tokenUser s →
  freshId env ∉ rt_id <$> refreshTokens s →
  status (Auth.login bcryptCompare generateTokens penv env email password s).2
  = 200%nat →
  ∃ user accessToken refreshToken,
    findFirst (λ u, u_email u = default "" email) (users s) = Some user
    ∧ generateTokens (u_id user) (u_email user) (u_role user)
      = Some (accessToken, refreshToken)
    ∧ tokensOf (u_id user)
        (Auth.login bcryptCompare generateTokens penv env email password s).1
      = [{| rt_id := freshId env; rt_token := refreshToken;
            rt_userId := u_id user;
            rt_expiresAt := now env + 7 * 24 * 60 * 60 * 1000 |}]
    ∧ (∀ t, t ∈ tokensOf (u_id user) s →
         t ∉ refreshTokens
               (Auth.login bcryptCompare generateTokens penv env email
                  password s).1)
    ∧ (∀ other, other ≠ u_id user →
         tokensOf other
           (Auth.login bcryptCompare generateTokens penv env email
              password s).1
         = tokensOf other s)
    ∧ tokensOwned tokenUser
        (Auth.login bcryptCompare generateTokens penv env email password s).1.
Proof.
  intros Hper Howned Hfresh. unfold Auth.login.
  destruct (negb (truthy email) || negb (truthy password)); [done|].
  destruct (findFirst _ (users s)) as [user|] eqn:Hu; [|done].
  destruct (negb (u_isActive user)); [done|].
  destruct (negb (bcryptCompare _ _)); [done|].
  destruct (negb (truthy (Auth.JWT_SECRET penv)) || _); [done|].
  destruct (generateTokens _ _ _) as [[accessToken refreshToken]|] eqn:Hg;
    [|done].
  intros _. exists user, accessToken, refreshToken.
  split; [done|]. split; [done|]. cbn [fst].
  set (s1 := with_users _ s).
  assert (Hex : Exists (λ u, u_id u = u_id user) (users s1)).
  { apply findFirst_Some in Hu as [_ Hin]. apply Exists_exists.
    exists (Auth.touchLastLogin env user). split; [|done].
    unfold s1, updateWhere. simpl. apply list_elem_of_fmap.
    exists user. by rewrite decide_True. }
  assert (Hid : ¬ Exists (λ t, rt_userId t ≠ u_id user ∧ rt_id t = freshId env)
                    (refreshTokens s1)).
  { rewrite Exists_exists. intros (t & Hin & _ & Ht). apply Hfresh.
    apply list_elem_of_fmap. by exists t. }
  assert (Htok : ¬ Exists (λ t, rt_userId t ≠ u_id user
                                ∧ rt_token t = refreshToken)
                     (refreshTokens s1)).
  { rewrite Exists_exists. intros (t & Hin & Hne & Ht). apply Hne.
    specialize (Howned t Hin). rewrite Ht, (Hper _ _ _ _ _ Hg) in Howned.
    congruence. }
  unfold tokensOf, tokensOwned.
  rewrite (replaceRefreshToken_rows env (u_id user) refreshToken s1 Hex Hid Htok).
  change (refreshTokens s1) with (refreshTokens s).
  split_and!.
  - rewrite filter_app.
    rewrite (filter_deleteWhere_nil (λ t, rt_userId t = u_id user)).
    simpl. by rewrite filter_cons, decide_True by done.
  - intros t Ht. apply list_elem_of_filter in Ht as [Htu Hin].
    rewrite elem_of_app, list_elem_of_singleton. intros [Hrest| ->].
    + by apply deleteWhere_elem in Hrest as [Hne _].
    + apply Hfresh. apply list_elem_of_fmap.
      eexists. split; [|exact Hin]. done.
  - intros other Hother. rewrite filter_app.
    rewrite (filter_deleteWhere_other (λ t, rt_userId t = u_id user))
      by (intros x; simpl; congruence).
    rewrite filter_cons, decide_False by (simpl; congruence).
    by rewrite filter_nil, app_nil_r.
  - intros t. rewrite elem_of_app, list_elem_of_singleton. intros [Hrest| ->].
    + apply deleteWhere_elem in Hrest as [_ Hin]. by apply Howned.
    + simpl. by apply (Hper _ _ _ _ _ Hg).
Qed.

End LoginFacts.

Lemma login_replaces_refresh_tokens_witness :
  let out :=
    Auth.login sampleCompare userTokens sampleSecrets
      {| now := 9000; freshId := "t2" |}
      (Some "alice@example.com") (Some "alice") bobSession in
  status out.2 = 200%nat
  ∧ tokensOf "alice" out.1
    = [{| rt_id := "t2"; rt_token := "refresh:alice"; rt_userId := "alice";
          rt_expiresAt := 9000 + 7 * 24 * 60 * 60 * 1000 |}]
  ∧ tokensOf "bob" out.1 = tokensOf "bob" bobSession.
Proof.
  assert (Hst : status (Auth.login sampleCompare userTokens sampleSecrets
            {| now := 9000; freshId := "t2" |}
            (Some "alice@example.com") (Some "alice") bobSession).2 = 200%nat)
    by (vm_compute; reflexivity).
  split; [exact Hst|].
  destruct (login_replaces_refresh_tokens sampleCompare userTokens
              sampleTokenUser sampleSecrets {| now := 9000; freshId := "t2" |}
              (Some "alice@example.com") (Some "alice") bobSession)
    as (user & accessToken & refreshToken & Hu & Hg & Hone & _ & Hothers & _).
  - intros id email role accessToken refreshToken Hg.
    injection Hg as <- <-. vm_compute. reflexivity.
  - intros t Ht. vm_compute in Ht.
    inversion Ht as [|? ? ? Hnil]; subst; [reflexivity|inversion Hnil].
  - by apply (bool_decide_unpack _); vm_compute.
  - exact Hst.
  - vm_compute in Hu. injection Hu as <-.
    vm_compute in Hg. injection Hg as <- <-.
    split; [exact Hone|]. apply Hothers. discriminate.
Defined.

(** ** The unread counter *)

Section UnreadCounter.
Variable trim : string → string.
Variable lastReadAtDefault : Z → Z.

Lemma NoDup_fmap_eq {A B} (f : A → B) (l : list A) (x y : A) :
  NoDup (f <$> l) → x ∈ l → y ∈ l → f x = f y → x = y.
Proof.
  induction l as [|a l IH]; simpl; intros Hnd Hx Hy Hf.
  - by apply elem_of_nil in Hx.
  - apply NoDup_cons in Hnd as [Hna Hnd].
    apply elem_of_cons in Hx as [->|Hx]; apply elem_of_cons in Hy as [->|Hy];
      try done.
    + exfalso. apply Hna. rewrite Hf. by apply list_elem_of_fmap_2.
    + exfalso. apply Hna. rewrite <- Hf. by apply list_elem_of_fmap_2.
    + by apply IH.
Qed.

(** *** Mark read *)



(** *** Delete *)

Lemma recountUnread_other (workspaceId : string) (msgs : list ChatMessage)
    (t : gmap (string * string) ChatNotification) (userId : string)
    (k : string * string) :
  k ≠ (userId, workspaceId) →
  Chat.recountUnread workspaceId msgs t userId !! k = t !! k.
Proof.
  intros Hne. unfold Chat.recountUnread.
  destruct (t !! (userId, workspaceId)); [|done].
  by rewrite lookup_insert_ne.
Qed.


Lemma recount_fold_other (workspaceId : string) (msgs : list ChatMessage)
    (l : list string) (t : gmap (string * string) ChatNotification)
    (k : string * string) :
  k.2 ≠ workspaceId →
  foldl (Chat.recountUnread workspaceId msgs) t l !! k = t !! k.
Proof.
  intros Hne. revert t. induction l as [|x l IH]; intros t; [done|].
  simpl. rewrite IH. apply recountUnread_other.
  destruct k as [u w]. simpl in Hne. congruence.
Qed.



Lemma owner_of_found (s : Store) (workspaceId owner : string)
    (workspace : Workspace) :
  NoDup (ws_id <$> workspaces s) →
  findFirst (λ w, ws_id w = workspaceId) (workspaces s) = Some workspace →
  Exists (ownedBy workspaceId owner) (workspaces s) →
  ws_ownerId workspace = owner.
Proof.
  intros Hnd Hf Hex. apply findFirst_Some in Hf as [Hid Hin].
  apply Exists_exists in Hex as (w' & Hin' & Hid' & Hown).
  assert (w' = workspace) as ->; [|done].
  eapply NoDup_fmap_eq; [exact Hnd|done..|congruence].
Qed.



(** *** Send *)


Lemma incrementUnread_other (env : Env) (workspaceId : string)
    (t : gmap (string * string) ChatNotification) (userId : string)
    (k : string * string) :
  k ≠ (userId, workspaceId) →
  Chat.incrementUnread lastReadAtDefault env workspaceId t userId !! k = t !! k.
Proof.
  intros Hne. unfold Chat.incrementUnread, upsert.
  destruct (t !! (userId, workspaceId)); by rewrite lookup_insert_ne.
Qed.

Lemma increment_fold_other (env : Env) (workspaceId : string) (l : list string)
    (t : gmap (string * string) ChatNotification) (k : string * string) :
  k.2 ≠ workspaceId ∨ k.1 ∉ l →
  foldl (Chat.incrementUnread lastReadAtDefault env workspaceId) t l !! k
  = t !! k.
Proof.
  revert t. induction l as [|x l IH]; intros t Hk; [done|].
  simpl. rewrite IH.
  - apply incrementUnread_other. destruct k as [u w]. simpl in Hk.
    intros [= -> ->]. destruct Hk as [Hk|Hk]; [done|]. apply Hk. left.
  - destruct Hk as [Hk|Hk]; [by left|]. right. intros Hin. apply Hk.
    by right.
Qed.

(** The counter of a row rises by the number of times its user is listed. *)
Lemma increment_fold_same (env : Env) (workspaceId : string) (l : list string)
    (t : gmap (string * string) ChatNotification) (userId : string)
    (n : ChatNotification) :
  t !! (userId, workspaceId) = Some n →
  foldl (Chat.incrementUnread lastReadAtDefault env workspaceId) t l
    !! (userId, workspaceId)
  = Some {| cn_unreadCount :=
              cn_unreadCount n + length (filter (λ x, x = userId) l);
            cn_lastReadAt := cn_lastReadAt n |}.
Proof.
  revert t n. induction l as [|x l IH]; intros t n Hn; simpl.
  - rewrite Hn. destruct n. simpl. by rewrite Nat.add_0_r.
  - rewrite filter_cons. destruct (decide (x = userId)) as [->|Hne].
    + erewrite IH.
      2: { unfold Chat.incrementUnread, upsert. rewrite Hn.
           apply lookup_insert_eq. }
      simpl. do 2 f_equal. lia.
    + erewrite IH; [done|].
      rewrite incrementUnread_other by congruence. done.
Qed.



Lemma filter_nil_not_Exists {A} (P : A → Prop) {Pdec : ∀ x, Decision (P x)}
    (l : list A) :
  ¬ Exists P l → filter P l = [].
Proof.
  intros Hno. destruct (filter P l) as [|x l'] eqn:E; [done|].
  exfalso. apply Hno, Exists_exists. exists x.
  assert (Hx : x ∈ filter P l) by (rewrite E; left).
  apply list_elem_of_filter in Hx as [? ?]. done.
Qed.

Lemma accepted_member_once (workspaceId userId : string)
    (l : list WorkspaceMember) :
  NoDup ((λ m, (wm_workspaceId m, wm_userId m)) <$> l) →
  Exists (acceptedMemberOf workspaceId userId) l →
  length (filter (acceptedMemberOf workspaceId userId) l) = 1%nat.
Proof.
  induction l as [|m l IH]; intros Hnd Hex.
  - by apply Exists_nil in Hex.
  - rewrite fmap_cons in Hnd. apply NoDup_cons in Hnd as [Hnotin Hnd].
    rewrite filter_cons.
    destruct (decide (acceptedMemberOf workspaceId userId m)) as [Hm|Hm].
    + rewrite filter_nil_not_Exists; [done|].
      intros Hex'. apply Exists_exists in Hex' as (m' & Hin & Hw & Hu & _).
      apply Hnotin. destruct Hm as (Hw' & Hu' & _).
      apply list_elem_of_fmap. exists m'. split; [|done]. congruence.
    + apply IH; [done|]. apply Exists_cons in Hex as [?|?]; done.
Qed.

Lemma recipients_members_count (uid workspaceId userId : string)
    (l : list WorkspaceMember) :
  userId ≠ uid →
  length (filter (λ x, x = userId)
            (wm_userId <$>
               filter (λ m, wm_workspaceId m = workspaceId
                            ∧ wm_accepted m = true ∧ wm_userId m ≠ uid) l))
  = length (filter (acceptedMemberOf workspaceId userId) l).
Proof.
  intros Hne. induction l as [|m l IH]; [done|].
  rewrite !filter_cons. unfold acceptedMemberOf at 1.
  destruct (decide (wm_workspaceId m = workspaceId ∧ wm_accepted m = true
                    ∧ wm_userId m ≠ uid)) as [(Hw & Ha & Hu)|Hno].
  - rewrite fmap_cons, filter_cons.
    destruct (decide (wm_userId m = userId)) as [He|He].
    + rewrite decide_True by done. simpl. by rewrite IH.
    + rewrite decide_False by (intros (? & ? & ?); done). done.
  - rewrite decide_False; [done|].
    intros (Hw & Hu & Ha). apply Hno. repeat split; congruence.
Qed.

Lemma sendRecipients_author (uid workspaceId : string) (workspace : Workspace)
    (s : Store) :
  uid ∉ Chat.sendRecipients uid workspaceId workspace s.
Proof.
  unfold Chat.sendRecipients. intros Hin.
  apply elem_of_app in Hin as [Hin|Hin].
  - apply list_elem_of_fmap in Hin as (m & Hu & Hm).
    apply list_elem_of_filter in Hm as [(_ & _ & Hne) _]. congruence.
  - case_decide; [|by apply elem_of_nil in Hin].
    apply list_elem_of_singleton in Hin. congruence.
Qed.

Lemma sendRecipients_once (uid workspaceId userId : string)
    (workspace : Workspace) (msgs : list ChatMessage) (s : Store) :
  keysUnique s → ownerNotMember s workspaceId →
  findFirst (λ w, ws_id w = workspaceId) (workspaces s) = Some workspace →
  userId ≠ uid → hasAccess s userId workspaceId →
  length (filter (λ x, x = userId)
            (Chat.sendRecipients uid workspaceId workspace
               (with_chatMessages msgs s))) = 1%nat.
Proof.
  intros (_ & Hws & Hmem) Hown Hf Hne Hacc.
  unfold Chat.sendRecipients. simpl.
  rewrite filter_app, length_app, recipients_members_count by done.
  pose proof (findFirst_Some _ _ _ Hf) as [Hid Hin]. simpl in Hid.
  assert (Hisowner : Exists (ownedBy workspaceId (ws_ownerId workspace))
                       (workspaces s)).
  { apply Exists_exists. by exists workspace. }
  destruct Hacc as [Ho|Hm].
  - assert (ws_ownerId workspace = userId) as Heq by (by eapply owner_of_found).
    rewrite filter_nil_not_Exists by (by apply Hown).
    rewrite decide_True by congruence.
    rewrite filter_cons, decide_True by done. done.
  - rewrite accepted_member_once by done.
    case_decide; [|done].
    rewrite filter_cons, decide_False; [done|].
    intros Heq. apply (Hown _ Hisowner). by rewrite Heq.
Qed.



End UnreadCounter.



(** ** The claims at sample inputs *)

Lemma friend_request_unvalidated_witness :
  ¬ Exists (λ u, u_id u = "nobody") (users usersOnly)
  ∧ friends usersOnly = []
  ∧ Socket.friendRequest {| now := 7000; freshId := "x" |} (socketOf "alice")
      (Some {| Socket.fq_targetUserId := Some "nobody";
               Socket.fq_action := None |}) usersOnly
    = [Socket.emit (Socket.ToRoom "user_nobody") "friend_request_received"
         (Socket.DFriendRequest "alice" "alice@example.com" "sent" 7000)].
Proof.
  split; [by apply (bool_decide_unpack _); vm_compute|].
  split; [reflexivity|].
  apply (friend_request_unvalidated {| now := 7000; freshId := "x" |}
           (socketOf "alice") "nobody" None usersOnly).
  discriminate.
Defined.

Lemma task_update_revalidates_witness :
  Socket.taskUpdate {| now := 7000; freshId := "x" |} (socketOf "bob")
    (Some {| Socket.tu_wsId := Some "w1"; Socket.tu_taskId := Some "t1";
             Socket.tu_action := None; Socket.tu_taskData := None |})
    taskStore
  = [Socket.emit (Socket.ToRoom "workspace_w1") "task_updated"
       (Socket.DTaskUpdated "t1" "updated" "bob"
          (Socket.CanonicalTask loginPage) 7000)]
  ∧ refused
      (Socket.taskUpdate {| now := 7000; freshId := "x" |}
         (socketOf "mallory")
         (Some {| Socket.tu_wsId := Some "w1"; Socket.tu_taskId := Some "t1";
                  Socket.tu_action := None; Socket.tu_taskData := None |})
         taskStore)
  ∧ refused
      (Socket.taskUpdate {| now := 7000; freshId := "x" |} (socketOf "bob")
         (Some {| Socket.tu_wsId := Some "w1"; Socket.tu_taskId := Some "t9";
                  Socket.tu_action := None; Socket.tu_taskData := None |})
         taskStore).
Proof.
  split; [|split].
  - destruct (task_update_revalidates {| now := 7000; freshId := "x" |}
                (socketOf "bob")
                (Some {| Socket.tu_wsId := Some "w1";
                         Socket.tu_taskId := Some "t1";
                         Socket.tu_action := None;
                         Socket.tu_taskData := None |}) taskStore)
      as (_ & _ & Hbroadcast).
    rewrite (Hbroadcast _ "w1" "t1" eq_refl eq_refl ltac:(discriminate)
               eq_refl ltac:(discriminate)).
    vm_compute. reflexivity.
  - destruct (task_update_revalidates {| now := 7000; freshId := "x" |}
                (socketOf "mallory")
                (Some {| Socket.tu_wsId := Some "w1";
                         Socket.tu_taskId := Some "t1";
                         Socket.tu_action := None;
                         Socket.tu_taskData := None |}) taskStore)
      as (_ & Hrefused & _).
    apply (Hrefused _ eq_refl). left.
    by apply (bool_decide_unpack _); vm_compute.
  - destruct (task_update_revalidates {| now := 7000; freshId := "x" |}
                (socketOf "bob")
                (Some {| Socket.tu_wsId := Some "w1";
                         Socket.tu_taskId := Some "t9";
                         Socket.tu_action := None;
                         Socket.tu_taskData := None |}) taskStore)
      as (_ & Hrefused & _).
    apply (Hrefused _ eq_refl). right.
    by apply (bool_decide_unpack _); vm_compute.
Defined.

Lemma socket_connections_authenticated_witness :
  Socket.connect sampleVerify None "s1" {| Socket.hs_token := None |}
  = inl "인증 오류: 토큰이 제공되지 않았습니다."
  ∧ Socket.connect sampleVerify None "s1"
      {| Socket.hs_token := Some "forged" |}
    = inl "인증 오류: 유효하지 않은 토큰입니다."
  ∧ ∃ token,
      Socket.hs_token {| Socket.hs_token := Some "token-alice" |} = Some token
      ∧ token ≠ ""
      ∧ sampleVerify token (secret None)
        = Some {| Socket.pl_userId := "alice";
                  Socket.pl_email := "alice@example.com" |}.
Proof.
  destruct (socket_connections_authenticated sampleVerify None)
    as (Hnone & Hbad & Hok & _).
  split; [by apply Hnone|].
  split; [by apply (Hbad "s1" _ "forged")|].
  apply (Hok "s1" {| Socket.hs_token := Some "token-alice" |}
           {| Socket.conn_id := "s1";
              Socket.conn_user :=
                {| Socket.pl_userId := "alice";
                   Socket.pl_email := "alice@example.com" |};
              Socket.conn_rooms := ["s1"] |}).
  reflexivity.
Defined.

Lemma delete_message_permission_witness :
  status (Chat.deleteMessage "carol" "c1" afterSend).2 = 200%nat
  ∧ (∀ m, m ∈ chatMessages (Chat.deleteMessage "carol" "c1" afterSend).1 →
          cm_id m ≠ "c1")
  ∧ status (Chat.deleteMessage "mallory" "c1" afterSend).2 = 403%nat.
Proof.
  destruct (delete_message_permission "carol" "c1" afterSend) as [_ Hmember].
  destruct (delete_message_permission "mallory" "c1" afterSend) as [Hrefuse _].
  split; [|split].
  - eapply Hmember; [reflexivity..|].
    by apply (bool_decide_unpack _); vm_compute.
  - eapply Hmember; [reflexivity..|].
    by apply (bool_decide_unpack _); vm_compute.
  - apply Hrefuse. do 2 eexists.
    split; [reflexivity|]. split; [reflexivity|].
    split; [discriminate|]. split; [discriminate|].
    by apply (bool_decide_unpack _); vm_compute.
Defined.

(** * Further properties *)

(** ** Cascades and referential integrity *)

Module CascadeFacts.
Import Schema SchemaFacts.

Section Ranked.
Variable fks : list foreignKey.
Variable rank : table → nat.
Hypothesis fks_cascade : allCascade fks.
Hypothesis fks_ranked :
  ∀ fk, fk ∈ fks → (rank (fk_table fk) < rank (fk_references fk))%nat.

Lemma cascade_fold_keeps (rec : table → list string → Database → Database)
    (t : table) (ids : list string) (db : Database) :
  (∀ t' ids' db', shrinks (rec t' ids' db') db') →
  (∀ t' ids' db', (rank t' < rank t)%nat → keepsTargets fks db' (rec t' ids' db')) →
  (∀ t' ids' db' r, (rank t' < rank t)%nat →
     r ∈ rec t' ids' db' t' → row_id r ∉ ids') →
  ∀ (l : list foreignKey) (acc : Database),
    l ⊆ fks →
    (∀ fk r v p,
       fk ∈ fks → r ∈ acc (fk_table fk) →
       row_fields r !! fk_column fk = Some v →
       p ∈ db (fk_references fk) → row_id p = v →
       (∃ p', p' ∈ acc (fk_references fk) ∧ row_id p' = v)
       ∨ (fk_references fk = t ∧ v ∈ ids ∧ fk ∈ l)) →
    keepsTargets fks db (foldl (cascadeStep rec t ids) acc l).
Proof.
  intros Hshrink Hkeep Hgone l.
  induction l as [|fk0 l IH]; intros acc Hsub Hinv; simpl.
  - intros fk r v p Hfk Hr Hv Hp Hid.
    destruct (Hinv fk r v p Hfk Hr Hv Hp Hid) as [?|(_ & _ & Hin)]; [done|].
    by apply elem_of_nil in Hin.
  - assert (Hfk0 : fk0 ∈ fks) by (apply Hsub; left).
    apply IH; [intros x Hx; apply Hsub; by right|].
    intros fk r v p Hfk Hr Hv Hp Hid.
    unfold cascadeStep in *.
    destruct (decide (fk_references fk0 = t)) as [Href|Href].
    + assert (Hc : fk_onDelete fk0 = Cascade).
      { by eapply Forall_forall in fks_cascade. }
      rewrite Hc in *.
      assert (Hrank : (rank (fk_table fk0) < rank t)%nat).
      { rewrite <- Href. by apply fks_ranked. }
      set (cids := row_id <$>
                     filter (refersTo (fk_column fk0) ids) (acc (fk_table fk0)))
        in *.
      assert (Hr' : r ∈ acc (fk_table fk)) by (by eapply Hshrink).
      destruct (Hinv fk r v p Hfk Hr' Hv Hp Hid)
        as [(p' & Hp' & Hid')|(Hreft & Hvin & Hin)].
      * left. by eapply (Hkeep _ cids acc Hrank fk r v p').
      * apply elem_of_cons in Hin as [->|Hin]; [|right; done].
        exfalso. apply (Hgone _ cids acc r Hrank Hr).
        apply list_elem_of_fmap. exists r. split; [done|].
        apply list_elem_of_filter. split; [|done].
        unfold refersTo. by rewrite Hv.
    + destruct (Hinv fk r v p Hfk Hr Hv Hp Hid)
        as [?|(Hreft & Hvin & Hin)]; [by left|].
      right. repeat split; try done.
      apply elem_of_cons in Hin as [->|Hin]; done.
Qed.

Lemma deleteRows_keepsTargets (depth : nat) (t : table) (ids : list string)
    (db : Database) :
  (rank t < depth)%nat →
  keepsTargets fks db (deleteRows depth fks t ids db).
Proof.
  revert t ids db. induction depth as [|depth IH]; intros t ids db Hd; [lia|].
  simpl. apply cascade_fold_keeps.
  - intros. by apply deleteRows_shrinks.
  - intros t' ids' db' Hlt. apply IH. lia.
  - intros t' ids' db' r Hlt Hr.
    destruct depth as [|depth']; [lia|].
    by eapply deleteRows_removed.
  - done.
  - intros fk r v p Hfk Hr Hv Hp Hid.
    apply removeRows_elem in Hr as [Hr _].
    destruct (decide (fk_references fk = t ∧ v ∈ ids)) as [[? ?]|Hno].
    + by right.
    + left. exists p. split; [|done]. apply removeRows_elem.
      split; [done|]. intros Heq Hin. apply Hno. split; [done|].
      by rewrite <- Hid.
Qed.

End Ranked.

Lemma foreignKeys_ranked (fk : foreignKey) :
  fk ∈ foreignKeys →
  (cascadeRank (fk_table fk) < cascadeRank (fk_references fk))%nat.
Proof.
  unfold foreignKeys. rewrite !elem_of_cons, elem_of_nil.
  intros H. repeat (destruct H as [->|H]; [simpl; lia|]). done.
Qed.

Lemma cascadeRank_bound (t : table) : (cascadeRank t < S cascadeDepth)%nat.
Proof. destruct t; unfold cascadeDepth; simpl; lia. Qed.

End CascadeFacts.

(** X1. Deleting a row keeps the store free of dangling references: when
    every reference under the schema's foreign keys pointed to an existing
    row before, it does so after. *)
Theorem deleteRow_keeps_integrity (t : Schema.table) (i : string)
    (db : Schema.Database) :
  referentialIntegrity Schema.foreignKeys db →
  referentialIntegrity Schema.foreignKeys (Schema.deleteRow t i db).
Proof.
  intros Hint fk r v Hfk Hr Hv.
  rewrite SchemaFacts.deleteRow_unfold in Hr |- *.
  assert (Hr0 : r ∈ db (Schema.fk_table fk)).
  { eapply SchemaFacts.deleteRows_shrinks;
      [apply SchemaFacts.foreignKeys_cascade|done]. }
  destruct (Hint fk r v Hfk Hr0 Hv) as (p & Hp & Hid).
  eapply (CascadeFacts.deleteRows_keepsTargets Schema.foreignKeys cascadeRank
            SchemaFacts.foreignKeys_cascade CascadeFacts.foreignKeys_ranked);
    [apply CascadeFacts.cascadeRank_bound|done..].
Qed.

Lemma sampleDb_integrity : referentialIntegrity Schema.foreignKeys sampleDb.
Proof.
  intros fk r v Hfk Hr Hv. unfold Schema.foreignKeys in Hfk.
  rewrite !elem_of_cons, elem_of_nil in Hfk.
  repeat (destruct Hfk as [->|Hfk]); try done; simpl in *;
    rewrite ?elem_of_cons, ?elem_of_nil in Hr;
    repeat (destruct Hr as [->|Hr]); try done;
    vm_compute in Hv; injection Hv as <-;
    solve [eexists; split; [left|reflexivity]
          |eexists; split; [right; left|reflexivity]].
Qed.

Lemma deleteRow_keeps_integrity_witness :
  referentialIntegrity Schema.foreignKeys sampleDb
  ∧ referentialIntegrity Schema.foreignKeys
      (Schema.deleteRow Schema.T_users "u1" sampleDb).
Proof.
  split; [apply sampleDb_integrity|].
  apply (deleteRow_keeps_integrity Schema.T_users "u1" sampleDb).
  apply sampleDb_integrity.
Defined.

Module ReachFacts.
Import Schema SchemaFacts.

Section Reach.
Variable fks : list foreignKey.
Hypothesis fks_cascade : allCascade fks.

Lemma cascade_fold_untouched
    (rec : table → list string → Database → Database)
    (t t' : table) (ids : list string) (l : list foreignKey) (acc : Database) :
  Forall (λ fk, fk_onDelete fk = Cascade) l →
  (∀ fk ids' db', fk ∈ l → fk_references fk = t →
     rec (fk_table fk) ids' db' t' = db' t') →
  foldl (cascadeStep rec t ids) acc l t' = acc t'.
Proof.
  intros Hl. revert acc. induction Hl as [|fk l Hc Hl IH]; intros acc Hrec;
    simpl; [done|].
  rewrite IH by (intros; apply Hrec; [by right|done]).
  unfold cascadeStep. case_decide; [|done].
  rewrite Hc. apply Hrec; [left|done].
Qed.

Lemma cascadeReach_children (depth : nat) (t t' : table) (fk : foreignKey) :
  t' ∉ cascadeReach (S depth) fks t →
  fk ∈ fks → fk_references fk = t →
  t' ∉ cascadeReach depth fks (fk_table fk).
Proof.
  simpl. intros Hnot Hfk Href Hin. apply Hnot. right.
  apply list_elem_of_join. exists (cascadeReach depth fks (fk_table fk)).
  split; [done|]. apply list_elem_of_fmap. exists fk.
  by rewrite decide_True.
Qed.

(** A cascade leaves the tables it cannot reach as they are. *)
Lemma deleteRows_untouched (depth : nat) (t t' : table) (ids : list string)
    (db : Database) :
  t' ∉ cascadeReach depth fks t →
  deleteRows depth fks t ids db t' = db t'.
Proof.
  revert t ids db. induction depth as [|depth IH]; intros t ids db Hnot;
    [done|].
  simpl. rewrite cascade_fold_untouched; [|done|].
  - unfold removeRows. rewrite fn_lookup_insert_ne; [done|].
    intros ->. apply Hnot. left.
  - intros fk ids' db' Hfk Href. apply IH.
    by eapply cascadeReach_children.
Qed.

(** In the table of the delete itself exactly the rows [ids] go, when no
    cascade comes back to it. *)
Lemma deleteRows_own_table (depth : nat) (t : table) (ids : list string)
    (db : Database) :
  (∀ fk, fk ∈ fks → fk_references fk = t →
         t ∉ cascadeReach depth fks (fk_table fk)) →
  deleteRows (S depth) fks t ids db t = removeRows t ids db t.
Proof.
  intros Hnot. simpl. apply cascade_fold_untouched; [done|].
  intros fk ids' db' Hfk Href. apply deleteRows_untouched. by apply Hnot.
Qed.

End Reach.
End ReachFacts.

(** X2. Deleting a workspace removes, in the workspaces table, exactly the
    rows with that id, and leaves the users, friends, personal_todos and
    refresh_tokens tables as they were. *)
Theorem deleteRow_workspace_untouched (w : string) (db : Schema.Database) :
  let db' := Schema.deleteRow Schema.T_workspaces w db in
  (∀ r, r ∈ db' Schema.T_workspaces ↔
        r ∈ db Schema.T_workspaces ∧ Schema.row_id r ≠ w)
  ∧ db' Schema.T_users = db Schema.T_users
  ∧ db' Schema.T_friends = db Schema.T_friends
  ∧ db' Schema.T_personal_todos = db Schema.T_personal_todos
  ∧ db' Schema.T_refresh_tokens = db Schema.T_refresh_tokens.
Proof.
  intros db'. subst db'. rewrite SchemaFacts.deleteRow_unfold.
  split.
  - intros r.
    rewrite (ReachFacts.deleteRows_own_table Schema.foreignKeys
               SchemaFacts.foreignKeys_cascade).
    + rewrite SchemaFacts.removeRows_elem, list_elem_of_singleton.
      naive_solver.
    + intros fk Hfk Href. unfold Schema.foreignKeys in Hfk.
      rewrite !elem_of_cons, elem_of_nil in Hfk.
      repeat (destruct Hfk as [->|Hfk]); try done;
        by apply (bool_decide_unpack _); vm_compute.
  - repeat split;
      apply (ReachFacts.deleteRows_untouched Schema.foreignKeys
               SchemaFacts.foreignKeys_cascade);
      by apply (bool_decide_unpack _); vm_compute.
Qed.

(** X3. Deleting a user also clears what hung on the workspaces the user
    owned: such a workspace is gone, and no workspace member, group task or
    chat message row references it any more (workspace ids being unique). *)
Theorem deleteRow_user_clears_workspaces (u : string) (db : Schema.Database)
    (p : Schema.Row) :
  NoDup (Schema.row_id <$> db Schema.T_workspaces) →
  p ∈ db Schema.T_workspaces →
  Schema.row_fields p !! "ownerId" = Some u →
  let db' := Schema.deleteRow Schema.T_users u db in
  (p ∉ db' Schema.T_workspaces)
  ∧ Schema.unreferenced db' Schema.T_workspace_members "workspaceId"
      (Schema.row_id p)
  ∧ Schema.unreferenced db' Schema.T_group_tasks "workspaceId"
      (Schema.row_id p)
  ∧ Schema.unreferenced db' Schema.T_chat_messages "workspaceId"
      (Schema.row_id p).
Proof.
  intros Hnd Hp Howner db'. subst db'.
  assert (Hgone : p ∉ Schema.deleteRow Schema.T_users u db Schema.T_workspaces).
  { intros Hin.
    assert (Hun : Schema.unreferenced (Schema.deleteRow Schema.T_users u db)
                    Schema.T_workspaces "ownerId" u).
    { apply (SchemaFacts.deleteRow_unreferenced
               {| Schema.fk_name := "workspaces_ownerId_fkey";
                  Schema.fk_table := Schema.T_workspaces;
                  Schema.fk_column := "ownerId";
                  Schema.fk_references := Schema.T_users;
                  Schema.fk_onDelete := Schema.Cascade |}).
      unfold Schema.foreignKeys. repeat first [left|right]. }
    exact (Hun p Hin Howner). }
  assert (Hall : ∀ fk, fk ∈ Schema.foreignKeys →
            Schema.fk_references fk = Schema.T_workspaces →
            Schema.unreferenced (Schema.deleteRow Schema.T_users u db)
              (Schema.fk_table fk) (Schema.fk_column fk) (Schema.row_id p)).
  { intros fk Hfk Href r Hr Hv.
    rewrite SchemaFacts.deleteRow_unfold in Hr, Hgone.
    destruct (CascadeFacts.deleteRows_keepsTargets Schema.foreignKeys
                cascadeRank SchemaFacts.foreignKeys_cascade
                CascadeFacts.foreignKeys_ranked (S Schema.cascadeDepth)
                Schema.T_users [u] db
                (CascadeFacts.cascadeRank_bound Schema.T_users)
                fk r (Schema.row_id p) p Hfk Hr Hv)
      as (p' & Hp' & Hid); [by rewrite Href|done|].
    rewrite Href in Hp'.
    assert (p' = p) as ->; [|done].
    eapply (NoDup_fmap_eq Schema.row_id); [exact Hnd| |done..].
    eapply SchemaFacts.deleteRows_shrinks;
      [apply SchemaFacts.foreignKeys_cascade|done]. }
  split; [done|]. repeat split.
  - apply (Hall {| Schema.fk_name := "workspace_members_workspaceId_fkey";
                   Schema.fk_table := Schema.T_workspace_members;
                   Schema.fk_column := "workspaceId";
                   Schema.fk_references := Schema.T_workspaces;
                   Schema.fk_onDelete := Schema.Cascade |});
      [unfold Schema.foreignKeys; repeat first [left|right]|done].
  - apply (Hall {| Schema.fk_name := "group_tasks_workspaceId_fkey";
                   Schema.fk_table := Schema.T_group_tasks;
                   Schema.fk_column := "workspaceId";
                   Schema.fk_references := Schema.T_workspaces;
                   Schema.fk_onDelete := Schema.Cascade |});
      [unfold Schema.foreignKeys; repeat first [left|right]|done].
  - apply (Hall {| Schema.fk_name := "chat_messages_workspaceId_fkey";
                   Schema.fk_table := Schema.T_chat_messages;
                   Schema.fk_column := "workspaceId";
                   Schema.fk_references := Schema.T_workspaces;
                   Schema.fk_onDelete := Schema.Cascade |});
      [unfold Schema.foreignKeys; repeat first [left|right]|done].
Qed.

Lemma deleteRow_user_clears_workspaces_witness :
  (sampleRow "w1" [("ownerId", "u1")]
     ∉ Schema.deleteRow Schema.T_users "u1" sampleDb Schema.T_workspaces)
  ∧ Schema.unreferenced (Schema.deleteRow Schema.T_users "u1" sampleDb)
      Schema.T_group_tasks "workspaceId" "w1".
Proof.
  destruct (deleteRow_user_clears_workspaces "u1" sampleDb
              (sampleRow "w1" [("ownerId", "u1")]))
    as (Hgone & _ & Htasks & _).
  - apply NoDup_singleton.
  - left.
  - reflexivity.
  - split; [exact Hgone|exact Htasks].
Defined.

(** ** Chat routes: access, effects and how they compose *)

Lemma hasAccess_findFirst (s : Store) (uid workspaceId : string) :
  hasAccess s uid workspaceId ↔
  ¬ (findFirst (acceptedMemberOf workspaceId uid) (workspaceMembers s) = None
     ∧ findFirst (ownedBy workspaceId uid) (workspaces s) = None).
Proof.
  unfold hasAccess. rewrite !findFirst_None. split.
  - intros [?|?] [? ?]; done.
  - intros Hno.
    destruct (decide (Exists (ownedBy workspaceId uid) (workspaces s)));
      [by left|].
    destruct (decide (Exists (acceptedMemberOf workspaceId uid)
                        (workspaceMembers s))); [by right|].
    exfalso. by apply Hno.
Qed.

Lemma access_guard (s : Store) (uid workspaceId : string) :
  bool_decide
    (findFirst (acceptedMemberOf workspaceId uid) (workspaceMembers s) = None)
  && bool_decide (findFirst (ownedBy workspaceId uid) (workspaces s) = None)
  = bool_decide (¬ hasAccess s uid workspaceId).
Proof.
  rewrite <- bool_decide_and. apply bool_decide_ext.
  rewrite hasAccess_findFirst. split; [naive_solver|].
  intros Hnn.
  destruct (decide (findFirst (acceptedMemberOf workspaceId uid)
                      (workspaceMembers s) = None));
    destruct (decide (findFirst (ownedBy workspaceId uid) (workspaces s)
                      = None)); try done; exfalso; apply Hnn; naive_solver.
Qed.

(** X4. Mark read answers 403 and changes nothing exactly when the requester
    is neither the owner nor an accepted member; otherwise it answers 200 and
    the only change is the requester's row for that workspace, which becomes
    counter 0 with [lastReadAt] the current time, whether or not the row
    existed. *)
Theorem markRead_effect (env : Env) (uid workspaceId : string) (s : Store) :
  (¬ hasAccess s uid workspaceId →
   Chat.markRead env uid workspaceId s
   = (s, respond 403 (BError "워크스페이스에 접근할 권한이 없습니다.")))
  ∧ (hasAccess s uid workspaceId →
     Chat.markRead env uid workspaceId s
     = (with_chatNotifications
          (<[(uid, workspaceId) :=
               {| cn_unreadCount := 0; cn_lastReadAt := now env |}]>
             (chatNotifications s)) s,
        respond 200 (BInfo "채팅 메시지가 읽음 처리되었습니다."))).
Proof.
  unfold Chat.markRead. rewrite access_guard. split; intros Ha.
  - by rewrite bool_decide_eq_true_2.
  - rewrite bool_decide_eq_false_2 by (by intros Hn; apply Hn).
    do 2 f_equal. unfold upsert.
    by destruct (chatNotifications s !! (uid, workspaceId)).
Qed.

Lemma unreadCount_answer (uid workspaceId : string) (s : Store) :
  hasAccess s uid workspaceId →
  ChatReads.unreadCount uid workspaceId s
  = {| ChatReads.cr_status := 200;
       ChatReads.cr_body :=
         inr (match chatNotifications s !! (uid, workspaceId) with
              | Some n => cn_unreadCount n
              | None => 0%nat
              end) |}.
Proof.
  intros Ha. unfold ChatReads.unreadCount. rewrite access_guard.
  by rewrite bool_decide_eq_false_2 by (by intros Hn; apply Hn).
Qed.

(** X5. After a mark read by a user with access, the unread-count route
    answers 0 for that user and workspace, whatever the counter was. *)
Theorem unreadCount_after_markRead (env : Env) (uid workspaceId : string)
    (s : Store) :
  hasAccess s uid workspaceId →
  ChatReads.unreadCount uid workspaceId
    (Chat.markRead env uid workspaceId s).1
  = {| ChatReads.cr_status := 200; ChatReads.cr_body := inr 0%nat |}.
Proof.
  intros Ha. unfold Chat.markRead. rewrite access_guard.
  rewrite bool_decide_eq_false_2 by (by intros Hn; apply Hn).
  cbn [fst]. rewrite unreadCount_answer by done. simpl.
  unfold upsert.
  destruct (chatNotifications s !! (uid, workspaceId));
    by rewrite lookup_insert_eq.
Qed.

Lemma unreadCount_after_markRead_witness :
  hasAccess teamStore "carol" "w1"
  ∧ ChatReads.unreadCount "carol" "w1"
      (Chat.markRead {| now := 2500; freshId := "x" |} "carol" "w1"
         afterSend).1
    = {| ChatReads.cr_status := 200; ChatReads.cr_body := inr 0%nat |}.
Proof.
  split; [by apply (bool_decide_unpack _); vm_compute|].
  apply unreadCount_after_markRead.
  by apply (bool_decide_unpack _); vm_compute.
Defined.

Section SendCounts.
Variable trim : string → string.
Variable lastReadAtDefault : Z → Z.

Lemma increment_fold_fresh (env : Env) (workspaceId : string) (l : list string)
    (t : gmap (string * string) ChatNotification) (userId : string) :
  t !! (userId, workspaceId) = None →
  userId ∈ l →
  foldl (Chat.incrementUnread lastReadAtDefault env workspaceId) t l
    !! (userId, workspaceId)
  = Some {| cn_unreadCount := length (filter (λ x, x = userId) l);
            cn_lastReadAt := lastReadAtDefault (now env) |}.
Proof.
  revert t. induction l as [|x l IH]; intros t Hn Hin;
    [by apply elem_of_nil in Hin|].
  simpl. rewrite filter_cons. destruct (decide (x = userId)) as [->|Hne].
  - erewrite increment_fold_same.
    2: { unfold Chat.incrementUnread, upsert. rewrite Hn.
         apply lookup_insert_eq. }
    done.
  - apply IH.
    + by rewrite incrementUnread_other by congruence.
    + apply elem_of_cons in Hin as [?|?]; [congruence|done].
Qed.

Lemma filter_eq_elem (l : list string) (x : string) :
  (0 < length (filter (λ y, y = x) l))%nat → x ∈ l.
Proof.
  intros Hlen. destruct (filter (λ y, y = x) l) as [|y l'] eqn:E;
    [simpl in Hlen; lia|].
  assert (Hy : y ∈ filter (λ y, y = x) l) by (rewrite E; left).
  apply list_elem_of_filter in Hy as [-> ?]. done.
Qed.

Lemma increment_fold_reported (env : Env) (workspaceId : string)
    (l : list string) (t : gmap (string * string) ChatNotification)
    (userId : string) :
  match foldl (Chat.incrementUnread lastReadAtDefault env workspaceId) t l
          !! (userId, workspaceId) with
  | Some n => cn_unreadCount n
  | None => 0%nat
  end
  = (match t !! (userId, workspaceId) with
     | Some n => cn_unreadCount n
     | None => 0%nat
     end + length (filter (λ x, x = userId) l))%nat.
Proof.
  destruct (t !! (userId, workspaceId)) as [n|] eqn:Hn.
  - by erewrite increment_fold_same.
  - destruct (decide (0 < length (filter (λ x, x = userId) l))%nat) as [Hl|Hl].
    + rewrite increment_fold_fresh; [done..|]. by apply filter_eq_elem.
    + rewrite increment_fold_other.
      * rewrite Hn. lia.
      * right. simpl. intros Hin. apply Hl.
        assert (userId ∈ filter (λ x, x = userId) l)
          by (by apply list_elem_of_filter).
        destruct (filter (λ x, x = userId) l);
          [by apply elem_of_nil in H|simpl; lia].
Qed.

(** What a send does, case by case. *)
Lemma sendMessage_outcome (env : Env) (uid workspaceId : string)
    (content : option string) (s : Store) :
  let blank :=
    content = None
    ∨ ∃ c, content = Some c ∧ (c = "" ∨ String.length (trim c) = 0%nat) in
  let member :=
    Exists (acceptedMemberOf workspaceId uid) (workspaceMembers s) in
  let insertable :=
    ¬ Exists (λ m, cm_id m = freshId env) (chatMessages s)
    ∧ Exists (λ w, ws_id w = workspaceId) (workspaces s)
    ∧ Exists (λ u, u_id u = uid) (users s) in
  (blank
   ∧ Chat.sendMessage trim lastReadAtDefault env uid workspaceId content s
     = (s, respond 400 (BError "메시지 내용을 입력해주세요.")))
  ∨ (¬ blank ∧ ¬ member
     ∧ Chat.sendMessage trim lastReadAtDefault env uid workspaceId content s
       = (s, respond 403 (BError "워크스페이스에 접근할 권한이 없습니다.")))
  ∨ (¬ blank ∧ member ∧ ¬ insertable
     ∧ Chat.sendMessage trim lastReadAtDefault env uid workspaceId content s
       = (s, respond 500 (BError "채팅 메시지를 전송할 수 없습니다.")))
  ∨ (¬ blank ∧ member ∧ insertable
     ∧ ∃ c workspace,
         content = Some c
         ∧ findFirst (λ w, ws_id w = workspaceId) (workspaces s)
           = Some workspace
         ∧ Chat.sendMessage trim lastReadAtDefault env uid workspaceId content
             s
           = (with_chatNotifications
                (foldl (Chat.incrementUnread lastReadAtDefault env workspaceId)
                   (chatNotifications s)
                   (Chat.sendRecipients uid workspaceId workspace s))
                (with_chatMessages
                   (chatMessages s
                      ++ [{| cm_id := freshId env;
                             cm_workspaceId := workspaceId; cm_userId := uid;
                             cm_content := trim c;
                             cm_createdAt := now env |}]) s),
              respond 201
                (BChatMessage
                   {| cm_id := freshId env; cm_workspaceId := workspaceId;
                      cm_userId := uid; cm_content := trim c;
                      cm_createdAt := now env |}
                   (Chat.userBrief s uid)))).
Proof.
  intros blank member insertable. subst blank member insertable.
  unfold Chat.sendMessage.
  destruct content as [c|]; [|left; split; [by left|done]].
  destruct (decide (c = "" ∨ String.length (trim c) = 0%nat)) as [Hb|Hb].
  { left. split; [right; by exists c|done]. }
  assert (Hnb : ¬ (Some c = None
                   ∨ ∃ c0, Some c = Some c0
                           ∧ (c0 = "" ∨ String.length (trim c0) = 0%nat))).
  { intros [?|(c0 & [= <-] & ?)]; done. }
  right.
  destruct (findFirst _ (workspaceMembers s)) as [m|] eqn:Hm.
  2: { left. apply findFirst_None in Hm. done. }
  assert (Hmem : Exists (acceptedMemberOf workspaceId uid)
                   (workspaceMembers s)).
  { apply (findFirst_is_Some (acceptedMemberOf workspaceId uid)). eauto. }
  right. unfold Chat.createChatMessage.
  destruct (decide (Exists (λ m, cm_id m = freshId env) (chatMessages s)))
    as [Hid|Hid].
  { left. repeat split; try done. by intros [? _]. }
  destruct (decide (Exists (λ w, ws_id w = workspaceId) (workspaces s)
                    ∧ Exists (λ u, u_id u = uid) (users s))) as [Hfk|Hfk].
  2: { left. repeat split; try done. intros (_ & ? & ?). by apply Hfk. }
  simpl.
  destruct (findFirst (λ w, ws_id w = workspaceId) (workspaces s))
    as [workspace|] eqn:Hf.
  2: { apply findFirst_None in Hf. by destruct Hfk. }
  right. destruct Hfk. repeat split; try done. by exists c, workspace.
Qed.

End SendCounts.

Section SendFacts.
Variable trim : string → string.
Variable lastReadAtDefault : Z → Z.

Let send := Chat.sendMessage trim lastReadAtDefault.

(** X6. A send with missing or blank content is answered 400; otherwise a
    requester without an accepted member row (the owner included) is
    answered 403. Only a 201 changes the store: it appends one message, whose
    content is the trimmed text and is not empty, dated with the current
    time, and leaves workspaces and members as they were. *)
Theorem sendMessage_validation (env : Env) (uid workspaceId : string)
    (content : option string) (s : Store) :
  (status (send env uid workspaceId content s).2 ≠ 201%nat →
   (send env uid workspaceId content s).1 = s)
  ∧ (status (send env uid workspaceId content s).2 = 400%nat ↔
     blankContent trim content)
  ∧ (status (send env uid workspaceId content s).2 = 403%nat ↔
     ¬ blankContent trim content
     ∧ ¬ Exists (acceptedMemberOf workspaceId uid) (workspaceMembers s))
  ∧ (status (send env uid workspaceId content s).2 = 201%nat →
     ∃ c, content = Some c ∧ trim c ≠ ""
          ∧ chatMessages (send env uid workspaceId content s).1
            = (chatMessages s
                 ++ [{| cm_id := freshId env; cm_workspaceId := workspaceId;
                        cm_userId := uid; cm_content := trim c;
                        cm_createdAt := now env |}])%list
          ∧ workspaces (send env uid workspaceId content s).1 = workspaces s
          ∧ workspaceMembers (send env uid workspaceId content s).1
            = workspaceMembers s).
Proof.
  subst send. unfold blankContent.
  destruct (sendMessage_outcome trim lastReadAtDefault env uid workspaceId
              content s)
    as [(Hb & ->)|[(Hb & Hm & ->)|[(Hb & Hm & Hi & ->)
       |(Hb & Hm & Hi & c & workspace & -> & Hf & ->)]]]; simpl.
  - split_and!; try done; split; try done; naive_solver.
  - split_and!; try done; split; try done; naive_solver.
  - split_and!; try done; split; try done; naive_solver.
  - split_and!; try done; try (split; try done; naive_solver).
    intros _. exists c. repeat split; try done.
    intros Hempty. apply Hb. right. exists c. split; [done|]. right.
    by rewrite Hempty.
Qed.

(** X7. A successful send raises by exactly one the counter that the
    unread-count route reports to every other user with access, whether or
    not that user had a counter row, and leaves the author's answer as it
    was (keys being unique and the owner holding no member row). *)
Theorem send_raises_unread_count (env : Env) (uid workspaceId : string)
    (content : option string) (s : Store) (userId : string) :
  keysUnique s → ownerNotMember s workspaceId →
  hasAccess s userId workspaceId → userId ≠ uid →
  status (send env uid workspaceId content s).2 = 201%nat →
  ∃ n,
    ChatReads.unreadCount userId workspaceId s
    = {| ChatReads.cr_status := 200; ChatReads.cr_body := inr n |}
    ∧ ChatReads.unreadCount userId workspaceId
        (send env uid workspaceId content s).1
      = {| ChatReads.cr_status := 200; ChatReads.cr_body := inr (S n) |}
    ∧ ChatReads.unreadCount uid workspaceId
        (send env uid workspaceId content s).1
      = ChatReads.unreadCount uid workspaceId s.
Proof.
  subst send. intros Hkeys Hown Hacc Hne.
  destruct (sendMessage_outcome trim lastReadAtDefault env uid workspaceId
              content s)
    as [(Hb & ->)|[(Hb & Hm & ->)|[(Hb & Hm & Hi & ->)
       |(Hb & Hm & Hi & c & workspace & -> & Hf & ->)]]]; simpl; try done.
  intros _. eexists. split; [by apply unreadCount_answer|].
  split.
  - rewrite unreadCount_answer by done. simpl.
    rewrite increment_fold_reported.
    pose proof (sendRecipients_once uid workspaceId userId workspace
                  (chatMessages s) s Hkeys Hown Hf Hne Hacc) as Hone.
    unfold Chat.sendRecipients in *. simpl in Hone. rewrite Hone.
    do 2 f_equal. lia.
  - unfold ChatReads.unreadCount. simpl.
    rewrite increment_fold_other; [done|].
    right. apply sendRecipients_author.
Qed.

(** X8. When the owner also holds an accepted member row, as in the seeded
    workspace, a successful send by someone else raises the owner's counter
    by two: the owner is listed as a member and again as the owner. *)
Theorem send_counts_owner_twice (env : Env) (uid workspaceId : string)
    (content : option string) (s : Store) (workspace : Workspace) :
  keysUnique s →
  findFirst (λ w, ws_id w = workspaceId) (workspaces s) = Some workspace →
  ws_ownerId workspace ≠ uid →
  Exists (acceptedMemberOf workspaceId (ws_ownerId workspace))
    (workspaceMembers s) →
  status (send env uid workspaceId content s).2 = 201%nat →
  ∃ n,
    ChatReads.unreadCount (ws_ownerId workspace) workspaceId s
    = {| ChatReads.cr_status := 200; ChatReads.cr_body := inr n |}
    ∧ ChatReads.unreadCount (ws_ownerId workspace) workspaceId
        (send env uid workspaceId content s).1
      = {| ChatReads.cr_status := 200; ChatReads.cr_body := inr (S (S n)) |}.
Proof.
  subst send. intros (_ & _ & Hmem) Hf Hne Hex.
  assert (Hacc : hasAccess s (ws_ownerId workspace) workspaceId) by (by right).
  destruct (sendMessage_outcome trim lastReadAtDefault env uid workspaceId
              content s)
    as [(Hb & ->)|[(Hb & Hm & ->)|[(Hb & Hm & Hi & ->)
       |(Hb & Hm & Hi & c & workspace' & -> & Hf' & ->)]]]; simpl; try done.
  intros _. assert (workspace' = workspace) as -> by congruence.
  eexists. split; [by apply unreadCount_answer|].
  rewrite unreadCount_answer by done. simpl.
  rewrite increment_fold_reported.
  unfold Chat.sendRecipients.
  rewrite filter_app, length_app, recipients_members_count by done.
  rewrite accepted_member_once by done.
  rewrite decide_True by done. rewrite filter_cons, decide_True by done.
  simpl. do 2 f_equal. lia.
Qed.

End SendFacts.

Lemma teamStore_ownerNotMember : ownerNotMember teamStore "w1".
Proof.
  intros owner Ho Hm.
  apply Exists_exists in Ho as (w & Hin & _ & Hown).
  apply list_elem_of_singleton in Hin as ->. simpl in Hown. subst owner.
  apply Exists_exists in Hm as (m & Hin & _ & Hu & _).
  apply elem_of_cons in Hin as [->|Hin]; [discriminate|].
  apply list_elem_of_singleton in Hin as ->. discriminate.
Qed.

Lemma send_raises_unread_count_witness :
  ChatReads.unreadCount "carol" "w1" teamStore
  = {| ChatReads.cr_status := 200; ChatReads.cr_body := inr 0%nat |}
  ∧ ChatReads.unreadCount "carol" "w1" afterSend
    = {| ChatReads.cr_status := 200; ChatReads.cr_body := inr 1%nat |}.
Proof.
  destruct (send_raises_unread_count sampleTrim sampleDefault
              {| now := 2000; freshId := "c1" |} "bob" "w1" (Some "hello")
              teamStore "carol")
    as (n & Hbefore & Hafter & _).
  - by apply (bool_decide_unpack _); vm_compute.
  - apply teamStore_ownerNotMember.
  - by apply (bool_decide_unpack _); vm_compute.
  - discriminate.
  - reflexivity.
  - assert (n = 0%nat) as -> by (vm_compute in Hbefore; congruence).
    split; [exact Hbefore|exact Hafter].
Defined.

Lemma send_counts_owner_twice_witness :
  ChatReads.unreadCount "alice" "team-collab-workspace" seedStore
  = {| ChatReads.cr_status := 200; ChatReads.cr_body := inr 0%nat |}
  ∧ ChatReads.unreadCount "alice" "team-collab-workspace"
      (Chat.sendMessage sampleTrim sampleDefault
         {| now := 2000; freshId := "c1" |} "bob" "team-collab-workspace"
         (Some "hello") seedStore).1
    = {| ChatReads.cr_status := 200; ChatReads.cr_body := inr 2%nat |}.
Proof.
  destruct (send_counts_owner_twice sampleTrim sampleDefault
              {| now := 2000; freshId := "c1" |} "bob" "team-collab-workspace"
              (Some "hello") seedStore
              {| ws_id := "team-collab-workspace"; ws_name := "Team";
                 ws_ownerId := "alice" |})
    as (n & Hbefore & Hafter).
  - by apply (bool_decide_unpack _); vm_compute.
  - reflexivity.
  - discriminate.
  - by apply (bool_decide_unpack _); vm_compute.
  - reflexivity.
  - assert (n = 0%nat) as -> by (vm_compute in Hbefore; congruence).
    split; [exact Hbefore|exact Hafter].
Defined.

(** ** Keys stay unique *)

Lemma NoDup_fmap_filter {A B} (f : A → B) (P : A → Prop)
    {Pdec : ∀ x, Decision (P x)} (l : list A) :
  NoDup (f <$> l) → NoDup (f <$> filter P l).
Proof.
  induction l as [|a l IH]; [done|]. rewrite fmap_cons.
  intros [Hnotin Hnd]%NoDup_cons. rewrite filter_cons.
  destruct (decide (P a)); [|by apply IH].
  rewrite fmap_cons. apply NoDup_cons. split; [|by apply IH].
  intros Hin. apply Hnotin.
  apply list_elem_of_fmap in Hin as (x & -> & Hx).
  apply list_elem_of_filter in Hx as [_ Hx]. by apply list_elem_of_fmap_2.
Qed.

(** X9. The chat mutations keep the primary key of chat_messages and of
    workspaces and the unique key of workspace_members unique: a send stores
    a message only under an id no message has, a delete only removes. *)
Theorem chat_mutations_keep_keys (trim : string → string)
    (lastReadAtDefault : Z → Z) (env : Env) (uid workspaceId messageId : string)
    (content : option string) (s : Store) :
  keysUnique s →
  keysUnique
    (Chat.sendMessage trim lastReadAtDefault env uid workspaceId content s).1
  ∧ keysUnique (Chat.deleteMessage uid messageId s).1
  ∧ keysUnique (Chat.markRead env uid workspaceId s).1.
Proof.
  intros (Hmsg & Hws & Hmem). split; [|split].
  - destruct (sendMessage_outcome trim lastReadAtDefault env uid workspaceId
                content s)
      as [(_ & ->)|[(_ & _ & ->)|[(_ & _ & _ & ->)
         |(_ & _ & (Hfresh & _) & c & workspace & _ & _ & ->)]]];
      try done.
    split; [|done]. simpl. rewrite fmap_app. apply NoDup_app.
    split; [done|]. split; [|apply NoDup_singleton].
    intros x Hx Hin. simpl in Hin. apply list_elem_of_singleton in Hin as ->.
    apply list_elem_of_fmap in Hx as (m & Hid & Hm).
    apply Hfresh, Exists_exists. by exists m.
  - destruct (deleteMessage_cases uid messageId s)
      as [[_ ->]|[(message & _ & _ & ->)
         |(message & workspace & _ & _ & [(_ & _ & _ & ->)|(_ & ->)])]];
      try done.
    split; [|done]. simpl. by apply NoDup_fmap_filter.
  - unfold Chat.markRead. by destruct (_ && _).
Qed.

Lemma chat_mutations_keep_keys_witness :
  keysUnique teamStore
  ∧ keysUnique afterSend
  ∧ keysUnique (Chat.deleteMessage "carol" "c1" teamStore).1.
Proof.
  assert (Hk : keysUnique teamStore)
    by (by apply (bool_decide_unpack _); vm_compute).
  destruct (chat_mutations_keep_keys sampleTrim sampleDefault
              {| now := 2000; freshId := "c1" |} "bob" "w1" "c1"
              (Some "hello") teamStore Hk) as (Hsend & Hdel & _).
  split; [exact Hk|]. split; [exact Hsend|].
  destruct (chat_mutations_keep_keys sampleTrim sampleDefault
              {| now := 2000; freshId := "c1" |} "carol" "w1" "c1"
              (Some "hello") teamStore Hk) as (_ & Hdel' & _).
  exact Hdel'.
Defined.

(** ** Deleting a message: what changes and what does not *)

Lemma recountUnread_lastReadAt (workspaceId : string) (msgs : list ChatMessage)
    (t : gmap (string * string) ChatNotification) (userId : string)
    (k : string * string) :
  cn_lastReadAt <$> Chat.recountUnread workspaceId msgs t userId !! k
  = cn_lastReadAt <$> t !! k.
Proof.
  unfold Chat.recountUnread.
  destruct (t !! (userId, workspaceId)) as [n|] eqn:Hn; [|done].
  destruct (decide (k = (userId, workspaceId))) as [->|Hne].
  - by rewrite lookup_insert_eq, Hn.
  - by rewrite lookup_insert_ne.
Qed.

Lemma recount_fold_lastReadAt (workspaceId : string) (msgs : list ChatMessage)
    (l : list string) (t : gmap (string * string) ChatNotification)
    (k : string * string) :
  cn_lastReadAt <$> foldl (Chat.recountUnread workspaceId msgs) t l !! k
  = cn_lastReadAt <$> t !! k.
Proof.
  revert t. induction l as [|x l IH]; intros t; [done|].
  simpl. rewrite IH. apply recountUnread_lastReadAt.
Qed.

(** X10. A delete answers 404 exactly when no message has the id, and
    changes nothing unless it answers 200. On 200 the messages with that id
    are removed and all others kept, workspaces and members are as before,
    and the counter rows keep their keys and their [lastReadAt]: only
    counters are rewritten, and only in the message's workspace. *)
Theorem deleteMessage_effect (uid messageId : string) (s : Store) :
  (status (Chat.deleteMessage uid messageId s).2 = 404%nat ↔
   ¬ Exists (λ m, cm_id m = messageId) (chatMessages s))
  ∧ (status (Chat.deleteMessage uid messageId s).2 ≠ 200%nat →
     (Chat.deleteMessage uid messageId s).1 = s)
  ∧ (status (Chat.deleteMessage uid messageId s).2 = 200%nat →
     ∃ message,
       findFirst (λ m, cm_id m = messageId) (chatMessages s) = Some message
       ∧ (∀ m, m ∈ chatMessages (Chat.deleteMessage uid messageId s).1 ↔
               m ∈ chatMessages s ∧ cm_id m ≠ messageId)
       ∧ workspaces (Chat.deleteMessage uid messageId s).1 = workspaces s
       ∧ workspaceMembers (Chat.deleteMessage uid messageId s).1
         = workspaceMembers s
       ∧ (∀ k, cn_lastReadAt
                 <$> chatNotifications (Chat.deleteMessage uid messageId s).1
                       !! k
               = cn_lastReadAt <$> chatNotifications s !! k)
       ∧ (∀ k, k.2 ≠ cm_workspaceId message →
               chatNotifications (Chat.deleteMessage uid messageId s).1 !! k
               = chatNotifications s !! k)).
Proof.
  assert (Hex : ∀ message,
            findFirst (λ m, cm_id m = messageId) (chatMessages s)
            = Some message →
            ¬ ¬ Exists (λ m, cm_id m = messageId) (chatMessages s)).
  { intros message Hm Hno. apply Hno.
    apply (findFirst_is_Some (λ m, cm_id m = messageId)). eauto. }
  destruct (deleteMessage_cases uid messageId s)
    as [[Hm ->]|[(message & Hm & Hw & ->)
       |(message & workspace & Hm & Hw & [(_ & _ & _ & ->)|(_ & ->)])]];
    simpl.
  - apply findFirst_None in Hm. split_and!; done.
  - specialize (Hex _ Hm). split_and!; try done; split; done.
  - specialize (Hex _ Hm). split_and!; try done; split; done.
  - specialize (Hex _ Hm). split_and!; try done; try (split; done).
    intros _. exists message. split_and!; try done.
    + intros m. rewrite (deleteWhere_elem (λ m, cm_id m = messageId)).
      naive_solver.
    + intros k. apply recount_fold_lastReadAt.
    + intros k Hk. by apply recount_fold_other.
Qed.

(** ** The chat-history page *)

#[global] Instance newestFirst_total : Total newestFirst.
Proof. intros a b. unfold newestFirst. lia. Qed.

Lemma Sorted_drop {A} (R : relation A) (n : nat) (l : list A) :
  Sorted R l → Sorted R (drop n l).
Proof.
  revert l. induction n as [|n IH]; intros l Hl; [done|].
  destruct l as [|x l]; [done|]. simpl. apply IH.
  by apply Sorted_inv in Hl as [? _].
Qed.

Lemma Sorted_take {A} (R : relation A) (n : nat) (l : list A) :
  Sorted R l → Sorted R (take n l).
Proof.
  revert n. induction l as [|x l IH]; intros n Hl.
  - by rewrite take_nil.
  - destruct n as [|n]; [constructor|]. simpl.
    apply Sorted_inv in Hl as [Hl Hhd]. constructor; [by apply IH|].
    destruct Hhd as [|y l' Hxy]; [rewrite take_nil; constructor|].
    destruct n; simpl; by constructor.
Qed.

(** X11. A chat-history page (answer 200) holds at most [limit] messages,
    all of them messages of the requested workspace, oldest first; its
    [totalCount] is the number of messages of the workspace, and [hasPrev]
    tells whether the page number is above 1. *)
Theorem chatHistory_page (uid workspaceId : string) (page : option Z)
    (limit : option nat) (s : Store)
    (messages : list (ChatMessage * option UserBrief)) (pg : Pagination) :
  Chat.chatHistory uid workspaceId page limit s
  = respond 200 (BChatPage messages pg) →
  (length messages ≤ default 50 limit)%nat
  ∧ (∀ m, m ∈ messages.*1 →
          m ∈ chatMessages s ∧ cm_workspaceId m = workspaceId)
  ∧ Sorted oldestFirst (messages.*1)
  ∧ totalCount pg
    = count (λ m, cm_workspaceId m = workspaceId) (chatMessages s)
  ∧ (hasPrev pg = true ↔ 1 < default 1 page).
Proof.
  unfold Chat.chatHistory.
  destruct (findFirst _ (workspaceMembers s)); [|done].
  case_decide; [done|]. intros [= <- <-]. simpl.
  set (sorted := merge_sort newestFirst _).
  set (off := Z.to_nat _).
  assert (Hfst : ((λ m, (m, Chat.userBrief s (cm_userId m)))
                    <$> reverse (take (default 50%nat limit) (drop off sorted))).*1
                 = reverse (take (default 50%nat limit) (drop off sorted))).
  { rewrite <- list_fmap_compose. apply list_fmap_id. }
  rewrite Hfst. split_and!.
  - rewrite length_fmap, length_reverse, length_take. lia.
  - intros m Hm. rewrite elem_of_reverse in Hm.
    pose proof (subseteq_take _ _ m Hm) as Hm1.
    pose proof (subseteq_drop _ _ m Hm1) as Hm2. unfold sorted in Hm2.
    rewrite merge_sort_Permutation in Hm2. rename Hm2 into Hm3. clear Hm.
    rename Hm3 into Hm.
    apply list_elem_of_filter in Hm as [? ?]. done.
  - apply (Sorted_reverse newestFirst), Sorted_take, Sorted_drop.
    unfold sorted. apply (Sorted_merge_sort newestFirst).
  - done.
  - by rewrite bool_decide_eq_true.
Qed.

Lemma chatHistory_page_witness :
  Chat.chatHistory "carol" "w1" (Some 1) (Some 2%nat) threeMessages
  = respond 200
      (BChatPage
         [(secondMessage,
           Some {| ub_id := "carol"; ub_nickname := "carol";
                   ub_avatar := None |});
          (thirdMessage,
           Some {| ub_id := "bob"; ub_nickname := "bob"; ub_avatar := None |})]
         {| currentPage := 1; totalPages := Some 2; totalCount := 3;
            hasNext := true; hasPrev := false |})
  ∧ Sorted oldestFirst [secondMessage; thirdMessage]
  ∧ (3 = count (λ m, cm_workspaceId m = "w1") (chatMessages threeMessages))%nat.
Proof.
  assert (Hpage :
    Chat.chatHistory "carol" "w1" (Some 1) (Some 2%nat) threeMessages
    = respond 200
        (BChatPage
           [(secondMessage,
             Some {| ub_id := "carol"; ub_nickname := "carol";
                     ub_avatar := None |});
            (thirdMessage,
             Some {| ub_id := "bob"; ub_nickname := "bob";
                     ub_avatar := None |})]
           {| currentPage := 1; totalPages := Some 2; totalCount := 3;
              hasNext := true; hasPrev := false |})) by (vm_compute; reflexivity).
  split; [exact Hpage|].
  destruct (chatHistory_page _ _ _ _ _ _ _ Hpage) as (_ & _ & Hsorted & Hn & _).
  split; [exact Hsorted|exact Hn].
Defined.

(** ** Socket handlers: who is told what *)

(** X12. For a non-empty todo id, the todo_update handler emits
    friend_todo_updated exactly to the user rooms of the other parties of
    the sender's accepted friendships, one event per accepted friends row in
    either direction; pending and blocked rows get nothing, and the store is
    not asked whether the todo exists or belongs to the sender. *)
Theorem todo_update_reaches_accepted_friends (env : Env) (c : Socket.Conn)
    (todoId : string) (action todoData : option string) (s : Store) :
  todoId ≠ "" →
  let userId := Socket.pl_userId (Socket.conn_user c) in
  let out :=
    Socket.todoUpdate env c
      (Some {| Socket.du_todoId := Some todoId; Socket.du_action := action;
               Socket.du_todoData := todoData |}) s in
  (∀ e, e ∈ out ↔
        ∃ f, f ∈ friends s ∧ acceptedFriendship userId f
             ∧ e = Socket.emit (Socket.ToRoom (Socket.userRoom (otherParty userId f)))
                     "friend_todo_updated"
                     (Socket.DFriendTodoUpdated todoId (orElse action "updated")
                        userId todoData (now env)))
  ∧ length out = count (acceptedFriendship userId) (friends s)
  ∧ out
    = Socket.todoUpdate env c
        (Some {| Socket.du_todoId := Some todoId; Socket.du_action := action;
                 Socket.du_todoData := todoData |})
        (with_personalTodos [] s).
Proof.
  intros Hne userId out. subst out. unfold Socket.todoUpdate. simpl.
  rewrite bool_decide_eq_true_2 by done. simpl. fold userId.
  split_and!.
  - intros e. rewrite list_elem_of_fmap. split.
    + intros (f & -> & Hf). apply list_elem_of_filter in Hf as [Hacc Hin].
      exists f. split; [done|]. split; [done|]. reflexivity.
    + intros (f & Hin & Hacc & ->). exists f. split; [reflexivity|].
      apply list_elem_of_filter. done.
  - by rewrite length_fmap.
  - done.
Qed.

Lemma todo_update_reaches_accepted_friends_witness :
  Socket.todoUpdate {| now := 7000; freshId := "x" |} (socketOf "alice")
    (Some {| Socket.du_todoId := Some "todo-1"; Socket.du_action := None;
             Socket.du_todoData := None |}) friendsStore
  = [Socket.emit (Socket.ToRoom "user_bob") "friend_todo_updated"
       (Socket.DFriendTodoUpdated "todo-1" "updated" "alice" None 7000)]
  ∧ length
      (Socket.todoUpdate {| now := 7000; freshId := "x" |} (socketOf "alice")
         (Some {| Socket.du_todoId := Some "todo-1"; Socket.du_action := None;
                  Socket.du_todoData := None |}) friendsStore)
    = count (acceptedFriendship "alice") (friends friendsStore).
Proof.
  split; [reflexivity|].
  destruct (todo_update_reaches_accepted_friends
              {| now := 7000; freshId := "x" |} (socketOf "alice") "todo-1"
              None None friendsStore) as (_ & Hlen & _); [discriminate|].
  exact Hlen.
Defined.

Lemma handle_emissions_user (env : Env) (c c' : Socket.Conn) (ev : Socket.Event)
    (s : Store) (out : list Socket.Emission) (e : Socket.Emission) (u : string) :
  Socket.handle env c ev s = Some (c', out) →
  e ∈ out → emissionUser (Socket.em_data e) = Some u →
  u = Socket.pl_userId (Socket.conn_user c).
Proof.
  intros Hh He Hu.
  destruct ev; simpl in Hh;
    unfold Socket.joinWorkspace, Socket.leaveWorkspace, Socket.taskUpdate,
      Socket.todoUpdate, Socket.friendRequest, Socket.joinPersonalChannel,
      Socket.typing, Socket.disconnect, Socket.errorTo in Hh;
    repeat case_match; simplify_eq/=;
    repeat (apply elem_of_cons in He as [->|He]; simpl in Hu;
            [by simplify_eq|]);
    try (by apply elem_of_nil in He);
    apply list_elem_of_fmap in He as (x & -> & _); simpl in Hu;
    by simplify_eq.
Qed.

Section Identity.
Variable trim : string → string.
Variable lastReadAtDefault : Z → Z.
Variable parseDate : string → option Z.
Variable jwtVerify : string → string → option Socket.Payload.
Variable JWT_SECRET : option string.

(** X13. In every world the process reaches, an emitted event that names a
    user as its origin names the user of a verified token: the identity in
    user_joined, task_updated, friend_request_received and the other events
    is the one of the socket's token, never one taken from the client's
    payload. *)
Theorem emitted_identity_is_authenticated (s0 : Store) (w : Server.World)
    (id : string) (e : Socket.Emission) (u : string) :
  Server.reachable trim lastReadAtDefault parseDate jwtVerify JWT_SECRET s0 w →
  (id, e) ∈ Server.outbox w →
  emissionUser (Socket.em_data e) = Some u →
  ∃ token p, token ≠ ""
             ∧ jwtVerify token (secret JWT_SECRET) = Some p
             ∧ Socket.pl_userId p = u.
Proof.
  intros Hr. revert id e u.
  induction Hr as [|i w Hr IH]; intros id e u Hin Hu.
  - by apply elem_of_nil in Hin.
  - destruct i as [env r|id' h|env id' ev]; simpl in Hin.
    + destruct (Server.handleRest _ _ _ _ _ _). by eapply IH.
    + destruct (Socket.connect _ _ _ _); by eapply IH.
    + destruct (Server.conns w !! id') as [c|] eqn:Hc; [|by eapply IH].
      destruct (Socket.handle env c ev (Server.db w)) as [[c' out]|] eqn:Hh;
        simpl in Hin; [|by eapply IH].
      apply elem_of_app in Hin as [Hin|Hin]; [by eapply IH|].
      apply list_elem_of_fmap in Hin as (e' & [= -> ->] & He).
      pose proof (reachable_authenticated jwtVerify JWT_SECRET trim
                    lastReadAtDefault parseDate s0 w Hr id' c Hc)
        as (token & Hne & Hv).
      exists token, (Socket.conn_user c). split; [done|]. split; [done|].
      symmetry. by eapply handle_emissions_user.
Qed.

End Identity.

Lemma emitted_identity_is_authenticated_witness :
  Server.outbox aliceOnline
  = [("s1", Socket.emit Socket.ToSender "joined_personal_channel"
              (Socket.DPersonal "alice"))]
  ∧ ∃ token p, token ≠ ""
               ∧ sampleVerify token (secret None) = Some p
               ∧ Socket.pl_userId p = "alice".
Proof.
  split; [reflexivity|].
  apply (emitted_identity_is_authenticated sampleTrim sampleDefault noDate
           sampleVerify None usersOnly aliceOnline "s1"
           (Socket.emit Socket.ToSender "joined_personal_channel"
              (Socket.DPersonal "alice")) "alice").
  - unfold aliceOnline. do 2 apply Server.reachable_serve.
    apply Server.reachable_initial.
  - assert (Hout : Server.outbox aliceOnline
                   = [("s1", Socket.emit Socket.ToSender
                               "joined_personal_channel"
                               (Socket.DPersonal "alice"))]) by reflexivity.
    rewrite Hout. left.
  - reflexivity.
Defined.

(** X15. The join_workspace handler ignores an empty workspace id without any
    answer. For a non-empty id it puts the socket into the workspace room and
    emits joined_workspace and user_joined when the user is the owner or an
    accepted member, keeping the rooms the socket was in; otherwise it emits
    one error to the sender and the socket's rooms stay as they were. *)
Theorem join_workspace_outcome (c : Socket.Conn) (wsId : option string)
    (s : Store) :
  (truthy wsId = false → Socket.joinWorkspace c wsId s = (c, []))
  ∧ (∀ w, wsId = Some w → w ≠ "" →
       (hasAccess s (Socket.pl_userId (Socket.conn_user c)) w →
        Socket.workspaceRoom w
          ∈ Socket.conn_rooms (Socket.joinWorkspace c wsId s).1
        ∧ Socket.conn_rooms c
            ⊆ Socket.conn_rooms (Socket.joinWorkspace c wsId s).1
        ∧ (Socket.joinWorkspace c wsId s).2
          = [Socket.emit Socket.ToSender "joined_workspace"
               (Socket.DWorkspace w);
             Socket.emit (Socket.ToOthersIn (Socket.workspaceRoom w))
               "user_joined"
               (Socket.DUser (Socket.pl_userId (Socket.conn_user c))
                  (Socket.pl_email (Socket.conn_user c)))])
       ∧ (¬ hasAccess s (Socket.pl_userId (Socket.conn_user c)) w →
          Socket.joinWorkspace c wsId s
          = (c, [Socket.errorTo "워크스페이스에 접근 권한이 없습니다."]))).
Proof.
  split.
  - intros Ht. unfold Socket.joinWorkspace. by rewrite Ht.
  - intros w -> Hne.
    destruct (joinWorkspace_access c w s Hne) as [Hyes Hno].
    split; [|done]. intros Ha. rewrite (Hyes Ha). simpl.
    split_and!; [| |done]; case_decide; set_solver.
Qed.

(** ** Group tasks *)

Section TaskFacts.
Variable parseDate : string → option Z.

Lemma orElse_valid (x : option string) (d : string) (l : list string) :
  d ∈ l →
  truthy x && bool_decide (default "" x ∉ l) = false →
  orElse x d ∈ l.
Proof.
  intros Hd Hx. destruct x as [v|]; simpl in *; [|done].
  destruct (decide (v = "")) as [->|Hne]; [done|].
  rewrite bool_decide_eq_true_2 in Hx by done. simpl in Hx.
  apply bool_decide_eq_false in Hx. by apply dec_stable.
Qed.

(** X16. A task creation changes the store only when it answers 201, and
    then appends one task of the requested workspace under the fresh id: its
    title is not empty, its department is FE, BE or QA, its status is one of
    the three valid ones (pending when none is given), and its start date is
    before its due date. *)
Theorem createTask_validated (env : Env) (wsId : string) (b : Tasks.TaskBody)
    (s : Store) :
  (status (Tasks.createTask parseDate env wsId b s).2 ≠ 201%nat →
   (Tasks.createTask parseDate env wsId b s).1 = s)
  ∧ (status (Tasks.createTask parseDate env wsId b s).2 = 201%nat →
     ∃ task,
       body (Tasks.createTask parseDate env wsId b s).2 = BTask task
       ∧ groupTasks (Tasks.createTask parseDate env wsId b s).1
         = (groupTasks s ++ [task])%list
       ∧ gt_id task = freshId env ∧ gt_workspaceId task = wsId
       ∧ gt_title task ≠ ""
       ∧ gt_department task ∈ departments
       ∧ gt_status task ∈ validStatuses
       ∧ gt_startDate task < gt_dueDate task
       ∧ ¬ Exists (λ t, gt_id t = freshId env) (groupTasks s)
       ∧ Exists (λ w, ws_id w = wsId) (workspaces s)).
Proof.
  unfold Tasks.createTask.
  destruct (truthy (Tasks.tb_title b)) eqn:Ht; simpl; [|done].
  destruct (truthy (Tasks.tb_department b)) eqn:Hd; simpl; [|done].
  destruct (truthy (Tasks.tb_startDate b)) eqn:Hs; simpl; [|done].
  destruct (truthy (Tasks.tb_dueDate b)) eqn:Hdu; simpl; [|done].
  destruct (decide (default "" (Tasks.tb_department b) ∉ departments))
    as [|Hdep]; [done|].
  destruct (truthy (Tasks.tb_status b)
            && bool_decide (default "" (Tasks.tb_status b) ∉ validStatuses))
    eqn:Hst; [done|].
  destruct (parseDate (default "" (Tasks.tb_startDate b))) as [st|]; [|done].
  destruct (parseDate (default "" (Tasks.tb_dueDate b))) as [du|]; [|done].
  destruct (decide (du ≤ st)); [done|].
  unfold Tasks.createGroupTask. simpl.
  destruct (decide (Exists (λ x, gt_id x = freshId env) (groupTasks s)));
    [done|].
  destruct (decide (Exists (λ w, ws_id w = wsId) (workspaces s))); [|done].
  simpl. split; [done|]. intros _. eexists. split; [done|].
  split; [done|]. simpl. split_and!; try done.
  - apply truthy_Some in Ht as (v & -> & ?). done.
  - by apply dec_stable.
  - apply orElse_valid; [|done]. unfold validStatuses. set_solver.
  - lia.
Qed.

Lemma updateWhere_elem {A} (P : A → Prop) {Pdec : ∀ x, Decision (P x)}
    (f : A → A) (l : list A) (x : A) :
  x ∈ updateWhere P f l ↔
  ∃ y, y ∈ l ∧ x = (if decide (P y) then f y else y).
Proof.
  unfold updateWhere. rewrite list_elem_of_fmap. naive_solver.
Qed.

Lemma task_found_by_id (wsId taskId : string) (s : Store) (task : GroupTask) :
  NoDup (gt_id <$> groupTasks s) →
  findFirst (λ t, gt_id t = taskId ∧ gt_workspaceId t = wsId) (groupTasks s)
  = Some task →
  findFirst (λ t, gt_id t = taskId) (groupTasks s) = Some task
  ∧ ∀ t, t ∈ groupTasks s → gt_id t = taskId → t = task.
Proof.
  intros Hnd Hf. apply findFirst_Some in Hf as [[Hid Hws] Hin].
  assert (Hall : ∀ t, t ∈ groupTasks s → gt_id t = taskId → t = task).
  { intros t Ht Hidt. eapply NoDup_fmap_eq; [exact Hnd|done..|congruence]. }
  split; [|done].
  destruct (findFirst (λ t, gt_id t = taskId) (groupTasks s)) as [t|] eqn:E.
  - apply findFirst_Some in E as [? ?]. f_equal. by apply Hall.
  - apply findFirst_None in E. exfalso. apply E, Exists_exists. eauto.
Qed.

(** X17. A PATCH that carries only a due date is accepted whatever the
    stored start date is: the answer is 200 and the stored task gets the new
    due date and keeps its start date, so that the order of the two dates,
    which creation enforces, is not checked (task ids being unique). *)
Theorem updateTask_single_date_unchecked (wsId taskId dueDate : string)
    (due : Z) (s : Store) (task : GroupTask) :
  NoDup (gt_id <$> groupTasks s) →
  findFirst (λ t, gt_id t = taskId ∧ gt_workspaceId t = wsId) (groupTasks s)
  = Some task →
  dueDate ≠ "" → parseDate dueDate = Some due →
  let b :=
    {| Tasks.tb_title := None; Tasks.tb_description := None;
       Tasks.tb_department := None; Tasks.tb_status := None;
       Tasks.tb_startDate := None; Tasks.tb_dueDate := Some dueDate;
       Tasks.tb_id := None; Tasks.tb_workspaceId := None |} in
  ∃ updated,
    (Tasks.updateTask parseDate wsId taskId b s).2 = respond 200 (BTask updated)
    ∧ updated ∈ groupTasks (Tasks.updateTask parseDate wsId taskId b s).1
    ∧ gt_id updated = taskId
    ∧ gt_startDate updated = gt_startDate task
    ∧ gt_dueDate updated = due.
Proof.
  intros Hnd Hf Hne Hparse b. subst b.
  destruct (task_found_by_id wsId taskId s task Hnd Hf) as [Hid _].
  pose proof (findFirst_Some _ _ _ Hf) as [[Htid _] Hin].
  unfold Tasks.updateTask. rewrite Hf. simpl. rewrite Hid.
  unfold Tasks.applyTaskBody. simpl.
  rewrite decide_False by done. rewrite Hparse.
  unfold Tasks.updateGroupTask. simpl.
  rewrite decide_False by (by intros [? _]).
  rewrite decide_False by (by intros [? _]).
  eexists. split; [reflexivity|]. simpl. split_and!; try done.
  apply updateWhere_elem. exists task. split; [done|].
  by rewrite decide_True.
Qed.




Lemma updateWhere_fmap {A B} (P : A → Prop) {Pdec : ∀ x, Decision (P x)}
    (f : A → A) (g : A → B) (l : list A) :
  (∀ x, g (f x) = g x) → g <$> updateWhere P f l = g <$> l.
Proof.
  intros Hg. unfold updateWhere. rewrite <- list_fmap_compose.
  apply list_fmap_ext. intros _ x _. simpl. case_decide; [apply Hg|done].
Qed.

Lemma updateWhere_idemp {A} (P : A → Prop) {Pdec : ∀ x, Decision (P x)}
    (f : A → A) (l : list A) :
  (∀ x, P (f x) ↔ P x) → (∀ x, f (f x) = f x) →
  updateWhere P f (updateWhere P f l) = updateWhere P f l.
Proof.
  intros HP Hf. unfold updateWhere. rewrite <- list_fmap_compose.
  apply list_fmap_ext. intros _ x _. simpl.
  destruct (decide (P x)) as [Hx|Hx].
  - rewrite decide_True by by apply HP. apply Hf.
  - by rewrite decide_False.
Qed.

Lemma count_updateWhere {A} (P : A → Prop) {Pdec : ∀ x, Decision (P x)}
    (f : A → A) (l : list A) :
  (∀ x, P (f x) ↔ P x) → count P (updateWhere P f l) = count P l.
Proof.
  intros HP. unfold count, updateWhere.
  induction l as [|x l IH]; [done|]. rewrite fmap_cons, !filter_cons.
  destruct (decide (P x)) as [Hx|Hx].
  - rewrite decide_True by by apply HP. simpl. by rewrite IH.
  - by rewrite decide_False.
Qed.

(** X19. The bulk status update answers 400, changing nothing, exactly when
    the id list is missing or empty or the status is not one of the three
    valid ones.  Otherwise it answers 200, keeps the tasks and their order,
    rewrites the status of the listed tasks of the workspace and of no other
    task (ids that match nothing are ignored, not reported), and sending the
    same request again gives the same store and the same answer. *)
Theorem tasks_bulkStatus_effect (wsId : string)
    (taskIds : option (list string)) (newStatus : option string) (s : Store) :
  let r := Tasks.bulkStatus wsId taskIds newStatus s in
  (status r.2 = 400%nat ↔
   taskIds = None ∨ taskIds = Some []
   ∨ ¬ ∃ v, newStatus = Some v ∧ v ∈ validStatuses)
  ∧ (status r.2 = 400%nat → r.1 = s)
  ∧ (status r.2 ≠ 400%nat →
     status r.2 = 200%nat
     ∧ gt_id <$> groupTasks r.1 = gt_id <$> groupTasks s
     ∧ (∀ t', t' ∈ groupTasks r.1 →
        ∃ t, t ∈ groupTasks s
          ∧ gt_id t' = gt_id t ∧ gt_workspaceId t' = gt_workspaceId t
          ∧ gt_title t' = gt_title t ∧ gt_description t' = gt_description t
          ∧ gt_department t' = gt_department t
          ∧ gt_startDate t' = gt_startDate t ∧ gt_dueDate t' = gt_dueDate t
          ∧ (gt_id t ∈ default [] taskIds ∧ gt_workspaceId t = wsId →
             Some (gt_status t') = newStatus)
          ∧ (¬ (gt_id t ∈ default [] taskIds ∧ gt_workspaceId t = wsId) →
             t' = t))
     ∧ Tasks.bulkStatus wsId taskIds newStatus r.1 = r).
Proof.
  intros r. subst r. unfold Tasks.bulkStatus.
  destruct taskIds as [[|i ids]|]; simpl.
  1,3: split_and!; [naive_solver|done|done].
  assert (Hvalid : negb (truthy newStatus)
                   || bool_decide (default "" newStatus ∉ validStatuses) = false
                   ↔ ∃ v, newStatus = Some v ∧ v ∈ validStatuses).
  { rewrite orb_false_iff, negb_false_iff, bool_decide_eq_false.
    split.
    - intros [Ht Hv]. apply truthy_Some in Ht as (v & -> & _).
      exists v. split; [done|]. simpl in Hv.
      by destruct (decide (v ∈ validStatuses)).
    - intros (v & -> & Hv). split; [|simpl; tauto].
      unfold validStatuses in Hv. set_unfold.
      by destruct Hv as [->|[->|[->|[]]]]. }
  destruct (negb (truthy newStatus) || _); simpl.
  - split_and!; [|done|done]. split; [|done]. intros _. right. right.
    rewrite <- Hvalid. congruence.
  - destruct Hvalid as [Hvalid _].
    destruct (Hvalid eq_refl) as (v & -> & Hv). simpl.
    split_and!; [|done|].
    { split; [done|]. intros [?|[?|Hn]]; [done..|]. destruct Hn. eauto. }
    intros _. split_and!; [done| | |].
    + by apply (updateWhere_fmap _ _ gt_id).
    + intros t' Ht'. apply updateWhere_elem in Ht' as (t & Ht & ->).
      exists t. split; [done|].
      destruct (decide _) as [Hhit|Hhit]; simpl; split_and!; done.
    + rewrite count_updateWhere by done.
      rewrite updateWhere_idemp by done. done.
Qed.

End TaskFacts.

(** ** Personal todo routes *)

Section TodoFacts.

Variable parseDate : string → option Z.

Lemma deleteWhere_none {A} (P : A → Prop) {Pdec : ∀ x, Decision (P x)}
    (l : list A) :
  ¬ Exists P l → deleteWhere P l = l.
Proof.
  unfold deleteWhere. induction l as [|x l IH]; [done|]. intros Hn.
  rewrite filter_cons, decide_True.
  - f_equal. apply IH. intros H. apply Hn. by right.
  - intros H. apply Hn. by left.
Qed.


Lemma createTodo_todos (env : Env) (userId : string) (b : Todos.TodoBody)
    (s : Store) :
  (Todos.createTodo parseDate env userId b s).1 = s
  ∨ ∃ todo,
      Todos.createTodo parseDate env userId b s
      = (with_personalTodos (personalTodos s ++ [todo]) s,
         respond 201 (BTodo todo))
      ∧ pt_userId todo = userId ∧ pt_id todo = freshId env
      ∧ ¬ Exists (λ x, pt_id x = freshId env) (personalTodos s).
Proof.
  unfold Todos.createTodo.
  destruct (negb _); [by left|].
  destruct (_ && _); [by left|]. destruct (_ && _); [by left|].
  destruct (Todos.optionalDate _ _) as [st|]; [|by left].
  destruct (Todos.optionalDate _ _) as [du|]; [|by left].
  unfold Todos.createPersonalTodo. simpl.
  destruct (decide (Exists _ (personalTodos s))) as [|Hfresh]; [by left|].
  destruct (decide (Exists _ (users s))); [|by left].
  right. eexists. split; [reflexivity|]. done.
Qed.



(** X21. Creating a todo and then deleting it, by the id the 201 answer
    carries and as the same user, answers 204 and gives back the store as it
    was before the creation; deleting it once more answers 404. *)
Theorem createTodo_then_deleteTodo (env : Env) (userId : string)
    (b : Todos.TodoBody) (s : Store) (todo : PersonalTodo) :
  (Todos.createTodo parseDate env userId b s).2 = respond 201 (BTodo todo) →
  Todos.deleteTodo userId (pt_id todo)
    (Todos.createTodo parseDate env userId b s).1
  = (s, respond 204 BEmpty)
  ∧ (Todos.deleteTodo userId (pt_id todo) s).2
    = respond 404 (BError "Todo를 찾을 수 없습니다").
Proof.
  intros H201.
  assert (Hcases := createTodo_todos env userId b s).
  destruct Hcases as [Hsame|(todo' & Heq & Huser & Hid & Hfresh)].
  { exfalso. revert H201 Hsame. unfold Todos.createTodo.
    repeat case_match; try discriminate.
    unfold Todos.createPersonalTodo in *. repeat case_match; try discriminate.
    simplify_eq/=. intros _ Hs.
    apply (f_equal personalTodos) in Hs. simpl in Hs.
    apply (f_equal length) in Hs. rewrite length_app in Hs. simpl in Hs. lia. }
  rewrite Heq in H201 |- *. simpl in H201. simplify_eq. simpl.
  assert (Hnone :
    findFirst (λ t, pt_id t = freshId env ∧ pt_userId t = pt_userId todo)
      (personalTodos s) = None).
  { apply findFirst_None. intros Hex. apply Hfresh.
    eapply Exists_impl; [exact Hex|]. naive_solver. }
  split.
  - unfold Todos.deleteTodo. rewrite Hid. simpl.
    destruct (findFirst _ (personalTodos s ++ [todo])) as [x|] eqn:E.
    + simpl. f_equal. unfold deleteWhere. rewrite filter_app.
      fold (deleteWhere (λ t, pt_id t = freshId env) (personalTodos s)).
      rewrite deleteWhere_none by done.
      rewrite filter_cons, decide_False by tauto.
      rewrite filter_nil, app_nil_r. by destruct s.
    + exfalso. apply findFirst_None in E. apply E.
      apply Exists_app. right. by left.
  - unfold Todos.deleteTodo. rewrite Hid, Hnone. done.
Qed.

End TodoFacts.

(** ** Token refresh and logout *)

Section SessionFacts.

Variable bcryptCompare : string → string → bool.
Variable jwtVerify : string → string → option Socket.Payload.
Variable generateTokens : string → string → string → option (string * string).

Lemma findFirst_unique {A} (P : A → Prop) {Pdec : ∀ x, Decision (P x)}
    (l : list A) (x : A) :
  x ∈ l → P x → (∀ y, y ∈ l → P y → y = x) → findFirst P l = Some x.
Proof.
  intros Hin HP Huniq.
  destruct (findFirst P l) as [y|] eqn:E.
  - apply findFirst_Some in E as [? ?]. f_equal. by apply Huniq.
  - apply findFirst_None in E. exfalso. apply E, Exists_exists. eauto.
Qed.

(** X22. POST /auth/refresh answers 200 or 401 and nothing else.  It never
    writes a user or a new refresh token: the only change it makes is to
    delete rows holding the presented token.  A 200 leaves the store as it
    is and is given only for a stored, unexpired token of an active user
    that passes the signature check under a configured secret, and the
    account it returns is that of the token's owner. *)
Theorem refresh_outcome (penv : Auth.ProcessEnv) (env : Env)
    (refreshToken refresh : option string) (s : Store) :
  let r := Session.refresh jwtVerify generateTokens penv env
             refreshToken refresh s in
  let token := default "" (if truthy refreshToken then refreshToken
                           else refresh) in
  (Session.rr_status r.2 = 200%nat ∨ Session.rr_status r.2 = 401%nat)
  ∧ r.1 = with_refreshTokens (refreshTokens r.1) s
  ∧ (∀ t, t ∈ refreshTokens r.1 → t ∈ refreshTokens s)
  ∧ (∀ t, t ∈ refreshTokens s → rt_token t ≠ token → t ∈ refreshTokens r.1)
  ∧ (Session.rr_status r.2 = 200%nat →
     r.1 = s
     ∧ ∃ stored user secret decoded accessToken,
         stored ∈ refreshTokens s ∧ rt_token stored = token ∧ token ≠ ""
         ∧ now env ≤ rt_expiresAt stored
         ∧ user ∈ users s ∧ u_id user = rt_userId stored
         ∧ u_isActive user = true
         ∧ Auth.REFRESH_TOKEN_SECRET penv = Some secret ∧ secret ≠ ""
         ∧ jwtVerify token secret = Some decoded
         ∧ Session.rr_body r.2
           = Session.RRefreshed accessToken
               {| ac_id := u_id user; ac_email := u_email user;
                  ac_nickname := u_nickname user; ac_role := u_role user;
                  ac_avatar := u_avatar user |}).
Proof.
  intros r token. subst r. unfold Session.refresh. fold token.
  assert (Hsame : s = with_refreshTokens (refreshTokens s) s) by by destruct s.
  assert (Hdel : ∀ t, t ∈ refreshTokens s → rt_token t ≠ token →
            t ∈ refreshTokens (Session.deleteToken token s)).
  { intros t Ht Hne. unfold Session.deleteToken. simpl.
    by apply deleteWhere_elem. }
  assert (Hsub : ∀ t, t ∈ refreshTokens (Session.deleteToken token s) →
            t ∈ refreshTokens s).
  { intros t Ht. unfold Session.deleteToken in Ht. simpl in Ht.
    by apply deleteWhere_elem in Ht as [_ ?]. }
  destruct (truthy (if truthy refreshToken then refreshToken else refresh))
    eqn:Htruthy; simpl; [|split_and!; try done; by right].
  destruct (findFirst _ (refreshTokens s)) as [stored|] eqn:Hstored;
    [|split_and!; try done; by right].
  destruct (findFirst _ (users s)) as [user|] eqn:Huser;
    [|split_and!; try done; by right].
  destruct (decide (rt_expiresAt stored < now env)) as [Hexp|Hexp]; simpl;
    [split_and!; try done; by right|].
  destruct (u_isActive user) eqn:Hactive; simpl;
    [|split_and!; try done; by right].
  destruct (truthy (Auth.REFRESH_TOKEN_SECRET penv)) eqn:Hsecret;
    [|split_and!; try done; by right].
  destruct (jwtVerify token _) as [decoded|] eqn:Hjwt;
    [|split_and!; try done; by right].
  destruct (generateTokens _ _ _) as [[accessToken ?]|];
    [|split_and!; try done; by right].
  simpl. split_and!; try done; [by left|]. intros _. split; [done|].
  apply findFirst_Some in Hstored as [Htok Hin].
  apply findFirst_Some in Huser as [Hid Hinu].
  apply truthy_Some in Hsecret as (secret & Hsec & Hne).
  apply truthy_Some in Htruthy as (v & Hv & Hvne).
  rewrite Hsec in Hjwt. simpl in Hjwt.
  exists stored, user, secret, decoded, accessToken.
  split_and!; try done; [|lia].
  unfold token. by rewrite Hv.
Qed.

(** X23. Logging out deletes the refresh tokens of the user and of nobody
    else, and ends the user's sessions: a refresh presenting any token the
    user held before is answered 401 and changes nothing (tokens being
    unique, as the index on the column makes them). *)
Theorem logout_ends_sessions (penv : Auth.ProcessEnv) (env : Env)
    (userId : string) (s : Store) (held : RefreshToken) :
  NoDup (rt_token <$> refreshTokens s) →
  held ∈ refreshTokens s → rt_userId held = userId → rt_token held ≠ "" →
  let s' := (Session.logout userId s).1 in
  tokensOf userId s' = []
  ∧ (∀ other, other ≠ userId → tokensOf other s' = tokensOf other s)
  ∧ Session.refresh jwtVerify generateTokens penv env
      (Some (rt_token held)) None s'
    = (s', {| Session.rr_status := 401;
              Session.rr_body := Session.RError "유효하지 않은 리프레시 토큰입니다" |}).
Proof.
  intros Hnd Hheld Huser Hne s'. subst s'. unfold Session.logout, tokensOf.
  cbn [fst refreshTokens with_refreshTokens].
  split_and!.
  - apply (filter_deleteWhere_nil (λ t, rt_userId t = userId)).
  - intros other Hother.
    apply (filter_deleteWhere_other (λ t, rt_userId t = userId)).
    intros x. simpl. congruence.
  - assert (Hgone :
      findFirst (λ t, rt_token t = rt_token held)
        (deleteWhere (λ t, rt_userId t = userId) (refreshTokens s)) = None).
    { apply findFirst_None. rewrite Exists_exists.
      intros (t & Hin & Htok). apply deleteWhere_elem in Hin as [Hnot Hin].
      apply Hnot. rewrite <- Huser. f_equal.
      by eapply NoDup_fmap_eq. }
    unfold Session.refresh. simpl.
    repeat (case_bool_decide; [|done]; simpl). by rewrite Hgone.
Qed.

(** X24. A refresh presenting a stored token after its expiry date is
    answered 401 and deletes the token, so that presenting it again is
    answered as for a token the database does not know. *)
Theorem refresh_expired_token_deleted (penv : Auth.ProcessEnv) (env env' : Env)
    (s : Store) (stored : RefreshToken) (user : User) :
  findFirst (λ t, rt_token t = rt_token stored) (refreshTokens s)
  = Some stored →
  user ∈ users s → u_id user = rt_userId stored →
  rt_token stored ≠ "" →
  rt_expiresAt stored < now env →
  let r := Session.refresh jwtVerify generateTokens penv env
             (Some (rt_token stored)) None s in
  r.2 = {| Session.rr_status := 401;
           Session.rr_body := Session.RError "리프레시 토큰이 만료되었습니다" |}
  ∧ (∀ t, t ∈ refreshTokens r.1 ↔
       t ∈ refreshTokens s ∧ rt_token t ≠ rt_token stored)
  ∧ Session.refresh jwtVerify generateTokens penv env'
      (Some (rt_token stored)) None r.1
    = (r.1, {| Session.rr_status := 401;
               Session.rr_body :=
                 Session.RError "유효하지 않은 리프레시 토큰입니다" |}).
Proof.
  intros Hstored Huser Hid Hne Hexp r. subst r.
  assert (Hgone :
    findFirst (λ t, rt_token t = rt_token stored)
      (deleteWhere (λ t, rt_token t = rt_token stored) (refreshTokens s))
    = None).
  { apply findFirst_None. rewrite Exists_exists.
    intros (t & Hin & Htok). by apply deleteWhere_elem in Hin as [Hnot _]. }
  assert (Hr :
    Session.refresh jwtVerify generateTokens penv env
      (Some (rt_token stored)) None s
    = (Session.deleteToken (rt_token stored) s,
       {| Session.rr_status := 401;
          Session.rr_body := Session.RError "리프레시 토큰이 만료되었습니다" |})).
  { unfold Session.refresh. simpl.
    repeat (case_bool_decide; [|done]; simpl). rewrite Hstored.
    destruct (findFirst _ (users s)) as [u|] eqn:Hu.
    2: { apply findFirst_None in Hu. exfalso. apply Hu, Exists_exists. eauto. }
    by rewrite decide_True by done. }
  rewrite Hr. simpl. split_and!; [done| |].
  - intros t. rewrite (deleteWhere_elem (λ t, rt_token t = rt_token stored)).
    tauto.
  - unfold Session.refresh. simpl.
    repeat (case_bool_decide; [|done]; simpl). by rewrite Hgone.
Qed.

(** X25. The refresh token a successful login hands out works: when the
    login stored the token row, a refresh presenting that token within seven
    days, the token passing the signature check, is answered 200 with the
    account the login returned, and leaves the store as it is (user ids being
    unique). *)
Theorem refresh_after_login (penv : Auth.ProcessEnv) (env env' : Env)
    (email password : option string) (s : Store) (account : Account)
    (accessToken refreshToken : string) :
  let out := Auth.login bcryptCompare generateTokens penv env email password s in
  NoDup (u_id <$> users s) →
  out.2 = respond 200 (BLogin account accessToken (Some refreshToken)) →
  tokensOf (ac_id account) out.1 ≠ [] →
  now env' ≤ now env + Auth.sevenDays →
  is_Some (jwtVerify refreshToken
             (default "" (Auth.REFRESH_TOKEN_SECRET penv))) →
  ∃ accessToken',
    Session.refresh jwtVerify generateTokens penv env'
      (Some refreshToken) None out.1
    = (out.1,
       {| Session.rr_status := 200;
          Session.rr_body := Session.RRefreshed accessToken' account |}).
Proof.
  intros out Hnd H200 Hstored Hnow [decoded Hjwt]. subst out.
  revert H200 Hstored. unfold Auth.login.
  destruct (negb (truthy email) || negb (truthy password)); [done|].
  destruct (findFirst _ (users s)) as [user|] eqn:Huser; [|done].
  destruct (negb (u_isActive user)) eqn:Hactive; [done|].
  destruct (negb (bcryptCompare _ _)); [done|].
  destruct (negb (truthy (Auth.JWT_SECRET penv)) || _) eqn:Hsecrets; [done|].
  destruct (generateTokens _ _ _) as [[a r]|] eqn:Hgen; [|done].
  cbn [fst snd]. intros H200 Hstored.
  apply orb_false_iff in Hsecrets as [_ Hsecret].
  apply negb_false_iff in Hsecret. apply negb_false_iff in Hactive.
  assert (r = refreshToken ∧ refreshToken ≠ "") as [-> Hne].
  { simpl in H200. case_bool_decide; by simplify_eq. }
  assert (account = {| ac_id := u_id user; ac_email := u_email user;
                       ac_nickname := u_nickname user; ac_role := u_role user;
                       ac_avatar := u_avatar user |}) as ->.
  { by simplify_eq/=. }
  clear H200. simpl in Hstored.
  apply findFirst_Some in Huser as [_ Hin].
  set (s1 := with_users _ s) in *.
  set (new := {| rt_id := freshId env; rt_token := refreshToken;
                 rt_userId := u_id user;
                 rt_expiresAt := now env + Auth.sevenDays |}).
  set (rest := deleteWhere (λ t, rt_userId t = u_id user) (refreshTokens s)).
  assert (
    Auth.replaceRefreshToken env (u_id user) refreshToken s1
    = with_refreshTokens (rest ++ [new]) s1
    ∧ ¬ Exists (λ x, rt_token x = refreshToken) rest) as [Hout Hfresh].
  { revert Hstored.
    unfold Auth.replaceRefreshToken, Auth.createRefreshToken, tokensOf.
    cbn [rt_id rt_token rt_userId refreshTokens with_refreshTokens users].
    change (refreshTokens s1) with (refreshTokens s). fold rest.
    assert (Hnil : filter (λ t, rt_userId t = u_id user) rest = [])
      by apply (filter_deleteWhere_nil (λ t, rt_userId t = u_id user)).
    destruct (decide (Exists _ rest)); [simpl; by rewrite Hnil|].
    destruct (decide (Exists _ rest)); [simpl; by rewrite Hnil|].
    destruct (decide (Exists _ _)); [|simpl; by rewrite Hnil].
    done. }
  rewrite Hout.
  assert (Htok : findFirst (λ t, rt_token t = refreshToken) (rest ++ [new])
                 = Some new).
  { apply findFirst_unique; [set_solver|done|].
    intros y Hy Hytok. apply elem_of_app in Hy as [Hy|Hy]; [|set_solver].
    exfalso. apply Hfresh, Exists_exists. eauto. }
  assert (Hu : findFirst (λ u, u_id u = u_id user) (users s1)
               = Some (Auth.touchLastLogin env user)).
  { apply findFirst_unique; [| done |].
    - unfold s1. simpl. apply updateWhere_elem. exists user.
      by rewrite decide_True.
    - unfold s1. simpl. intros y Hy Hyid.
      apply updateWhere_elem in Hy as (x & Hx & ->).
      assert (x = user) as ->.
      { eapply NoDup_fmap_eq; [exact Hnd|done..|].
        by destruct (decide (u_id x = u_id user)). }
      by rewrite decide_True. }
  exists a. unfold Session.refresh. simpl.
  repeat (case_bool_decide; [|done]; simpl).
  rewrite Htok. simpl. unfold s1 in Hu. simpl in Hu. rewrite Hu.
  rewrite decide_False by (simpl; lia). simpl.
  rewrite Hactive, Hsecret. simpl. rewrite Hjwt, Hgen. done.
Qed.

End SessionFacts.

(** ** Workspace members *)

Lemma findFirst_snoc_new {A} (P : A → Prop) {Pdec : ∀ x, Decision (P x)}
    (l : list A) (x : A) :
  ¬ Exists P l → P x → findFirst P (l ++ [x]) = Some x.
Proof.
  intros Hn Hx. apply findFirst_unique; [set_solver|done|].
  intros y Hy HPy. apply elem_of_app in Hy as [Hy|Hy]; [|set_solver].
  exfalso. apply Hn, Exists_exists. eauto.
Qed.

Lemma updateWhere_snoc_new {A} (P : A → Prop) {Pdec : ∀ x, Decision (P x)}
    (f : A → A) (l : list A) (x : A) :
  ¬ Exists P l → P x → updateWhere P f (l ++ [x]) = (l ++ [f x])%list.
Proof.
  intros Hn Hx. unfold updateWhere. rewrite fmap_app. simpl.
  rewrite decide_True by done. f_equal.
  induction l as [|y l IH]; [done|]. simpl.
  rewrite decide_False by (intros ?; apply Hn; by left).
  f_equal. apply IH. intros ?. apply Hn. by right.
Qed.

Lemma deleteWhere_snoc_new {A} (P : A → Prop) {Pdec : ∀ x, Decision (P x)}
    (l : list A) (x : A) :
  ¬ Exists P l → P x → deleteWhere P (l ++ [x]) = l.
Proof.
  intros Hn Hx. unfold deleteWhere. rewrite filter_app.
  fold (deleteWhere P l). rewrite deleteWhere_none by done.
  rewrite filter_cons, decide_False by tauto.
  by rewrite filter_nil, app_nil_r.
Qed.

Lemma invite_created (env : Env) (userId wsId : string)
    (user_id : option string) (s : Store) :
  Members.mr_status (Members.invite env userId wsId user_id s).2 = 201%nat →
  ∃ uid workspace targetUser,
    user_id = Some uid ∧ uid ≠ "" ∧ uid ≠ userId
    ∧ findFirst (λ w, ws_id w = wsId) (workspaces s) = Some workspace
    ∧ findFirst (λ u, u_id u = uid) (users s) = Some targetUser
    ∧ ¬ Exists (Members.memberRow wsId uid) (workspaceMembers s)
    ∧ ¬ Exists (λ x, wm_id x = freshId env) (workspaceMembers s)
    ∧ chatNotifications s !! (uid, wsId) = None
    ∧ (Members.invite env userId wsId user_id s).1
      = with_chatNotifications
          (<[(uid, wsId) :=
               {| cn_unreadCount := 0; cn_lastReadAt := now env |}]>
             (chatNotifications s))
          (with_workspaceMembers
             (workspaceMembers s
              ++ [{| wm_id := freshId env; wm_workspaceId := wsId;
                     wm_userId := uid; wm_accepted := false |}]) s).
Proof.
  unfold Members.invite.
  destruct (truthy user_id) eqn:Htruthy; [|done].
  apply truthy_Some in Htruthy as (uid & -> & Hne). simpl.
  destruct (findFirst _ (workspaces s)) as [workspace|] eqn:Hws; [|done].
  destruct (findFirst _ (users s)) as [targetUser|] eqn:Hu; [|done].
  destruct (decide (uid = userId)) as [|Hself]; [done|].
  destruct (findFirst _ (workspaceMembers s)) as [|] eqn:Hm; [done|].
  apply findFirst_None in Hm.
  unfold Members.createWorkspaceMember. simpl.
  destruct (decide (Exists _ (workspaceMembers s))) as [|Hfresh]; [done|].
  destruct (decide (Exists _ (workspaceMembers s))); [done|].
  destruct (decide (Exists _ (workspaces s))); [|done].
  destruct (decide (Exists _ (users s))); [|done]. simpl.
  destruct (chatNotifications s !! (uid, wsId)) eqn:Hcn; [done|].
  intros _. exists uid, workspace, targetUser. done.
Qed.

(** X26. An invitation gives no access until the invited user accepts it.
    After a 201 from the invite route the invited user holds no accepted
    membership of the workspace; accepting, as that user, answers 200 and
    makes the user an accepted member whom the socket membership check lets
    in; declining instead answers 204 and leaves the member rows as they
    were before the invitation. *)
Theorem invitation_needs_acceptance (env : Env) (ownerId wsId : string)
    (user_id : option string) (s : Store) :
  let s1 := (Members.invite env ownerId wsId user_id s).1 in
  let uid := default "" user_id in
  Members.mr_status (Members.invite env ownerId wsId user_id s).2 = 201%nat →
  ¬ Exists (acceptedMemberOf wsId uid) (workspaceMembers s1)
  ∧ Members.mr_status
      (Members.respondToInvitation uid wsId uid (Some true) s1).2 = 200%nat
  ∧ Exists (acceptedMemberOf wsId uid)
      (workspaceMembers
         (Members.respondToInvitation uid wsId uid (Some true) s1).1)
  ∧ Socket.checkWorkspaceMembership uid wsId
      (Members.respondToInvitation uid wsId uid (Some true) s1).1 = true
  ∧ Members.mr_status
      (Members.respondToInvitation uid wsId uid (Some false) s1).2 = 204%nat
  ∧ workspaceMembers
      (Members.respondToInvitation uid wsId uid (Some false) s1).1
    = workspaceMembers s.
Proof.
  intros s1 uid H201. subst s1 uid.
  destruct (invite_created _ _ _ _ _ H201)
    as (uid & workspace & targetUser & -> & Hne & Hself & Hws & Hu & Hnone
        & Hfresh & Hcn & ->).
  simpl. clear H201.
  set (member := {| wm_id := freshId env; wm_workspaceId := wsId;
                    wm_userId := uid; wm_accepted := false |}).
  assert (Hfind : findFirst (Members.memberRow wsId uid)
                    (workspaceMembers s ++ [member]) = Some member)
    by by apply findFirst_snoc_new.
  assert (Hacc : Exists (acceptedMemberOf wsId uid)
                   (workspaceMembers s ++ [Members.accept member])).
  { apply Exists_app. right. by left. }
  unfold Members.respondToInvitation.
  destruct (decide (uid ≠ uid)) as [Hc|_]; [by destruct Hc|].
  cbn [workspaceMembers with_workspaceMembers with_chatNotifications].
  rewrite Hfind.
  cbn [negb fst snd workspaceMembers with_workspaceMembers
       with_chatNotifications Members.mr_status Members.answer].
  change (wm_id member) with (freshId env).
  rewrite (updateWhere_snoc_new (λ m, wm_id m = freshId env)) by done.
  rewrite (deleteWhere_snoc_new (λ m, wm_id m = freshId env)) by done.
  split_and!; try done.
  - rewrite Exists_app. intros [Hex|Hex].
    + apply Hnone. eapply Exists_impl; [exact Hex|].
      intros m (? & ? & ?). by split.
    + apply Exists_cons in Hex as [(_ & _ & Hex)|Hex]; [done|].
      by apply Exists_nil in Hex.
  - apply checkWorkspaceMembership_spec. right. exact Hacc.
Qed.

Lemma member_found_by_id (wsId userId : string) (s : Store)
    (member : WorkspaceMember) :
  NoDup (wm_id <$> workspaceMembers s) →
  findFirst (Members.memberRow wsId userId) (workspaceMembers s)
  = Some member →
  Members.memberRow wsId userId member
  ∧ member ∈ workspaceMembers s
  ∧ ∀ m, m ∈ workspaceMembers s → wm_id m = wm_id member → m = member.
Proof.
  intros Hnd Hf. apply findFirst_Some in Hf as [Hrow Hin].
  split_and!; [done..|].
  intros m Hm Hid. by eapply NoDup_fmap_eq.
Qed.

(** X27. A user answers only their own invitation.  Whatever the request,
    the accept/decline route leaves every member row that is not the
    caller's row of that workspace as it is, writes nothing but member rows,
    and changes nothing at all when the user id of the path is not the
    caller's (member ids being unique). *)
Theorem respond_only_own_invitation (currentUserId wsId user_id : string)
    (accepted : option bool) (s : Store) (m : WorkspaceMember) :
  let r := Members.respondToInvitation currentUserId wsId user_id accepted s in
  NoDup (wm_id <$> workspaceMembers s) →
  ¬ Members.memberRow wsId currentUserId m →
  (m ∈ workspaceMembers r.1 ↔ m ∈ workspaceMembers s)
  ∧ r.1 = with_workspaceMembers (workspaceMembers r.1) s
  ∧ (user_id ≠ currentUserId →
     r.1 = s
     ∧ (Members.mr_status r.2 = 400%nat ∨ Members.mr_status r.2 = 403%nat)).
Proof.
  intros r Hnd Hrow. subst r.
  assert (Hsame : s = with_workspaceMembers (workspaceMembers s) s)
    by by destruct s.
  unfold Members.respondToInvitation.
  destruct accepted as [accepted|]; [|split_and!; try done; eauto].
  destruct (decide (user_id ≠ currentUserId)) as [Hne|Heq];
    [split_and!; try done; eauto|].
  assert (user_id = currentUserId) as ->
    by (destruct (decide (user_id = currentUserId)); tauto).
  destruct (findFirst _ (workspaceMembers s)) as [member|] eqn:Hf;
    [|split_and!; done].
  destruct (member_found_by_id _ _ _ _ Hnd Hf) as (Hmember & Hin & Huniq).
  destruct accepted; simpl; (split_and!; [|done|done]).
  - rewrite updateWhere_elem. split.
    + intros (y & Hy & ->). case_decide as Hid; [|done].
      rewrite (Huniq y Hy Hid) in Hrow. by destruct Hrow.
    + intros Hm. exists m. split; [done|].
      rewrite decide_False; [done|]. intros Hid.
      by rewrite (Huniq m Hm Hid) in Hrow.
  - rewrite (deleteWhere_elem (λ x, wm_id x = wm_id member)).
    split; [tauto|]. intros Hm. split; [|done]. intros Hid.
    by rewrite (Huniq m Hm Hid) in Hrow.
Qed.

(** X28. A user who declined an invitation cannot be invited again without
    an error: the decline deletes the member row but keeps the chat
    notification row the invitation created, so that the next invitation of
    the same user answers 500 on the notification's unique key; and when the
    new member id is unused, that failed invitation still leaves a pending
    member row behind. *)
Theorem reinvite_after_decline_fails (env env2 : Env) (ownerId wsId : string)
    (user_id : option string) (s : Store) :
  let uid := default "" user_id in
  let s1 := (Members.invite env ownerId wsId user_id s).1 in
  let s2 := (Members.respondToInvitation uid wsId uid (Some false) s1).1 in
  let r := Members.invite env2 ownerId wsId user_id s2 in
  Members.mr_status (Members.invite env ownerId wsId user_id s).2 = 201%nat →
  Members.mr_status r.2 = 500%nat
  ∧ (¬ Exists (λ m, wm_id m = freshId env2) (workspaceMembers s) →
     Exists (λ m, Members.memberRow wsId uid m ∧ wm_accepted m = false)
       (workspaceMembers r.1)).
Proof.
  intros uid s1 s2 r H201. subst r s2 s1 uid.
  destruct (invite_created _ _ _ _ _ H201)
    as (uid & workspace & targetUser & -> & Hne & Hself & Hws & Hu & Hnone
        & Hfresh & Hcn & ->).
  clear H201. change (default "" (Some uid)) with uid.
  set (member := {| wm_id := freshId env; wm_workspaceId := wsId;
                    wm_userId := uid; wm_accepted := false |}).
  assert (Hfind : findFirst (Members.memberRow wsId uid)
                    (workspaceMembers s ++ [member]) = Some member)
    by by apply findFirst_snoc_new.
  unfold Members.respondToInvitation.
  destruct (decide (uid ≠ uid)) as [Hc|_]; [by destruct Hc|].
  cbn [workspaceMembers with_workspaceMembers with_chatNotifications].
  rewrite Hfind. cbn [negb fst].
  change (wm_id member) with (freshId env).
  rewrite (deleteWhere_snoc_new (λ m, wm_id m = freshId env)) by done.
  unfold Members.invite. change (default "" (Some uid)) with uid.
  cbn [truthy]. rewrite bool_decide_true by done. cbn [negb].
  cbn [workspaces users workspaceMembers with_workspaceMembers
       with_chatNotifications].
  rewrite Hws, Hu. rewrite decide_False by done.
  pose proof (proj2 (findFirst_None _ _) Hnone) as Hnone'. rewrite Hnone'.
  unfold Members.createWorkspaceMember.
  cbn [wm_id wm_workspaceId wm_userId workspaces users workspaceMembers
       with_workspaceMembers with_chatNotifications].
  destruct (decide (Exists _ (workspaceMembers s))) as [Hused|Hunused];
    [split; [done|]; intros Hc; by destruct Hc|].
  rewrite decide_False by done.
  rewrite decide_True
    by (apply (findFirst_is_Some (λ w, ws_id w = wsId)); eauto).
  rewrite decide_True
    by (apply (findFirst_is_Some (λ u, u_id u = uid)); eauto).
  cbn [chatNotifications with_workspaceMembers with_chatNotifications].
  rewrite lookup_insert_eq. split; [done|]. intros _.
  cbn [fst workspaceMembers with_workspaceMembers].
  apply Exists_app. right. left. done.
Qed.

(** X29. Removing a member is refused with 403 exactly when the caller is
    neither the owner of the workspace nor the member in question, and
    answered 404 exactly when a caller who is one of the two names a user
    without a member row; nothing changes in both cases.  A 204 deletes the
    member row and the user's chat notification row of that workspace, so
    that the user is no longer a member, and touches no other member or
    notification row (member rows being unique). *)
Theorem removeMember_effect (currentUserId wsId user_id : string) (s : Store) :
  let r := Members.removeMember currentUserId wsId user_id s in
  membersUnique s →
  (Members.mr_status r.2 = 403%nat ↔
   ¬ Exists (ownedBy wsId currentUserId) (workspaces s)
   ∧ user_id ≠ currentUserId)
  ∧ (Members.mr_status r.2 = 404%nat ↔
     (Exists (ownedBy wsId currentUserId) (workspaces s)
      ∨ user_id = currentUserId)
     ∧ ¬ Exists (Members.memberRow wsId user_id) (workspaceMembers s))
  ∧ (Members.mr_status r.2 ≠ 204%nat → r.1 = s)
  ∧ (Members.mr_status r.2 = 204%nat →
     ¬ Exists (Members.memberRow wsId user_id) (workspaceMembers r.1)
     ∧ chatNotifications r.1 !! (user_id, wsId) = None
     ∧ (∀ m, ¬ Members.memberRow wsId user_id m →
        (m ∈ workspaceMembers r.1 ↔ m ∈ workspaceMembers s))
     ∧ (∀ k, k ≠ (user_id, wsId) →
        chatNotifications r.1 !! k = chatNotifications s !! k)).
Proof.
  intros r [Hids Hkeys]. subst r. unfold Members.removeMember.
  assert (Hforbidden :
    negb (bool_decide (is_Some (findFirst (ownedBy wsId currentUserId)
                                  (workspaces s))))
    && negb (bool_decide (user_id = currentUserId)) = true
    ↔ ¬ Exists (ownedBy wsId currentUserId) (workspaces s)
      ∧ user_id ≠ currentUserId).
  { rewrite andb_true_iff, !negb_true_iff, !bool_decide_eq_false.
    by rewrite (findFirst_is_Some (ownedBy wsId currentUserId)). }
  destruct (negb _ && negb _).
  { destruct Hforbidden as [Hforbidden _]. specialize (Hforbidden eq_refl).
    cbn [fst snd Members.mr_status Members.answer].
    split_and!; [done| |done|done]. split; [done|tauto]. }
  assert (Hallowed : Exists (ownedBy wsId currentUserId) (workspaces s)
                     ∨ user_id = currentUserId).
  { destruct (decide (Exists (ownedBy wsId currentUserId) (workspaces s)));
      [by left|].
    destruct (decide (user_id = currentUserId)); [by right|].
    destruct Hforbidden as [_ Hforbidden]. by specialize (Hforbidden ltac:(done)). }
  clear Hforbidden.
  destruct (findFirst _ (workspaceMembers s)) as [member|] eqn:Hf;
    cbn [fst snd Members.mr_status Members.answer].
  2: { apply findFirst_None in Hf. split_and!; [|done|done|done].
       split; [done|tauto]. }
  destruct (member_found_by_id _ _ _ _ Hids Hf) as (Hmember & Hin & Huniq).
  assert (Hfound : Exists (Members.memberRow wsId user_id)
                     (workspaceMembers s))
    by (apply Exists_exists; eauto).
  assert (Hone : ∀ m, m ∈ workspaceMembers s →
                   Members.memberRow wsId user_id m → m = member).
  { intros m Hm [Hw Hu]. destruct Hmember as [Hw' Hu'].
    eapply NoDup_fmap_eq; [exact Hkeys|done..|simpl; congruence]. }
  split_and!; [split; [done|tauto]|split; [done|tauto]|done|].
  intros _. cbn [workspaceMembers chatNotifications
                 with_workspaceMembers with_chatNotifications].
  split_and!.
  - rewrite Exists_exists. intros (m & Hm & Hrow).
    apply deleteWhere_elem in Hm as [Hid Hm].
    apply Hid. by rewrite (Hone m Hm Hrow).
  - apply lookup_delete_eq.
  - intros m Hrow. rewrite (deleteWhere_elem (λ x, wm_id x = wm_id member)).
    split; [tauto|]. intros Hm. split; [|done]. intros Hid.
    by rewrite (Huniq m Hm Hid) in Hrow.
  - intros k Hk. by apply lookup_delete_ne.
Qed.

(** ** The properties on the sample data *)

Lemma updateTask_single_date_unchecked_witness :
  ∃ updated,
    (Tasks.updateTask sampleDate "w1" "t1"
       (dueOnly "1970-01-01T00:00:00.050Z") taskStore).2
    = respond 200 (BTask updated)
    ∧ updated
      ∈ groupTasks
          (Tasks.updateTask sampleDate "w1" "t1"
             (dueOnly "1970-01-01T00:00:00.050Z") taskStore).1
    ∧ gt_id updated = "t1"
    ∧ gt_startDate updated = 100
    ∧ gt_dueDate updated = 50.
Proof.
  apply (updateTask_single_date_unchecked sampleDate "w1" "t1"
           "1970-01-01T00:00:00.050Z" 50 taskStore loginPage).
  - by apply (bool_decide_unpack _); vm_compute.
  - vm_compute. reflexivity.
  - discriminate.
  - vm_compute. reflexivity.
Defined.



Lemma createTodo_then_deleteTodo_witness :
  Todos.deleteTodo "alice" "p1" todoStore = (usersOnly, respond 204 BEmpty)
  ∧ (Todos.deleteTodo "alice" "p1" usersOnly).2
    = respond 404 (BError "Todo를 찾을 수 없습니다").
Proof.
  apply (createTodo_then_deleteTodo noDate {| now := 3000; freshId := "p1" |}
           "alice" (titleOnly "Write report") usersOnly writeReport).
  vm_compute. reflexivity.
Defined.

Lemma logout_ends_sessions_witness :
  tokensOf "bob" (Session.logout "bob" bobLoggedIn).1 = []
  ∧ (∀ other, other ≠ "bob" →
     tokensOf other (Session.logout "bob" bobLoggedIn).1
     = tokensOf other bobLoggedIn)
  ∧ Session.refresh sampleRefreshVerify sampleTokens sampleSecrets
      {| now := 6000; freshId := "x" |} (Some "refresh-token") None
      (Session.logout "bob" bobLoggedIn).1
    = ((Session.logout "bob" bobLoggedIn).1,
       {| Session.rr_status := 401;
          Session.rr_body :=
            Session.RError "유효하지 않은 리프레시 토큰입니다" |}).
Proof.
  apply (logout_ends_sessions sampleRefreshVerify sampleTokens sampleSecrets
           {| now := 6000; freshId := "x" |} "bob" bobLoggedIn bobToken).
  - by apply (bool_decide_unpack _); vm_compute.
  - vm_compute. left.
  - reflexivity.
  - discriminate.
Defined.

Lemma refresh_expired_token_deleted_witness :
  (Session.refresh sampleRefreshVerify sampleTokens sampleSecrets
     {| now := 5001 + Auth.sevenDays; freshId := "x" |}
     (Some "refresh-token") None bobLoggedIn).2
  = {| Session.rr_status := 401;
       Session.rr_body := Session.RError "리프레시 토큰이 만료되었습니다" |}
  ∧ refreshTokens
      (Session.refresh sampleRefreshVerify sampleTokens sampleSecrets
         {| now := 5001 + Auth.sevenDays; freshId := "x" |}
         (Some "refresh-token") None bobLoggedIn).1 = [].
Proof.
  destruct (refresh_expired_token_deleted sampleRefreshVerify sampleTokens
              sampleSecrets {| now := 5001 + Auth.sevenDays; freshId := "x" |}
              {| now := 5002 + Auth.sevenDays; freshId := "y" |}
              bobLoggedIn bobToken (Auth.touchLastLogin
                                      {| now := 5000; freshId := "t1" |}
                                      (sampleUser "bob")))
    as (Hanswer & _ & _).
  - vm_compute. reflexivity.
  - vm_compute. right. left.
  - reflexivity.
  - discriminate.
  - vm_compute. reflexivity.
  - split; [exact Hanswer|]. vm_compute. reflexivity.
Defined.

Lemma refresh_after_login_witness :
  ∃ accessToken,
    Session.refresh sampleRefreshVerify sampleTokens sampleSecrets
      {| now := 6000; freshId := "x" |} (Some "refresh-token") None bobLoggedIn
    = (bobLoggedIn,
       {| Session.rr_status := 200;
          Session.rr_body :=
            Session.RRefreshed accessToken
              {| ac_id := "bob"; ac_email := "bob@example.com";
                 ac_nickname := "bob"; ac_role := "member";
                 ac_avatar := None |} |}).
Proof.
  apply (refresh_after_login sampleCompare sampleRefreshVerify sampleTokens
           sampleSecrets {| now := 5000; freshId := "t1" |}
           {| now := 6000; freshId := "x" |}
           (Some "bob@example.com") (Some "bob") usersOnly
           {| ac_id := "bob"; ac_email := "bob@example.com";
              ac_nickname := "bob"; ac_role := "member"; ac_avatar := None |}
           "access-token" "refresh-token").
  - by apply (bool_decide_unpack _); vm_compute.
  - vm_compute. reflexivity.
  - vm_compute. discriminate.
  - vm_compute. discriminate.
  - vm_compute. eauto.
Defined.

Lemma invitation_needs_acceptance_witness :
  let s1 :=
    (Members.invite {| now := 1200; freshId := "m1" |} "alice" "w1"
       (Some "bob") ownerOnly).1 in
  Socket.checkWorkspaceMembership "bob" "w1" s1 = false
  ∧ Socket.checkWorkspaceMembership "bob" "w1"
      (Members.respondToInvitation "bob" "w1" "bob" (Some true) s1).1 = true
  ∧ workspaceMembers
      (Members.respondToInvitation "bob" "w1" "bob" (Some false) s1).1 = [].
Proof.
  destruct (invitation_needs_acceptance {| now := 1200; freshId := "m1" |}
              "alice" "w1" (Some "bob") ownerOnly)
    as (_ & _ & _ & Haccess & _ & Hdeclined).
  - vm_compute. reflexivity.
  - split; [vm_compute; reflexivity|].
    split; [exact Haccess|exact Hdeclined].
Defined.

Lemma respond_only_own_invitation_witness :
  (bobMember
   ∈ workspaceMembers
       (Members.respondToInvitation "carol" "w1" "bob" (Some false)
          teamStore).1 ↔
   bobMember ∈ workspaceMembers teamStore)
  ∧ (Members.respondToInvitation "carol" "w1" "bob" (Some false) teamStore).1
    = teamStore.
Proof.
  destruct (respond_only_own_invitation "carol" "w1" "bob" (Some false)
              teamStore bobMember) as (Hkept & _ & Hother).
  - by apply (bool_decide_unpack _); vm_compute.
  - intros [_ Hc]. discriminate Hc.
  - split; [exact Hkept|]. apply Hother. discriminate.
Defined.

Lemma reinvite_after_decline_fails_witness :
  let s1 :=
    (Members.invite {| now := 1200; freshId := "m1" |} "alice" "w1"
       (Some "bob") ownerOnly).1 in
  let s2 := (Members.respondToInvitation "bob" "w1" "bob" (Some false) s1).1 in
  Members.mr_status
    (Members.invite {| now := 1300; freshId := "m2" |} "alice" "w1"
       (Some "bob") s2).2 = 500%nat
  ∧ Exists (λ m, Members.memberRow "w1" "bob" m ∧ wm_accepted m = false)
      (workspaceMembers
         (Members.invite {| now := 1300; freshId := "m2" |} "alice" "w1"
            (Some "bob") s2).1).
Proof.
  destruct (reinvite_after_decline_fails {| now := 1200; freshId := "m1" |}
              {| now := 1300; freshId := "m2" |} "alice" "w1" (Some "bob")
              ownerOnly) as (H500 & Hrow).
  - vm_compute. reflexivity.
  - split; [exact H500|]. apply Hrow.
    by apply (bool_decide_unpack _); vm_compute.
Defined.

Lemma removeMember_effect_witness :
  Members.mr_status (Members.removeMember "alice" "w1" "bob" teamStore).2
  = 204%nat
  ∧ ¬ Exists (Members.memberRow "w1" "bob")
        (workspaceMembers (Members.removeMember "alice" "w1" "bob" teamStore).1)
  ∧ chatNotifications (Members.removeMember "alice" "w1" "bob" teamStore).1
      !! ("bob", "w1") = None.
Proof.
  destruct (removeMember_effect "alice" "w1" "bob" teamStore)
    as (_ & _ & _ & Hremoved).
  - split; by apply (bool_decide_unpack _); vm_compute.
  - assert (H204 : Members.mr_status
                     (Members.removeMember "alice" "w1" "bob" teamStore).2
                   = 204%nat) by (vm_compute; reflexivity).
    destruct (Hremoved H204) as (Hgone & Hcn & _).
    split; [exact H204|]. split; [exact Hgone|exact Hcn].
Defined.
